(** * KDRecipeSingleDevice: the recipe state machine of recipes/kd_single_device.py

    A shallow embedding of the single-device knowledge-distillation recipe:
    construction ([__init__]), checkpoint loading and saving, the label shift
    of the loss step and the gradient-accumulated training loop.

    Conventions of the embedding.
    - Python integers are [Z]; [//] and [%] are [Z.div] and [Z.modulo] (both
      floored, as in Python) and raise [ZeroDivisionError] on a zero divisor.
    - Python floats (losses, learning rates, clock readings, tensor entries)
      are idealised as rationals [Q]; rounding is not modelled.
    - An exception is a value of [exn]; code that can raise returns an
      [outcome]; code that also changes the recipe object, the tensor store or
      calls a collaborator runs in the monad [M] over [State].
    - Collaborators (model, loss, optimizer, scheduler, checkpointer, metric
      logger, profiler, clock) are opaque: every call is recorded in the
      [trace] of the state, and what a call returns is read from an oracle
      indexed by the position of the call in the trace.
    - The module-level names [log] and [tqdm] are free in the source file;
      logger and progress-bar calls touch neither the recipe nor a
      collaborator and are left out. *)

From Stdlib Require Import ZArith QArith List String Bool Lia Arith.
Import ListNotations.

Set Implicit Arguments.

Open Scope string_scope.
Open Scope list_scope.
Open Scope Z_scope.

(** ** Exceptions and outcomes *)

Inductive exn : Type :=
| ValueError (msg : string)
| RuntimeError (msg : string)
| AttributeError (attr : string)
| KeyError (key : string)
| ZeroDivisionError
| CollaboratorError (msg : string).

Inductive outcome (A : Type) : Type :=
| Ok (a : A)
| Raise (e : exn).

Arguments Ok {A} a.
Arguments Raise {A} e.

Definition raises {A : Type} (o : outcome A) : Prop := exists e, o = Raise e.

(** ** Devices and dtypes *)

(** torch.device: a type tag and an optional index.  Equality of devices
    compares both, as [torch.device.__eq__] does. *)
Record device : Type := mkDevice {
  device_type : string;
  device_index : option nat
}.

Definition torch_device (kind : string) : device :=
  {| device_type := kind; device_index := None |}.

Definition option_nat_eqb (a b : option nat) : bool :=
  match a, b with
  | None, None => true
  | Some x, Some y => Nat.eqb x y
  | _, _ => false
  end.

Definition device_eqb (a b : device) : bool :=
  String.eqb (device_type a) (device_type b)
  && option_nat_eqb (device_index a) (device_index b).

Inductive dtype : Type :=
| float32 | float64 | float16 | bfloat16 | int8 | int32 | int64.

Definition dtype_eqb (a b : dtype) : bool :=
  match a, b with
  | float32, float32 | float64, float64 | float16, float16
  | bfloat16, bfloat16 | int8, int8 | int32, int32 | int64, int64 => true
  | _, _ => false
  end.

(** ** Tensors and the tensor store *)

Definition matrix : Type := list (list Q).

Record tensor : Type := mkTensor {
  t_device : device;
  t_data : matrix
}.

(** Tensors are objects with identity: a state dict holds references into the
    store, so that two dicts can share one tensor. *)
Definition loc : Type := nat.
Definition Heap : Type := list tensor.

Definition empty_tensor : tensor :=
  {| t_device := torch_device "cpu"; t_data := [] |}.

Definition heap_get (h : Heap) (l : loc) : tensor := nth l h empty_tensor.

(** Parameter names.  A torchtune parameter name is a dotted path whose last
    components tell the role of the tensor inside its layer; the embedding
    keeps the layer path and the role apart. *)
Inductive pname : Type :=
| BaseWeight (layer : string)   (* <layer>.weight *)
| LoraA (layer : string)        (* <layer>.lora_a.weight *)
| LoraB (layer : string)        (* <layer>.lora_b.weight *)
| Magnitude (layer : string)    (* <layer>.magnitude *)
| OtherParam (name : string).

Definition pname_eqb (a b : pname) : bool :=
  match a, b with
  | BaseWeight x, BaseWeight y => String.eqb x y
  | LoraA x, LoraA y => String.eqb x y
  | LoraB x, LoraB y => String.eqb x y
  | Magnitude x, Magnitude y => String.eqb x y
  | OtherParam x, OtherParam y => String.eqb x y
  | _, _ => false
  end.

(** A state dict: an insertion-ordered mapping from names to tensor
    references. *)
Definition state_dict_t : Type := list (pname * loc).

Fixpoint sd_get (sd : state_dict_t) (k : pname) : option loc :=
  match sd with
  | [] => None
  | (k', v) :: rest => if pname_eqb k' k then Some v else sd_get rest k
  end.

Definition sd_keys (sd : state_dict_t) : list pname := map fst sd.

(** ** Checkpoint bundles *)

(** The keys of torchtune.training under which a bundle is organised.  Their
    string values are not part of the recipe; only that they are distinct
    constants matters. *)
Inductive ckpt_key : Type :=
| OPT_KEY | SEED_KEY | EPOCHS_KEY | TOTAL_EPOCHS_KEY | MAX_STEPS_KEY
| MODEL_KEY | ADAPTER_KEY | ADAPTER_CONFIG.

Definition ckpt_key_eqb (a b : ckpt_key) : bool :=
  match a, b with
  | OPT_KEY, OPT_KEY | SEED_KEY, SEED_KEY | EPOCHS_KEY, EPOCHS_KEY
  | TOTAL_EPOCHS_KEY, TOTAL_EPOCHS_KEY | MAX_STEPS_KEY, MAX_STEPS_KEY
  | MODEL_KEY, MODEL_KEY | ADAPTER_KEY, ADAPTER_KEY
  | ADAPTER_CONFIG, ADAPTER_CONFIG => true
  | _, _ => false
  end.

Definition ckpt_key_name (k : ckpt_key) : string :=
  match k with
  | OPT_KEY => "OPT_KEY" | SEED_KEY => "SEED_KEY" | EPOCHS_KEY => "EPOCHS_KEY"
  | TOTAL_EPOCHS_KEY => "TOTAL_EPOCHS_KEY" | MAX_STEPS_KEY => "MAX_STEPS_KEY"
  | MODEL_KEY => "MODEL_KEY" | ADAPTER_KEY => "ADAPTER_KEY"
  | ADAPTER_CONFIG => "ADAPTER_CONFIG"
  end.

(** The adapter_config record of save_checkpoint. *)
Record adapter_config_t : Type := mkAdapterConfig {
  ac_r : Z;
  ac_lora_alpha : Q;
  ac_target_modules : list string;
  ac_peft_type : string
}.

(** The optimizer's state dict is opaque; it is identified by the number of
    steps the optimizer has taken. *)
Record optimizer_state : Type := mkOptState { opt_steps_taken : nat }.

Inductive ckpt_value : Type :=
| VOptimizer (st : optimizer_state)
| VInt (n : Z)
| VOptInt (n : option Z)
| VBool (b : bool)
| VFloat (q : option Q)
| VStateDict (sd : state_dict_t)
| VAdapterConfig (c : adapter_config_t).

(** A Python dict with [ckpt_key] keys, in insertion order. *)
Definition ckpt_dict_t : Type := list (ckpt_key * ckpt_value).

Fixpoint dict_get (d : ckpt_dict_t) (k : ckpt_key) : option ckpt_value :=
  match d with
  | [] => None
  | (k', v) :: rest => if ckpt_key_eqb k' k then Some v else dict_get rest k
  end.

(** [d[k] = v]: replaces the value of an existing key in place, appends a new
    key at the end. *)
Fixpoint dict_set (d : ckpt_dict_t) (k : ckpt_key) (v : ckpt_value)
  : ckpt_dict_t :=
  match d with
  | [] => [(k, v)]
  | (k', v') :: rest =>
      if ckpt_key_eqb k' k then (k', v) :: rest
      else (k', v') :: dict_set rest k v
  end.

(** [d.update(other)]. *)
Definition dict_update (d other : ckpt_dict_t) : ckpt_dict_t :=
  fold_left (fun acc kv => dict_set acc (fst kv) (snd kv)) other d.

Definition dict_keys (d : ckpt_dict_t) : list ckpt_key := map fst d.

(** ** Batches *)

Record Batch : Type := mkBatch {
  tokens : list (list Z);                 (* shape [b, s] *)
  labels : list (list Z);                 (* shape [b, s] *)
  mask : option (list (list (list bool)));  (* shape [b, s, s] *)
  input_pos : option (list (list Z))      (* shape [b, s] *)
}.

(** [t.numel()] of a two-dimensional tensor. *)
Definition numel (t : list (list Z)) : Z :=
  fold_right (fun row acc => Z.of_nat (List.length row) + acc) 0 t.

(** ** Calls on collaborators *)

(** The log_dict handed to the metric logger. *)
Record log_record : Type := mkLogRecord {
  log_loss : Q;
  log_lr : Q;
  log_tokens_per_second_per_gpu : Q;
  log_memory_stats : bool;      (* utils.get_memory_stats merged in *)
  log_grad_norm : option Q      (* present when clipping is configured *)
}.

(** What is handed to the loss function: flattened labels, or the labels as
    they are when the model returns a list of logit chunks. *)
Inductive label_arg : Type :=
| Flat (l : list Z)
| PerRow (l : list (list Z)).

Inductive event : Type :=
| EvPerfCounter                                   (* time.perf_counter() *)
| EvLogConfig                                     (* metric_logger.log_config *)
| EvLoadCheckpoint                                (* checkpointer.load_checkpoint *)
| EvProfilerEnter | EvProfilerExit | EvProfilerStep
| EvSetEpoch (epoch : Z)                          (* sampler.set_epoch *)
| EvRecordMemoryHistory (enabled : bool)          (* torch.cuda.memory._record_memory_history *)
| EvModelForward (toks : list (list Z))           (* self._model(tokens, ...) *)
| EvLossFn (lbls : label_arg)                     (* self._loss_fn(logits, labels) *)
| EvBackward                                      (* loss.backward() *)
| EvClipGradNorm (max_norm : Q)                   (* clip_grad_norm_ *)
| EvOptimizerStep | EvZeroGrad | EvSchedulerStep
| EvGetLr                                         (* optimizer.param_groups[0]["lr"] *)
| EvGetMemoryStats                                (* utils.get_memory_stats *)
| EvLogDict (rec : log_record) (step : Z)         (* metric_logger.log_dict *)
| EvSaveCheckpoint (ckpt : ckpt_dict_t) (epoch : Z)
    (intermediate_checkpoint : bool) (adapter_only : bool)
| EvMetricLoggerClose.

(** ** Configuration *)

Record ModelConfig : Type := mkModelConfig {
  cfg_lora_rank : Z;
  cfg_lora_alpha : Q;
  cfg_lora_attn_modules : list string;
  cfg_apply_lora_to_mlp : bool;
  cfg_apply_lora_to_output : option bool
}.

(** The recognised options of the DictConfig; an option that is read with
    [cfg.get(name, default)] is an [option]. *)
Record Config : Type := mkConfig {
  cfg_device : string;
  cfg_dtype : string;
  cfg_output_dir : string;
  cfg_log_every_n_steps : option Z;
  cfg_log_peak_memory_stats : option bool;
  cfg_seed : option Z;
  cfg_epochs : Z;
  cfg_max_steps_per_epoch : option Z;
  cfg_resume_from_checkpoint : bool;
  cfg_save_adapter_weights_only : option bool;
  cfg_gradient_accumulation_steps : Z;
  cfg_clip_grad_norm : option Q;
  cfg_compile : bool;
  cfg_enable_activation_checkpointing : bool;
  cfg_shuffle : bool;
  cfg_batch_size : nat;
  cfg_model : ModelConfig
}.

Definition cfg_get {A : Type} (o : option A) (default : A) : A :=
  match o with Some a => a | None => default end.

(** ** The recipe object *)

(** The checkpointer built by load_checkpoint: the resume flag it was
    instantiated with and what its load_checkpoint() produces. *)
Record Checkpointer : Type := mkCheckpointer {
  ckptr_resume_from_checkpoint : bool;
  ckptr_load : outcome ckpt_dict_t
}.

(** The attributes that setup and _setup_model assign. *)
Record Components : Type := mkComponents {
  _model_compile : bool;
  _model : state_dict_t;              (* what self._model.state_dict() holds *)
  _lora_rank : Z;
  _lora_alpha : Q;
  _lora_attn_modules : list string;
  _apply_lora_to_mlp : bool;
  _apply_lora_to_output : bool;
  adapter_params : list pname;        (* keys of get_adapter_params(model) *)
  _is_dora : bool;
  _loss_ignore_index : Z;             (* self._loss_fn.ignore_index *)
  _chunked_logits : bool;             (* the model returns a list of chunks *)
  _dataloader : Z -> list Batch;      (* the batches of a sampler epoch *)
  _steps_per_epoch : Z;
  ignore_labels_cache : list (list Z)
}.

(** The instance attributes.  Those of __init__ are always there; an
    attribute that a later method assigns is [None] until it is assigned, and
    reading it then raises AttributeError. *)
Record Recipe : Type := mkRecipe {
  _device : device;
  _dtype : dtype;
  _output_dir : string;
  _log_every_n_steps : Z;
  _log_peak_memory_stats : bool;
  seed : Z;
  epochs_run : Z;
  total_epochs : Z;
  max_steps_per_epoch : option Z;
  global_step : Z;
  _resume_from_checkpoint : bool;
  _save_adapter_weights_only : bool;
  _gradient_accumulation_steps : Z;
  _clip_grad_norm : option Q;
  _checkpointer : option Checkpointer;
  components : option Components;
  _profiler : option unit;
  profiler_profile_memory : option bool;
  profiler_wait_steps : option Z;
  profiler_warmup_steps : option Z;
  profiler_active_steps : option Z
}.

Definition set_global_step (r : Recipe) (v : Z) : Recipe :=
  mkRecipe (_device r) (_dtype r) (_output_dir r) (_log_every_n_steps r)
    (_log_peak_memory_stats r) (seed r) (epochs_run r) (total_epochs r)
    (max_steps_per_epoch r) v (_resume_from_checkpoint r)
    (_save_adapter_weights_only r) (_gradient_accumulation_steps r)
    (_clip_grad_norm r) (_checkpointer r) (components r) (_profiler r)
    (profiler_profile_memory r) (profiler_wait_steps r)
    (profiler_warmup_steps r) (profiler_active_steps r).

Definition set_epochs_run (r : Recipe) (v : Z) : Recipe :=
  mkRecipe (_device r) (_dtype r) (_output_dir r) (_log_every_n_steps r)
    (_log_peak_memory_stats r) (seed r) v (total_epochs r)
    (max_steps_per_epoch r) (global_step r) (_resume_from_checkpoint r)
    (_save_adapter_weights_only r) (_gradient_accumulation_steps r)
    (_clip_grad_norm r) (_checkpointer r) (components r) (_profiler r)
    (profiler_profile_memory r) (profiler_wait_steps r)
    (profiler_warmup_steps r) (profiler_active_steps r).

Definition set_checkpointer (r : Recipe) (v : Checkpointer) : Recipe :=
  mkRecipe (_device r) (_dtype r) (_output_dir r) (_log_every_n_steps r)
    (_log_peak_memory_stats r) (seed r) (epochs_run r) (total_epochs r)
    (max_steps_per_epoch r) (global_step r) (_resume_from_checkpoint r)
    (_save_adapter_weights_only r) (_gradient_accumulation_steps r)
    (_clip_grad_norm r) (Some v) (components r) (_profiler r)
    (profiler_profile_memory r) (profiler_wait_steps r)
    (profiler_warmup_steps r) (profiler_active_steps r).

Definition set_components (r : Recipe) (v : Components) : Recipe :=
  mkRecipe (_device r) (_dtype r) (_output_dir r) (_log_every_n_steps r)
    (_log_peak_memory_stats r) (seed r) (epochs_run r) (total_epochs r)
    (max_steps_per_epoch r) (global_step r) (_resume_from_checkpoint r)
    (_save_adapter_weights_only r) (_gradient_accumulation_steps r)
    (_clip_grad_norm r) (_checkpointer r) (Some v) (_profiler r)
    (profiler_profile_memory r) (profiler_wait_steps r)
    (profiler_warmup_steps r) (profiler_active_steps r).

(** ** Program state and the monad of recipe methods *)

Record State : Type := mkState {
  self : Recipe;                  (* the recipe object *)
  heap : Heap;                    (* the tensors *)
  optimizer : optimizer_state;    (* the optimizer's own state *)
  trace : list event              (* the calls made so far, oldest first *)
}.

Definition M (A : Type) : Type := State -> State * outcome A.

Definition ret {A : Type} (a : A) : M A := fun s => (s, Ok a).

Definition raise {A : Type} (e : exn) : M A := fun s => (s, Raise e).

Definition bind {A B : Type} (m : M A) (f : A -> M B) : M B :=
  fun s =>
    match m s with
    | (s', Ok a) => f a s'
    | (s', Raise e) => (s', Raise e)
    end.

Declare Scope recipe_scope.
Delimit Scope recipe_scope with recipe.
Notation "x <- c1 ;; c2" := (bind c1 (fun x => c2))
  (at level 61, c1 at next level, right associativity) : recipe_scope.
Notation "c1 ;; c2" := (bind c1 (fun _ => c2))
  (at level 61, right associativity) : recipe_scope.
Open Scope recipe_scope.

Definition lift {A : Type} (o : outcome A) : M A := fun s => (s, o).

Definition get_self : M Recipe := fun s => (s, Ok (self s)).

Definition put_self (r : Recipe) : M unit :=
  fun s => (mkState r (heap s) (optimizer s) (trace s), Ok tt).

Definition get_heap : M Heap := fun s => (s, Ok (heap s)).

Definition put_heap (h : Heap) : M unit :=
  fun s => (mkState (self s) h (optimizer s) (trace s), Ok tt).

Definition get_optimizer : M optimizer_state := fun s => (s, Ok (optimizer s)).

Definition put_optimizer (o : optimizer_state) : M unit :=
  fun s => (mkState (self s) (heap s) o (trace s), Ok tt).

(** A call on a collaborator that returns nothing of interest. *)
Definition emit (ev : event) : M unit :=
  fun s => (mkState (self s) (heap s) (optimizer s) (trace s ++ [ev]), Ok tt).

(** Reading an attribute that may not have been assigned. *)
Definition getattr {A : Type} (name : string) (field : Recipe -> option A)
  : M A :=
  fun s =>
    match field (self s) with
    | Some a => (s, Ok a)
    | None => (s, Raise (AttributeError name))
    end.

(** A new tensor object. *)
Definition alloc (t : tensor) : M loc :=
  fun s => (mkState (self s) (heap s ++ [t]) (optimizer s) (trace s),
            Ok (List.length (heap s))).

Fixpoint mapM {A B : Type} (f : A -> M B) (l : list A) : M (list B) :=
  match l with
  | [] => ret []
  | a :: rest => b <- f a ;; bs <- mapM f rest ;; ret (b :: bs)
  end.

(** Python's [a // b] and [a % b] on integers. *)
Definition floordiv (a b : Z) : M Z :=
  if b =? 0 then raise ZeroDivisionError else ret (a / b).

Definition pymod (a b : Z) : M Z :=
  if b =? 0 then raise ZeroDivisionError else ret (a mod b).

(** Python's [a / b] on numbers. *)
Definition truediv (a b : Q) : M Q :=
  if Qeq_bool b 0 then raise ZeroDivisionError else ret (a / b)%Q.

(** ** Matrices *)

Definition Qsum (l : list Q) : Q := fold_right Qplus 0%Q l.

Definition dot (u v : list Q) : Q :=
  Qsum (map (fun p => (fst p * snd p)%Q) (combine u v)).

Definition column (j : nat) (X : matrix) : list Q :=
  map (fun row => nth j row 0%Q) X.

Definition ncols (X : matrix) : nat :=
  match X with
  | [] => O
  | row :: _ => List.length row
  end.

(** [X @ Y]. *)
Definition matmul (X Y : matrix) : matrix :=
  map (fun xrow => map (fun j => dot xrow (column j Y)) (seq 0 (ncols Y))) X.

(** [c * X]. *)
Definition mscale (c : Q) (X : matrix) : matrix := map (map (Qmult c)) X.

(** [X + Y]. *)
Definition madd (X Y : matrix) : matrix :=
  map (fun p => map (fun q => (fst q + snd q)%Q) (combine (fst p) (snd p)))
      (combine X Y).

(** The entry [X[i][j]]. *)
Definition mget (X : matrix) (i j : nat) : Q := nth j (nth i X []) 0%Q.

(** A matrix of [rows] rows of [cols] entries each. *)
Definition has_shape (X : matrix) (rows cols : nat) : Prop :=
  List.length X = rows /\ Forall (fun row => List.length row = cols) X.

(** The sum of [f 0 .. f (n-1)]. *)
Fixpoint sum_upto (n : nat) (f : nat -> Q) : Q :=
  match n with
  | O => 0%Q
  | S n' => (sum_upto n' f + f n')%Q
  end.

(** ** Label shifting *)

(** torch.hstack of two two-dimensional tensors: concatenation along
    dimension 1, which needs the same number of rows on both sides. *)
Definition hstack (a b : list (list Z)) : outcome (list (list Z)) :=
  if Nat.eqb (List.length a) (List.length b)
  then Ok (map (fun p => fst p ++ snd p) (combine a b))
  else Raise (RuntimeError "Sizes of tensors must match except in dimension 1").

(** torch.full((batch_size, 1), ignore_index). *)
Definition torch_full_column (batch_size : nat) (fill : Z) : list (list Z) :=
  repeat [fill] batch_size.

(** Lines 410-412 of _loss_step:
    [torch.hstack((labels[..., 1:], self.ignore_labels_cache[: labels.shape[0]]))]. *)
Definition shift_labels (cache labels : list (list Z))
  : outcome (list (list Z)) :=
  hstack (map (@tl Z) labels) (firstn (List.length labels) cache).

(** ** Counting calls in a trace *)

Definition count_events (p : event -> bool) (tr : list event) : nat :=
  List.length (filter p tr).

Definition is_optimizer_step (ev : event) : bool :=
  match ev with EvOptimizerStep => true | _ => false end.

Definition is_zero_grad (ev : event) : bool :=
  match ev with EvZeroGrad => true | _ => false end.

Definition is_scheduler_step (ev : event) : bool :=
  match ev with EvSchedulerStep => true | _ => false end.

(** Every micro-batch that the loop processes is back-propagated once. *)
Definition is_backward (ev : event) : bool :=
  match ev with EvBackward => true | _ => false end.

Definition is_log_dict (ev : event) : bool :=
  match ev with EvLogDict _ _ => true | _ => false end.

Definition is_save_checkpoint (ev : event) : bool :=
  match ev with EvSaveCheckpoint _ _ _ _ => true | _ => false end.

(** The local variables of train that live across micro-batches. *)
Record Locals : Type := mkLocals {
  t0 : Q;
  running_loss : Q;
  num_tokens : Z;
  grad_norm : option Q      (* unbound until the first clipping *)
}.

(** The state dict a checkpoint bundle holds under [key]. *)
Definition bundle_state_dict (d : ckpt_dict_t) (key : ckpt_key)
  : option state_dict_t :=
  match dict_get d key with
  | Some (VStateDict sd) => Some sd
  | _ => None
  end.

Section KDRecipe.

(** *** What the recipe takes from outside *)

(** utils.get_device, training.get_dtype and utils.set_seed of torchtune,
    and torch.cuda.is_bf16_supported: helpers of __init__ that are not part
    of the recipe file.  Each returns a value or raises. *)
Variable get_device : string -> outcome device.
Variable get_dtype : string -> device -> outcome dtype.
Variable is_bf16_supported : bool.
Variable set_seed : option Z -> outcome Z.

(** What the n-th call on a collaborator returns, for the calls that
    return a number (clock, loss, gradient norm, learning rate). *)
Variable response : nat -> Q.

(** What optimizer.step() does to the tensors. *)
Variable optimizer_update : Heap -> Heap.

(** get_lora_module_names of torchtune.modules.peft. *)
Variable get_lora_module_names : list string -> bool -> bool -> list string.

(** The rescaling of a DoRA layer by its magnitude vector, which the
    specification names without defining it: from the magnitude, the base
    weight and the scaled low-rank product to the merged weight. *)
Variable dora_rescale : matrix -> matrix -> matrix -> matrix.

(** A call on a collaborator that returns a number. *)
Definition call (ev : event) : M Q :=
  fun s => (mkState (self s) (heap s) (optimizer s) (trace s ++ [ev]),
            Ok (response (List.length (trace s)))).

(** *** __init__ (lines 35-67) *)

Definition __init__ (cfg : Config) : outcome Recipe :=
  match get_device (cfg_device cfg) with
  | Raise e => Raise e
  | Ok dev =>
    match get_dtype (cfg_dtype cfg) dev with
    | Raise e => Raise e
    | Ok dt =>
      if dtype_eqb dt float16 then
        Raise (ValueError
          "fp16 precision is not supported in this recipe. Please use fp32 or bf16.")
      else if dtype_eqb dt bfloat16
              && negb (device_eqb dev (torch_device "cpu"))
              && negb is_bf16_supported then
        Raise (RuntimeError
          "Full bf16 training is not supported on this hardware.")
      else
        match set_seed (cfg_seed cfg) with
        | Raise e => Raise e
        | Ok sd =>
          Ok {| _device := dev;
                _dtype := dt;
                _output_dir := cfg_output_dir cfg;
                _log_every_n_steps := cfg_get (cfg_log_every_n_steps cfg) 1;
                _log_peak_memory_stats :=
                  cfg_get (cfg_log_peak_memory_stats cfg) false;
                seed := sd;
                epochs_run := 0;
                total_epochs := cfg_epochs cfg;
                max_steps_per_epoch := cfg_max_steps_per_epoch cfg;
                global_step := 0;
                _resume_from_checkpoint := cfg_resume_from_checkpoint cfg;
                _save_adapter_weights_only :=
                  cfg_get (cfg_save_adapter_weights_only cfg) false;
                _gradient_accumulation_steps :=
                  cfg_gradient_accumulation_steps cfg;
                _clip_grad_norm := cfg_clip_grad_norm cfg;
                _checkpointer := None;
                components := None;
                _profiler := None;
                profiler_profile_memory := None;
                profiler_wait_steps := None;
                profiler_warmup_steps := None;
                profiler_active_steps := None |}
        end
    end
  end.

(** *** load_checkpoint (lines 69-84) *)

(** [cfg_checkpointer] is identified with what the checkpointer built from
    it finds on disk. *)
Definition load_checkpoint (cfg_checkpointer : outcome ckpt_dict_t)
  : M ckpt_dict_t :=
  r <- get_self ;;
  put_self (set_checkpointer r
              (mkCheckpointer (_resume_from_checkpoint r) cfg_checkpointer)) ;;
  emit EvLoadCheckpoint ;;
  checkpoint_dict <- lift cfg_checkpointer ;;
  r <- get_self ;;
  if _resume_from_checkpoint r then
    raise (RuntimeError "Resume from checkpoint is not supported yet.")
  else ret checkpoint_dict.

(** *** setup (lines 86-187) *)

(** What config.instantiate and the torchtune helpers hand to setup: the
    model after its weights have been loaded, the loss, the data. *)
Record Instantiated : Type := mkInstantiated {
  inst_checkpoint : outcome ckpt_dict_t;  (* cfg.checkpointer *)
  inst_model : state_dict_t;              (* parameters of the built model *)
  inst_tensors : Heap;                    (* and their tensors *)
  inst_adapter_params : list pname;       (* get_adapter_params(model) *)
  inst_validation : outcome unit;         (* the two validate_* helpers *)
  inst_ignore_index : Z;                  (* loss_fn.ignore_index *)
  inst_chunked_loss : bool;               (* CEWithChunkedOutputLoss *)
  inst_batches : Z -> list Batch          (* the dataloader *)
}.

(** [d[key]] on a loaded bundle. *)
Definition dict_item (d : ckpt_dict_t) (key : ckpt_key) : M ckpt_value :=
  match dict_get d key with
  | Some v => ret v
  | None => raise (KeyError (ckpt_key_name key))
  end.

Definition is_magnitude (k : pname) : bool :=
  match k with Magnitude _ => true | _ => false end.

(** [len(self._dataloader)]. *)
Definition dataloader_len (dl : Z -> list Batch) : Z :=
  Z.of_nat (List.length (dl 0)).

Definition setup (cfg : Config) (inst : Instantiated) : M unit :=
  emit EvLogConfig ;;
  checkpoint_dict <- load_checkpoint (inst_checkpoint inst) ;;
  (* _setup_model *)
  _ <- dict_item checkpoint_dict MODEL_KEY ;;
  r <- get_self ;;
  (if _resume_from_checkpoint r
   then _ <- dict_item checkpoint_dict ADAPTER_KEY ;; ret tt
   else ret tt) ;;
  put_heap (inst_tensors inst) ;;
  lift (inst_validation inst) ;;
  (* _setup_optimizer *)
  (if _resume_from_checkpoint r
   then _ <- dict_item checkpoint_dict OPT_KEY ;; ret tt
   else ret tt) ;;
  put_optimizer (mkOptState 0) ;;
  (* the number of steps of an epoch *)
  steps <- floordiv (dataloader_len (inst_batches inst))
                    (_gradient_accumulation_steps r) ;;
  let truncated :=
    match max_steps_per_epoch r with
    | Some m => m <? steps
    | None => false
    end in
  let steps :=
    match max_steps_per_epoch r with
    | Some m => if truncated then m else steps
    | None => steps
    end in
  (if truncated
   then put_self (set_global_step r (epochs_run r * steps))
   else ret tt) ;;
  r <- get_self ;;
  put_self
    (set_components r
       {| _model_compile := cfg_compile cfg;
          _model := inst_model inst;
          _lora_rank := cfg_lora_rank (cfg_model cfg);
          _lora_alpha := cfg_lora_alpha (cfg_model cfg);
          _lora_attn_modules := cfg_lora_attn_modules (cfg_model cfg);
          _apply_lora_to_mlp := cfg_apply_lora_to_mlp (cfg_model cfg);
          _apply_lora_to_output :=
            cfg_get (cfg_apply_lora_to_output (cfg_model cfg)) false;
          adapter_params := inst_adapter_params inst;
          _is_dora := existsb is_magnitude (inst_adapter_params inst);
          _loss_ignore_index := inst_ignore_index inst;
          _chunked_logits := inst_chunked_loss inst;
          _dataloader := inst_batches inst;
          _steps_per_epoch := steps;
          ignore_labels_cache :=
            torch_full_column (cfg_batch_size cfg) (inst_ignore_index inst)
       |}).

(** *** _loss_step (lines 393-424) *)

Definition _loss_step (batch : Batch) : M Q :=
  c <- getattr "_model" components ;;
  emit (EvModelForward (tokens batch)) ;;
  shifted <- lift (shift_labels (ignore_labels_cache c) (labels batch)) ;;
  let lbls :=
    if _chunked_logits c then PerRow shifted else Flat (List.concat shifted) in
  loss <- call (EvLossFn lbls) ;;
  ret loss.

(** *** save_checkpoint (lines 331-391) *)

Definition is_cpu (d : device) : bool := String.eqb (device_type d) "cpu".

(** [v.cpu()]: the tensor itself when it already lives in host memory, a
    new host tensor with the same entries otherwise. *)
Definition tensor_cpu (v : loc) : M loc :=
  h <- get_heap ;;
  let t := heap_get h v in
  if is_cpu (t_device t) then ret v
  else alloc {| t_device := torch_device "cpu"; t_data := t_data t |}.

(** Modelled from the spec: get_merged_lora_ckpt of torchtune.modules.peft
    is not part of the recipe file.  For each LoRA-adapted linear layer,
    [merged = base_weight + (alpha / rank) * (B @ A)]; a layer that also
    stores a magnitude vector goes through [dora_rescale].  The merge
    builds the merged weights as new tensors and writes to no tensor it is
    given; the entries of other parameters are passed on as they are. *)
Definition lora_delta (rank : Z) (alpha : Q) (A B : matrix) : matrix :=
  mscale (alpha / inject_Z rank)%Q (matmul B A).

Definition merged_weight (rank : Z) (alpha : Q) (W A B : matrix) : matrix :=
  madd W (lora_delta rank alpha A B).

Definition merge_entry (h : Heap) (sd : state_dict_t) (rank : Z) (alpha : Q)
    (kv : pname * loc) : M (pname * loc) :=
  match fst kv with
  | BaseWeight layer =>
      match sd_get sd (LoraA layer), sd_get sd (LoraB layer) with
      | Some a, Some b =>
          let W := t_data (heap_get h (snd kv)) in
          let A := t_data (heap_get h a) in
          let B := t_data (heap_get h b) in
          let merged :=
            match sd_get sd (Magnitude layer) with
            | None => merged_weight rank alpha W A B
            | Some m =>
                dora_rescale (t_data (heap_get h m)) W
                             (lora_delta rank alpha A B)
            end in
          v <- alloc {| t_device := t_device (heap_get h (snd kv));
                        t_data := merged |} ;;
          ret (fst kv, v)
      | _, _ => ret kv
      end
  | _ => ret kv
  end.

Definition get_merged_lora_ckpt (state_dict : state_dict_t) (rank : Z)
    (alpha : Q) : M state_dict_t :=
  h <- get_heap ;;
  mapM (merge_entry h state_dict rank alpha) state_dict.

Definition save_checkpoint (epoch : Z) : M unit :=
  let ckpt_dict : ckpt_dict_t := [] in
  r <- get_self ;;
  let intermediate_checkpoint := epoch + 1 <? total_epochs r in
  ckpt_dict <-
    (if intermediate_checkpoint then
       _ <- getattr "_optimizer" components ;;
       opt <- get_optimizer ;;
       ret (dict_update ckpt_dict
              [ (OPT_KEY, VOptimizer opt);
                (SEED_KEY, VInt (seed r));
                (EPOCHS_KEY, VInt (epochs_run r));
                (TOTAL_EPOCHS_KEY, VInt (total_epochs r));
                (MAX_STEPS_KEY, VOptInt (max_steps_per_epoch r)) ])
     else ret ckpt_dict) ;;
  c <- getattr "_model" components ;;
  state_dict <-
    mapM (fun kv => v <- tensor_cpu (snd kv) ;; ret (fst kv, v)) (_model c) ;;
  merged_state_dict <-
    get_merged_lora_ckpt state_dict (_lora_rank c) (_lora_alpha c) ;;
  let ckpt_dict :=
    dict_update ckpt_dict [ (MODEL_KEY, VStateDict merged_state_dict) ] in
  let adapter_key_filter := fun x => existsb (pname_eqb x) (adapter_params c) in
  let adapter_state_dict :=
    filter (fun kv => adapter_key_filter (fst kv)) (_model c) in
  let ckpt_dict :=
    dict_update ckpt_dict [ (ADAPTER_KEY, VStateDict adapter_state_dict) ] in
  let adapter_config :=
    {| ac_r := _lora_rank c;
       ac_lora_alpha := _lora_alpha c;
       ac_target_modules :=
         get_lora_module_names (_lora_attn_modules c) (_apply_lora_to_mlp c)
                               (_apply_lora_to_output c);
       ac_peft_type := "LORA" |} in
  let ckpt_dict :=
    dict_update ckpt_dict [ (ADAPTER_CONFIG, VAdapterConfig adapter_config) ] in
  _ <- getattr "_checkpointer" _checkpointer ;;
  emit (EvSaveCheckpoint ckpt_dict epoch intermediate_checkpoint
                         (_save_adapter_weights_only r)).

(** *** train (lines 426-537) *)

(** [self._optimizer.step()]. *)
Definition optimizer_step : M unit :=
  h <- get_heap ;;
  put_heap (optimizer_update h) ;;
  o <- get_optimizer ;;
  put_optimizer (mkOptState (S (opt_steps_taken o))) ;;
  emit EvOptimizerStep.

(** The two tests on the memory-recording window (lines 458-462 and
    521-528), with Python's left-to-right, short-circuit evaluation:
    [curr_epoch == 0 and self.profiler_profile_memory and idx == ...]. *)
Definition memory_window_test (curr_epoch idx : Z) (closing : bool)
  : M bool :=
  if curr_epoch =? 0 then
    profile_memory <- getattr "profiler_profile_memory"
                              profiler_profile_memory ;;
    if (profile_memory : bool) then
      wait_steps <- getattr "profiler_wait_steps" profiler_wait_steps ;;
      warmup_steps <- getattr "profiler_warmup_steps" profiler_warmup_steps ;;
      if closing then
        active_steps <- getattr "profiler_active_steps"
                                profiler_active_steps ;;
        ret (idx =? wait_steps + warmup_steps + active_steps)
      else ret (idx =? wait_steps + warmup_steps)
    else ret false
  else ret false.

(** Lines 476-518: what happens on the last micro-batch of a window. *)
Definition optimizer_boundary (running_loss : Q) (num_tokens : Z)
    (l : Locals) : M Locals :=
  r <- get_self ;;
  grad_norm <-
    match _clip_grad_norm r with
    | Some max_norm => g <- call (EvClipGradNorm max_norm) ;; ret (Some g)
    | None => ret (grad_norm l)
    end ;;
  optimizer_step ;;
  emit EvZeroGrad ;;
  emit EvSchedulerStep ;;
  r <- get_self ;;
  put_self (set_global_step r (global_step r + 1)) ;;
  let loss_to_log := running_loss in
  r <- get_self ;;
  due <- pymod (global_step r) (_log_every_n_steps r) ;;
  (if due =? 0 then
     now <- call EvPerfCounter ;;
     let time_per_step := (now - t0 l)%Q in
     lr <- call EvGetLr ;;
     tokens_per_second <- truediv (inject_Z num_tokens) time_per_step ;;
     memory_stats <-
       (if String.eqb (device_type (_device r)) "cuda"
           && _log_peak_memory_stats r
        then _ <- call EvGetMemoryStats ;; ret true
        else ret false) ;;
     emit (EvLogDict
             {| log_loss := loss_to_log;
                log_lr := lr;
                log_tokens_per_second_per_gpu := tokens_per_second;
                log_memory_stats := memory_stats;
                log_grad_norm :=
                  match _clip_grad_norm r with
                  | Some _ => grad_norm
                  | None => None
                  end |}
             (global_step r))
   else ret tt) ;;
  t0' <- call EvPerfCounter ;;
  ret {| t0 := t0'; running_loss := 0; num_tokens := 0;
         grad_norm := grad_norm |}.

(** Lines 457-534: the body of the micro-batch loop after the test for
    early truncation. *)
Definition train_batch (curr_epoch idx : Z) (batch : Batch) (l : Locals)
  : M Locals :=
  opening <- memory_window_test curr_epoch idx false ;;
  (if (opening : bool) then emit (EvRecordMemoryHistory true) else ret tt) ;;
  let num_tokens := num_tokens l + numel (tokens batch) in
  loss <- _loss_step batch ;;
  r <- get_self ;;
  let loss := (loss / inject_Z (_gradient_accumulation_steps r))%Q in
  let running_loss := (running_loss l + loss)%Q in
  emit EvBackward ;;
  boundary <- pymod (idx + 1) (_gradient_accumulation_steps r) ;;
  l' <- (if boundary =? 0
         then optimizer_boundary running_loss num_tokens l
         else ret {| t0 := t0 l; running_loss := running_loss;
                     num_tokens := num_tokens; grad_norm := grad_norm l |}) ;;
  closing <- memory_window_test curr_epoch idx true ;;
  (if (closing : bool) then emit (EvRecordMemoryHistory false) else ret tt) ;;
  emit EvProfilerStep ;;
  ret l'.

(** Lines 449-534: [for idx, batch in enumerate(self._dataloader)], from
    index [idx] on. *)
Fixpoint train_batches (curr_epoch idx : Z) (batches : list Batch)
    (l : Locals) : M Locals :=
  match batches with
  | [] => ret l
  | batch :: rest =>
      r <- get_self ;;
      stop <-
        match max_steps_per_epoch r with
        | None => ret false
        | Some m =>
            done <- floordiv idx (_gradient_accumulation_steps r) ;;
            ret (done =? m)
        end ;;
      if (stop : bool) then ret l
      else
        l' <- train_batch curr_epoch idx batch l ;;
        train_batches curr_epoch (idx + 1) rest l'
  end.

(** Lines 443-537: one epoch. *)
Definition train_epoch (curr_epoch : Z) (l : Locals) : M Locals :=
  c <- getattr "_sampler" components ;;
  emit (EvSetEpoch curr_epoch) ;;
  l' <- train_batches curr_epoch 0 (_dataloader c curr_epoch) l ;;
  r <- get_self ;;
  put_self (set_epochs_run r (epochs_run r + 1)) ;;
  save_checkpoint curr_epoch ;;
  ret l'.

(** [range(a, b)]. *)
Definition py_range (a b : Z) : list Z :=
  map (fun i => a + Z.of_nat i) (seq 0 (Z.to_nat (b - a))).

Fixpoint for_each {A S : Type} (body : A -> S -> M S) (l : list A) (acc : S)
  : M S :=
  match l with
  | [] => ret acc
  | a :: rest => acc' <- body a acc ;; for_each body rest acc'
  end.

(** [with self._profiler as prof: body]: the attribute is read, the
    context is entered, and it is left whether or not the body raises. *)
Definition with_profiler {A : Type} (body : M A) : M A :=
  _ <- getattr "_profiler" _profiler ;;
  emit EvProfilerEnter ;;
  fun s =>
    let (s', o) := body s in
    (mkState (self s') (heap s') (optimizer s')
             (trace s' ++ [EvProfilerExit]), o).

Definition train : M unit :=
  _ <- getattr "_model_compile" components ;;
  start <- call EvPerfCounter ;;
  let locals := {| t0 := start; running_loss := 0; num_tokens := 0;
                   grad_norm := None |} in
  with_profiler
    (r <- get_self ;;
     _ <- for_each train_epoch (py_range (epochs_run r) (total_epochs r))
                   locals ;;
     ret tt).

(** *** cleanup (lines 539-540) *)

Definition cleanup : M unit := emit EvMetricLoggerClose.

(** *** recipe_main (lines 543-556) *)

Definition initial_state (r : Recipe) : State :=
  {| self := r; heap := []; optimizer := mkOptState 0; trace := [] |}.

Definition recipe_main (cfg : Config) (inst : Instantiated)
  : option State * outcome unit :=
  match __init__ cfg with
  | Raise e => (None, Raise e)
  | Ok recipe =>
      let (s, o) := (setup cfg inst ;; train ;; cleanup)
                      (initial_state recipe) in
      (Some s, o)
  end.

(** *** Auxiliary notions for the properties of save_checkpoint *)

(** The state after new tensors [ext] have been created. *)
Definition extend (s : State) (ext : Heap) : State :=
  mkState (self s) (heap s ++ ext) (optimizer s) (trace s).

(** Every reference of a state dict points to an existing tensor. *)
Definition sd_valid (h : Heap) (sd : state_dict_t) : Prop :=
  forall k v, sd_get sd k = Some v -> (v < List.length h)%nat.

(** The entries of the tensor that [merge_entry] returns for [kv]. *)
Definition merged_data (h : Heap) (sd : state_dict_t) (rank : Z) (alpha : Q)
    (kv : pname * loc) : matrix :=
  match fst kv with
  | BaseWeight layer =>
      match sd_get sd (LoraA layer), sd_get sd (LoraB layer) with
      | Some a, Some b =>
          let W := t_data (heap_get h (snd kv)) in
          let A := t_data (heap_get h a) in
          let B := t_data (heap_get h b) in
          match sd_get sd (Magnitude layer) with
          | None => merged_weight rank alpha W A B
          | Some m =>
              dora_rescale (t_data (heap_get h m)) W
                           (lora_delta rank alpha A B)
          end
      | _, _ => t_data (heap_get h (snd kv))
      end
  | _ => t_data (heap_get h (snd kv))
  end.

(** How an entry of a dict built by save_checkpoint relates to the entry it
    was built from: same name, and the entries [data] in the store [h']. *)
Definition entry_holds (h' : Heap) (data : pname * loc -> matrix)
    (valid : pname * loc -> Prop) (kv kv' : pname * loc) : Prop :=
  fst kv' = fst kv /\
  (valid kv ->
   (snd kv' < List.length h')%nat /\
   t_data (heap_get h' (snd kv')) = data kv).

(** The bundle that save_checkpoint hands to the checkpointer, given the
    merged state dict. *)
Definition checkpoint_bundle (r : Recipe) (opt : optimizer_state)
    (c : Components) (merged : state_dict_t) (epoch : Z) : ckpt_dict_t :=
  dict_update
    (dict_update
       (dict_update
          (if epoch + 1 <? total_epochs r then
             dict_update []
               [ (OPT_KEY, VOptimizer opt);
                 (SEED_KEY, VInt (seed r));
                 (EPOCHS_KEY, VInt (epochs_run r));
                 (TOTAL_EPOCHS_KEY, VInt (total_epochs r));
                 (MAX_STEPS_KEY, VOptInt (max_steps_per_epoch r)) ]
           else [])
          [ (MODEL_KEY, VStateDict merged) ])
       [ (ADAPTER_KEY,
          VStateDict
            (filter (fun kv => existsb (pname_eqb (fst kv)) (adapter_params c))
                    (_model c))) ])
    [ (ADAPTER_CONFIG,
       VAdapterConfig
         {| ac_r := _lora_rank c;
            ac_lora_alpha := _lora_alpha c;
            ac_target_modules :=
              get_lora_module_names (_lora_attn_modules c)
                (_apply_lora_to_mlp c) (_apply_lora_to_output c);
            ac_peft_type := "LORA" |}) ].

(** The bundle of the last save_checkpoint call of a trace. *)
Definition last_saved_bundle (tr : list event) : option ckpt_dict_t :=
  fold_left
    (fun acc ev =>
       match ev with
       | EvSaveCheckpoint d _ _ _ => Some d
       | _ => acc
       end) tr None.


(** *** Auxiliary notions for the properties of train *)

(** A computation adds at most [n] calls of kind [p] to the trace,
    whatever its outcome. *)
Definition adds {A : Type} (p : event -> bool) (m : M A) (n : nat) : Prop :=
  forall s s' o, m s = (s', o) ->
    (count_events p (trace s') <= count_events p (trace s) + n)%nat.

(** Calls that the counting properties do not look at. *)
Definition quiet_event (ev : event) : bool :=
  negb (is_optimizer_step ev || is_zero_grad ev || is_scheduler_step ev
        || is_backward ev || is_log_dict ev).

Definition quiet (evs : list event) : Prop := forallb quiet_event evs = true.

(** [1] on the last micro-batch of a window, [0] elsewhere. *)
Definition on_boundary (idx k : Z) : nat :=
  if (idx + 1) mod k =? 0 then 1%nat else 0%nat.


(** The test for early truncation at the head of the loop body. *)
Definition truncation_test (r : Recipe) (idx : Z) : M bool :=
  match max_steps_per_epoch r with
  | None => ret false
  | Some m =>
      done <- floordiv idx (_gradient_accumulation_steps r) ;;
      ret (done =? m)
  end.


(** The calls of a micro-batch around its back-propagation. *)
Definition batch_prefix (opening : bool) (toks : list (list Z))
    (lbls : label_arg) : list event :=
  (if opening then [EvRecordMemoryHistory true] else [])
  ++ [EvModelForward toks; EvLossFn lbls].

Definition batch_suffix (closing : bool) : list event :=
  (if closing then [EvRecordMemoryHistory false] else [])
  ++ [EvProfilerStep].

(** The calls of a window boundary before and inside the logging. *)
Definition clip_events (r : Recipe) : list event :=
  match _clip_grad_norm r with
  | Some max_norm => [EvClipGradNorm max_norm]
  | None => []
  end.

Definition memory_events (r : Recipe) : list event :=
  if String.eqb (device_type (_device r)) "cuda" && _log_peak_memory_stats r
  then [EvGetMemoryStats] else [].







(** The number of optimizer steps of an epoch that setup computes. *)
Definition planned_steps (r : Recipe) (batches : Z) : Z :=
  let steps := batches / _gradient_accumulation_steps r in
  match max_steps_per_epoch r with
  | Some m => if m <? steps then m else steps
  | None => steps
  end.


(** *** What the specification says of the bundle and of the throughput *)

(** Following the words of the specification, not the code: a bundle
    "contains" a value when some key holds it. *)
Definition spec_bundle_contains (d : ckpt_dict_t) (v : ckpt_value) : Prop :=
  exists k, dict_get d k = Some v.

(** Following the words of the specification: an intermediate bundle
    contains the optimizer state and all the scalar fields of the recipe
    state. *)
Definition spec_intermediate_bundle (r : Recipe) (opt : optimizer_state)
    (d : ckpt_dict_t) : Prop :=
  spec_bundle_contains d (VOptimizer opt) /\
  spec_bundle_contains d (VInt (seed r)) /\
  spec_bundle_contains d (VInt (epochs_run r)) /\
  spec_bundle_contains d (VInt (total_epochs r)) /\
  spec_bundle_contains d (VOptInt (max_steps_per_epoch r)) /\
  spec_bundle_contains d (VInt (global_step r)) /\
  spec_bundle_contains d (VInt (_gradient_accumulation_steps r)) /\
  spec_bundle_contains d (VBool (_resume_from_checkpoint r)) /\
  spec_bundle_contains d (VFloat (_clip_grad_norm r)) /\
  spec_bundle_contains d (VBool (_save_adapter_weights_only r)).





(** *** Example data *)

(** A result when there is one, [d] otherwise. *)
Definition result_or {A : Type} (o : outcome A) (d : A) : A :=
  match o with Ok a => a | Raise _ => d end.

(** Collaborators for the examples: every device and dtype name resolves,
    the clock reads [n * n + 1] at the n-th call, the optimizer halves
    every entry, and the LoRA module names are those of the attention
    modules, of the MLP and of the output projection. *)
Definition example_get_device (name : string) : outcome device :=
  Ok (torch_device name).

Definition example_get_dtype (name : string) (_ : device) : outcome dtype :=
  if String.eqb name "fp16" then Ok float16
  else if String.eqb name "bf16" then Ok bfloat16
  else Ok float32.

Definition example_set_seed (s : option Z) : outcome Z := Ok (cfg_get s 0).

Definition example_response (n : nat) : Q :=
  Qmake (Z.of_nat (n * n) + 1) 1.

Definition example_optimizer_update (h : Heap) : Heap :=
  map (fun t => mkTensor (t_device t) (mscale (Qmake 1 2) (t_data t))) h.

Definition example_lora_module_names (attn : list string) (mlp out : bool)
  : list string :=
  attn ++ (if mlp then ["w1"; "w2"; "w3"] else [])
       ++ (if out then ["output"] else []).

Definition example_dora_rescale (m W delta : matrix) : matrix :=
  madd W delta.

(** One LoRA-adapted layer with a 2x2 base weight and rank-2 factors on an
    accelerator, and a norm scale in host memory. *)
Definition example_heap : Heap :=
  [ mkTensor (torch_device "cuda") [[1; 2]; [3; 4]]%Q;
    mkTensor (torch_device "cuda") [[1; 0]; [2; 1]]%Q;
    mkTensor (torch_device "cuda") [[1; 1]; [0; 3]]%Q;
    mkTensor (torch_device "cpu") [[1; 1]]%Q ].

Definition example_model : state_dict_t :=
  [ (BaseWeight "q_proj", 0%nat); (LoraA "q_proj", 1%nat);
    (LoraB "q_proj", 2%nat); (OtherParam "norm.scale", 3%nat) ].

Definition example_batch_a : Batch :=
  {| tokens := [[11; 12; 13]; [14; 15; 16]];
     labels := [[11; 12; 13]; [14; 15; 16]];
     mask := None; input_pos := None |}.

Definition example_batch_b : Batch :=
  {| tokens := [[21; 22; 23; 24]];
     labels := [[21; 22; 23; 24]];
     mask := None; input_pos := None |}.

Definition example_batches (_ : Z) : list Batch :=
  [example_batch_a; example_batch_b; example_batch_a; example_batch_b].

Definition example_components : Components :=
  {| _model_compile := false;
     _model := example_model;
     _lora_rank := 2;
     _lora_alpha := 4%Q;
     _lora_attn_modules := ["q_proj"];
     _apply_lora_to_mlp := false;
     _apply_lora_to_output := false;
     adapter_params := [LoraA "q_proj"; LoraB "q_proj"];
     _is_dora := false;
     _loss_ignore_index := -100;
     _chunked_logits := false;
     _dataloader := example_batches;
     _steps_per_epoch := 2;
     ignore_labels_cache := torch_full_column 2 (-100) |}.

(** A recipe on which setup has run and whose profiler attributes have been
    assigned, with an accumulation window of [k] micro-batches, a record
    logged every [every] steps and the step limit [limit]. *)
Definition example_recipe (k every : Z) (limit : option Z) : Recipe :=
  {| _device := torch_device "cuda";
     _dtype := bfloat16;
     _output_dir := "out";
     _log_every_n_steps := every;
     _log_peak_memory_stats := true;
     seed := 42;
     epochs_run := 1;
     total_epochs := 3;
     max_steps_per_epoch := limit;
     global_step := 7;
     _resume_from_checkpoint := false;
     _save_adapter_weights_only := false;
     _gradient_accumulation_steps := k;
     _clip_grad_norm := Some 1%Q;
     _checkpointer := Some (mkCheckpointer false (Ok []));
     components := Some example_components;
     _profiler := Some tt;
     profiler_profile_memory := Some true;
     profiler_wait_steps := Some 0;
     profiler_warmup_steps := Some 0;
     profiler_active_steps := Some 1 |}.

(** The state in which train enters its first epoch: the clock has been
    read once. *)
Definition example_state (k every : Z) (limit : option Z) : State :=
  {| self := example_recipe k every limit;
     heap := example_heap;
     optimizer := mkOptState 5;
     trace := [EvPerfCounter] |}.

Definition example_locals : Locals :=
  {| t0 := example_response 0; running_loss := 0; num_tokens := 0;
     grad_norm := None |}.

Definition example_config : Config :=
  {| cfg_device := "cpu";
     cfg_dtype := "bf16";
     cfg_output_dir := "out";
     cfg_log_every_n_steps := None;
     cfg_log_peak_memory_stats := None;
     cfg_seed := Some 42;
     cfg_epochs := 3;
     cfg_max_steps_per_epoch := Some 1;
     cfg_resume_from_checkpoint := false;
     cfg_save_adapter_weights_only := None;
     cfg_gradient_accumulation_steps := 2;
     cfg_clip_grad_norm := None;
     cfg_compile := false;
     cfg_enable_activation_checkpointing := false;
     cfg_shuffle := true;
     cfg_batch_size := 2;
     cfg_model := {| cfg_lora_rank := 2;
                     cfg_lora_alpha := 4%Q;
                     cfg_lora_attn_modules := ["q_proj"];
                     cfg_apply_lora_to_mlp := false;
                     cfg_apply_lora_to_output := None |} |}.

(** What __init__ builds from [example_config] with the example
    collaborators, the resume flag being [resume]. *)
Definition example_constructed (resume : bool) : Recipe :=
  {| _device := torch_device "cpu";
     _dtype := bfloat16;
     _output_dir := "out";
     _log_every_n_steps := 1;
     _log_peak_memory_stats := false;
     seed := 42;
     epochs_run := 0;
     total_epochs := 3;
     max_steps_per_epoch := Some 1;
     global_step := 0;
     _resume_from_checkpoint := resume;
     _save_adapter_weights_only := false;
     _gradient_accumulation_steps := 2;
     _clip_grad_norm := None;
     _checkpointer := None;
     components := None;
     _profiler := None;
     profiler_profile_memory := None;
     profiler_wait_steps := None;
     profiler_warmup_steps := None;
     profiler_active_steps := None |}.



(** A batch with more rows than the label cache of [example_components]
    has, and a state in which every epoch has run. *)
Definition example_batch_wide : Batch :=
  {| tokens := [[1; 2]; [3; 4]; [5; 6]];
     labels := [[1; 2]; [3; 4]; [5; 6]];
     mask := None; input_pos := None |}.


(** *** Auxiliary notions for the memory window and for recipe_main *)

Definition is_metric_logger_close (ev : event) : bool :=
  match ev with EvMetricLoggerClose => true | _ => false end.

Definition is_memory_history (enabled : bool) (ev : event) : bool :=
  match ev with
  | EvRecordMemoryHistory b => Bool.eqb b enabled
  | _ => false
  end.

(** What [memory_window_test] returns when it returns: the conjunction of
    lines 458-462 (of lines 521-528 when [closing]). *)
Definition memory_window_edge (r : Recipe) (curr_epoch idx : Z)
    (closing : bool) : bool :=
  (curr_epoch =? 0) &&
  match profiler_profile_memory r, profiler_wait_steps r,
        profiler_warmup_steps r with
  | Some true, Some wait_steps, Some warmup_steps =>
      if closing then
        match profiler_active_steps r with
        | Some active_steps => idx =? wait_steps + warmup_steps + active_steps
        | None => false
        end
      else idx =? wait_steps + warmup_steps
  | _, _, _ => false
  end.


(** How an entry of the host copy of a state dict (line 358) relates to the
    entry of the live state dict it was made from, [h] being the tensors
    before the copy and [h'] the tensors after it: same name; when the
    reference is valid, a tensor in host memory with the same entries,
    which is the live tensor itself when that is in host memory and a new
    tensor otherwise. *)
Definition host_entry (h h' : Heap) (kv kv' : pname * loc) : Prop :=
  fst kv' = fst kv /\
  ((snd kv < List.length h)%nat ->
   (snd kv' < List.length h')%nat /\
   t_data (heap_get h' (snd kv')) = t_data (heap_get h (snd kv)) /\
   is_cpu (t_device (heap_get h' (snd kv'))) = true /\
   (is_cpu (t_device (heap_get h (snd kv))) = true -> snd kv' = snd kv) /\
   (is_cpu (t_device (heap_get h (snd kv))) = false ->
    (List.length h <= snd kv')%nat)).


(** ** Properties *)

(** *** Equality tests *)





(** *** The precision gate of __init__ *)


(** *** Running a method: inversion of the monad's operations *)

Lemma bind_ok {A B : Type} (m : M A) (f : A -> M B) s s' b :
  bind m f s = (s', Ok b) ->
  exists s1 a, m s = (s1, Ok a) /\ f a s1 = (s', Ok b).
Proof.
  unfold bind. destruct (m s) as [s1 [a|e]]; intro H.
  - exists s1, a. split; [reflexivity | assumption].
  - discriminate.
Qed.

Lemma bind_inv {A B : Type} (m : M A) (f : A -> M B) s s' o :
  bind m f s = (s', o) ->
  (exists s1 a, m s = (s1, Ok a) /\ f a s1 = (s', o)) \/
  (exists e, m s = (s', Raise e) /\ o = Raise e).
Proof.
  unfold bind. destruct (m s) as [s1 [a|e]]; intro H.
  - left. exists s1, a. split; [reflexivity | assumption].
  - right. exists e. inversion H. subst. split; reflexivity.
Qed.

Lemma bind_run {A B : Type} (m : M A) (f : A -> M B) s s1 a :
  m s = (s1, Ok a) -> bind m f s = f a s1.
Proof. intro H. unfold bind. rewrite H. reflexivity. Qed.

Lemma bind_raise {A B : Type} (m : M A) (f : A -> M B) s s1 e :
  m s = (s1, Raise e) -> bind m f s = (s1, Raise e).
Proof. intro H. unfold bind. rewrite H. reflexivity. Qed.

Lemma state_eta (s : State) :
  mkState (self s) (heap s) (optimizer s) (trace s) = s.
Proof. destruct s. reflexivity. Qed.

(** *** load_checkpoint *)

(** C8.  With resume_from_checkpoint set, load_checkpoint never returns a
    bundle: once the checkpointer has read one, it raises the RuntimeError
    "Resume from checkpoint is not supported yet.".  With the flag unset it
    returns the bundle the checkpointer read. *)
Theorem load_checkpoint_resume_unsupported (s : State)
    (on_disk : outcome ckpt_dict_t) :
  (_resume_from_checkpoint (self s) = true ->
     (forall b, snd (load_checkpoint on_disk s) <> Ok b) /\
     (forall b, on_disk = Ok b ->
        snd (load_checkpoint on_disk s) =
        Raise (RuntimeError "Resume from checkpoint is not supported yet.")))
  /\ (_resume_from_checkpoint (self s) = false ->
      forall b, on_disk = Ok b ->
        snd (load_checkpoint on_disk s) = Ok b).
Proof.
  unfold load_checkpoint, bind, get_self, put_self, emit, lift, raise, ret.
  simpl. split; intro Hr.
  - split.
    + intros b. destruct on_disk as [b'|e]; simpl.
      * rewrite Hr. simpl. discriminate.
      * discriminate.
    + intros b ->. simpl. rewrite Hr. reflexivity.
  - intros b ->. simpl. rewrite Hr. reflexivity.
Qed.

(** *** Label shifting *)

Lemma firstn_repeat {A : Type} (x : A) (n m : nat) :
  (n <= m)%nat -> firstn n (repeat x m) = repeat x n.
Proof.
  revert m. induction n as [|n IH]; intros m H; [reflexivity|].
  destruct m as [|m]; [lia|]. simpl. f_equal. apply IH. lia.
Qed.

Lemma combine_repeat_map {A B : Type} (f : A -> list B) (x : list B)
    (l : list A) :
  map (fun p => fst p ++ snd p) (combine (map f l) (repeat x (List.length l)))
  = map (fun a => f a ++ x) l.
Proof. induction l as [|a l IH]; simpl; [reflexivity | now rewrite IH]. Qed.

(** The shifted labels in closed form, when the batch has no more rows
    than the cache. *)
Lemma shift_labels_closed_form (batch_size : nat) (ignore_index : Z)
    (lbls : list (list Z)) :
  (List.length lbls <= batch_size)%nat ->
  shift_labels (torch_full_column batch_size ignore_index) lbls
  = Ok (map (fun row => tl row ++ [ignore_index]) lbls).
Proof.
  intro H. unfold shift_labels, hstack, torch_full_column.
  rewrite firstn_repeat by assumption.
  rewrite length_map, repeat_length, Nat.eqb_refl.
  f_equal. apply combine_repeat_map.
Qed.

(** A batch with more rows than the cache cannot be shifted. *)
Lemma shift_labels_oversized_batch (batch_size : nat) (ignore_index : Z)
    (lbls : list (list Z)) :
  (batch_size < List.length lbls)%nat ->
  raises (shift_labels (torch_full_column batch_size ignore_index) lbls).
Proof.
  intro H. unfold shift_labels, hstack, torch_full_column, raises.
  rewrite length_map, length_firstn, repeat_length.
  destruct (Nat.eqb_spec (List.length lbls)
              (Nat.min (List.length lbls) batch_size)) as [E|E].
  - lia.
  - eexists. reflexivity.
Qed.

Lemma nth_error_tl {A : Type} (row : list A) (i : nat) :
  nth_error (tl row) i = nth_error row (S i).
Proof. destruct row; [destruct i|]; reflexivity. Qed.

Lemma length_tl {A : Type} (row : list A) :
  List.length (tl row) = (List.length row - 1)%nat.
Proof. destruct row; simpl; lia. Qed.

(** C3.  For a batch of [b] rows of [len] labels each, with [b] at most the
    configured batch size (the size of the cache built by setup), the shift
    of _loss_step succeeds and yields [b] rows in which position [i] holds
    the original label of position [i+1] for every [i < len-1], and the
    final position [len-1] holds the loss function's ignore index. *)
Theorem shift_labels_positions (batch_size : nat) (ignore_index : Z)
    (lbls : list (list Z)) (len : nat) :
  (List.length lbls <= batch_size)%nat ->
  Forall (fun row => List.length row = len) lbls ->
  exists shifted,
    shift_labels (torch_full_column batch_size ignore_index) lbls
      = Ok shifted /\
    List.length shifted = List.length lbls /\
    forall r row, nth_error lbls r = Some row ->
      exists row', nth_error shifted r = Some row' /\
        (forall i, (i + 1 < len)%nat ->
           nth_error row' i = nth_error row (i + 1)) /\
        ((0 < len)%nat ->
           List.length row' = len /\
           nth_error row' (len - 1) = Some ignore_index).
Proof.
  intros Hb Hlen.
  exists (map (fun row => tl row ++ [ignore_index]) lbls).
  split; [apply shift_labels_closed_form; assumption|].
  split; [apply length_map|].
  intros r row Hr. exists (tl row ++ [ignore_index]).
  split; [rewrite nth_error_map, Hr; reflexivity|].
  assert (Hrow : List.length row = len).
  { rewrite Forall_forall in Hlen. apply Hlen.
    eapply nth_error_In; eassumption. }
  split.
  - intros i Hi. rewrite nth_error_app1 by (rewrite length_tl; lia).
    rewrite nth_error_tl. f_equal. lia.
  - intro Hpos. split.
    + rewrite length_app, length_tl. simpl. lia.
    + rewrite nth_error_app2 by (rewrite length_tl; lia).
      rewrite length_tl. replace (len - 1 - (List.length row - 1))%nat
        with O by lia. reflexivity.
Qed.


(** *** The tensor store under save_checkpoint *)

Lemma heap_get_app (h ext : Heap) (l : loc) :
  (l < List.length h)%nat -> heap_get (h ++ ext) l = heap_get h l.
Proof. intro H. unfold heap_get. apply app_nth1. assumption. Qed.

Lemma heap_get_new (h : Heap) (t : tensor) :
  heap_get (h ++ [t]) (List.length h) = t.
Proof.
  unfold heap_get. rewrite app_nth2 by lia.
  rewrite Nat.sub_diag. reflexivity.
Qed.

Lemma extend_nil (s : State) : extend s [] = s.
Proof. unfold extend. rewrite app_nil_r. apply state_eta. Qed.

Lemma extend_extend (s : State) (e1 e2 : Heap) :
  extend (extend s e1) e2 = extend s (e1 ++ e2).
Proof. unfold extend. simpl. rewrite app_assoc. reflexivity. Qed.

Lemma pname_eqb_eq (a b : pname) : pname_eqb a b = true <-> a = b.
Proof.
  destruct a, b; simpl; split; intro H; try discriminate;
    try (apply String.eqb_eq in H; congruence);
    try (inversion H; apply String.eqb_refl).
Qed.

Lemma pname_eqb_refl (a : pname) : pname_eqb a a = true.
Proof. apply pname_eqb_eq. reflexivity. Qed.

(** [v.cpu()] creates at most one tensor and keeps the entries. *)
Lemma tensor_cpu_run (v : loc) (s : State) :
  exists ext v',
    tensor_cpu v s = (extend s ext, Ok v') /\
    ((v < List.length (heap s))%nat ->
     (v' < List.length (heap s ++ ext))%nat /\
     t_data (heap_get (heap s ++ ext) v') = t_data (heap_get (heap s) v)).
Proof.
  unfold tensor_cpu, bind, get_heap, ret, alloc.
  destruct (is_cpu (t_device (heap_get (heap s) v))).
  - exists [], v. rewrite extend_nil. split; [reflexivity|].
    intro H. rewrite app_nil_r. split; [assumption | reflexivity].
  - eexists [_], (List.length (heap s)). split; [reflexivity|].
    intros _. rewrite heap_get_new, length_app. simpl. split; [lia|reflexivity].
Qed.

Lemma entry_holds_extend h' ext data valid kv kv' :
  entry_holds h' data valid kv kv' ->
  entry_holds (h' ++ ext) data valid kv kv'.
Proof.
  intros [Hk Hv]. split; [assumption|]. intro Hval.
  destruct (Hv Hval) as [Hlt Hd]. split.
  - rewrite length_app. lia.
  - rewrite heap_get_app by assumption. assumption.
Qed.

(** The host copy of the state dict (line 358). *)
Lemma cpu_copy_run (sd : state_dict_t) : forall (h : Heap) (s : State)
    (pre : Heap),
  heap s = h ++ pre ->
  exists ext sd',
    mapM (fun kv => v <- tensor_cpu (snd kv) ;; ret (fst kv, v)) sd s
      = (extend s ext, Ok sd') /\
    Forall2 (entry_holds (heap s ++ ext)
               (fun kv => t_data (heap_get h (snd kv)))
               (fun kv => (snd kv < List.length h)%nat)) sd sd'.
Proof.
  induction sd as [|kv sd IH]; intros h s pre Hs.
  - exists [], []. simpl. unfold ret. rewrite extend_nil.
    split; [reflexivity | constructor].
  - destruct (tensor_cpu_run (snd kv) s) as (e1 & v' & Hrun & Hv).
    destruct (IH h (extend s e1) (pre ++ e1)) as (e2 & sd' & Hrest & Hall).
    { unfold extend. simpl. rewrite Hs, app_assoc. reflexivity. }
    exists (e1 ++ e2), ((fst kv, v') :: sd'). split.
    + assert (Hhead : (v <- tensor_cpu (snd kv) ;; ret (fst kv, v)) s
                      = (extend s e1, Ok (fst kv, v'))).
      { unfold bind. rewrite Hrun. reflexivity. }
      simpl. erewrite bind_run by exact Hhead. erewrite bind_run by exact Hrest.
      unfold ret. rewrite extend_extend. reflexivity.
    + rewrite app_assoc. constructor.
      * apply entry_holds_extend. split; [reflexivity|].
        intro Hval. simpl.
        assert (Hlt : (snd kv < List.length (heap s))%nat).
        { rewrite Hs, length_app. lia. }
        destruct (Hv Hlt) as [H1 H2]. split; [assumption|].
        rewrite H2, Hs. rewrite heap_get_app by assumption. reflexivity.
      * exact Hall.
Qed.

Lemma merge_entry_run (h : Heap) (sd : state_dict_t) (rank : Z) (alpha : Q)
    (kv : pname * loc) (s : State) (pre : Heap) :
  heap s = h ++ pre ->
  exists ext kv',
    merge_entry h sd rank alpha kv s = (extend s ext, Ok kv') /\
    entry_holds (heap s ++ ext) (merged_data h sd rank alpha)
                (fun kv => (snd kv < List.length h)%nat) kv kv'.
Proof.
  intro Hs.
  assert (Hkeep : forall data : matrix,
    data = t_data (heap_get h (snd kv)) ->
    exists ext kv',
      ret kv s = (extend s ext, Ok kv') /\
      fst kv' = fst kv /\
      ((snd kv < List.length h)%nat ->
       (snd kv' < List.length (heap s ++ ext))%nat /\
       t_data (heap_get (heap s ++ ext) (snd kv')) = data)).
  { intros data ->. exists [], kv. unfold ret.
    rewrite extend_nil, app_nil_r.
    split; [reflexivity|]. split; [reflexivity|]. intro Hval.
    rewrite Hs, length_app. split; [lia|].
    rewrite heap_get_app by assumption. reflexivity. }
  unfold entry_holds, merge_entry, merged_data.
  destruct (fst kv) as [layer| | | |] eqn:Ek;
    try (apply Hkeep; reflexivity).
  destruct (sd_get sd (LoraA layer)) as [a|];
    [|apply Hkeep; reflexivity].
  destruct (sd_get sd (LoraB layer)) as [b|];
    [|apply Hkeep; reflexivity].
  eexists [_], (fst kv, List.length (heap s)).
  unfold bind, alloc, ret. rewrite Ek. split; [reflexivity|].
  split; [reflexivity|]. intros _. simpl.
  rewrite heap_get_new, length_app. simpl. split; [lia|reflexivity].
Qed.

(** The merge (lines 361-365). *)
Lemma merge_run (h : Heap) (sd0 : state_dict_t) (rank : Z) (alpha : Q)
    (sd : state_dict_t) : forall (s : State) (pre : Heap),
  heap s = h ++ pre ->
  exists ext sd',
    mapM (merge_entry h sd0 rank alpha) sd s = (extend s ext, Ok sd') /\
    Forall2 (entry_holds (heap s ++ ext) (merged_data h sd0 rank alpha)
               (fun kv => (snd kv < List.length h)%nat)) sd sd'.
Proof.
  induction sd as [|kv sd IH]; intros s pre Hs.
  - exists [], []. simpl. unfold ret. rewrite extend_nil.
    split; [reflexivity | constructor].
  - destruct (@merge_entry_run h sd0 rank alpha kv s pre Hs)
      as (e1 & kv' & Hrun & Hkv).
    destruct (IH (extend s e1) (pre ++ e1)) as (e2 & sd' & Hrest & Hall).
    { unfold extend. simpl. rewrite Hs, app_assoc. reflexivity. }
    exists (e1 ++ e2), (kv' :: sd'). split.
    + simpl. erewrite bind_run by exact Hrun. erewrite bind_run by exact Hrest.
      unfold ret. rewrite extend_extend. reflexivity.
    + rewrite app_assoc. constructor.
      * apply entry_holds_extend. exact Hkv.
      * exact Hall.
Qed.


Lemma getattr_run {A : Type} (name : string) (field : Recipe -> option A)
    (s : State) (a : A) :
  field (self s) = Some a -> getattr name field s = (s, Ok a).
Proof. intro H. unfold getattr. rewrite H. reflexivity. Qed.

Lemma getattr_inv {A : Type} (name : string) (field : Recipe -> option A)
    (s s' : State) (o : outcome A) :
  getattr name field s = (s', o) ->
  s' = s /\
  (forall a, o = Ok a -> field (self s) = Some a) /\
  (forall e, o = Raise e ->
     field (self s) = None /\ e = AttributeError name).
Proof.
  unfold getattr. destruct (field (self s)); intro H; inversion H; subst;
    repeat split; try discriminate; intros; congruence.
Qed.

(** Once setup has assigned its attributes, save_checkpoint creates
    tensors [e1] (host copies) and [e2] (merged weights) and arrives at the
    call of the checkpointer with [checkpoint_bundle]. *)
Lemma save_checkpoint_steps (epoch : Z) (s : State) (c : Components) :
  components (self s) = Some c ->
  exists e1 e2 sd1 merged,
    save_checkpoint epoch s =
      (_ <- getattr "_checkpointer" _checkpointer ;;
       emit (EvSaveCheckpoint
               (checkpoint_bundle (self s) (optimizer s) c merged epoch)
               epoch (epoch + 1 <? total_epochs (self s))
               (_save_adapter_weights_only (self s))))
      (extend s (e1 ++ e2)) /\
    Forall2 (entry_holds (heap s ++ e1)
               (fun kv => t_data (heap_get (heap s) (snd kv)))
               (fun kv => (snd kv < List.length (heap s))%nat))
            (_model c) sd1 /\
    Forall2 (entry_holds (heap s ++ e1 ++ e2)
               (merged_data (heap s ++ e1) sd1 (_lora_rank c) (_lora_alpha c))
               (fun kv => (snd kv < List.length (heap s ++ e1))%nat))
            sd1 merged.
Proof.
  intros Hc.
  destruct (@cpu_copy_run (_model c) (heap s) s [])
    as (e1 & sd1 & Hcpu & Hall1); [now rewrite app_nil_r|].
  destruct (@merge_run (heap s ++ e1) sd1 (_lora_rank c) (_lora_alpha c) sd1
              (extend s e1) [])
    as (e2 & merged & Hmerge & Hall2); [simpl; now rewrite app_nil_r|].
  exists e1, e2, sd1, merged. split; [|split].
  - unfold save_checkpoint.
    erewrite bind_run by reflexivity. cbv beta.
    assert (Hfirst :
      (if epoch + 1 <? total_epochs (self s)
       then
         _ <- getattr "_optimizer" components ;;
         opt <- get_optimizer ;;
         ret (dict_update []
                [ (OPT_KEY, VOptimizer opt);
                  (SEED_KEY, VInt (seed (self s)));
                  (EPOCHS_KEY, VInt (epochs_run (self s)));
                  (TOTAL_EPOCHS_KEY, VInt (total_epochs (self s)));
                  (MAX_STEPS_KEY, VOptInt (max_steps_per_epoch (self s))) ])
       else ret []) s
      = (s, Ok (if epoch + 1 <? total_epochs (self s) then
                  dict_update []
                    [ (OPT_KEY, VOptimizer (optimizer s));
                      (SEED_KEY, VInt (seed (self s)));
                      (EPOCHS_KEY, VInt (epochs_run (self s)));
                      (TOTAL_EPOCHS_KEY, VInt (total_epochs (self s)));
                      (MAX_STEPS_KEY, VOptInt (max_steps_per_epoch (self s))) ]
                else []))).
    { destruct (epoch + 1 <? total_epochs (self s)); [|reflexivity].
      erewrite bind_run by (apply getattr_run; exact Hc).
      reflexivity. }
    erewrite bind_run by exact Hfirst. cbv beta.
    erewrite bind_run by (apply getattr_run; exact Hc). cbv beta.
    erewrite bind_run by exact Hcpu. cbv beta.
    unfold get_merged_lora_ckpt.
    erewrite bind_run
      by (erewrite bind_run by reflexivity; cbv beta; exact Hmerge).
    cbv beta. rewrite extend_extend. reflexivity.
  - exact Hall1.
  - simpl in Hall2. rewrite <- app_assoc in Hall2. exact Hall2.
Qed.

(** With a checkpointer in place, save_checkpoint runs to its end. *)
Lemma save_checkpoint_run (epoch : Z) (s : State) (c : Components)
    (ck : Checkpointer) :
  components (self s) = Some c ->
  _checkpointer (self s) = Some ck ->
  exists e1 e2 sd1 merged,
    save_checkpoint epoch s =
      (mkState (self s) (heap s ++ e1 ++ e2) (optimizer s)
         (trace s ++
          [EvSaveCheckpoint
             (checkpoint_bundle (self s) (optimizer s) c merged epoch)
             epoch (epoch + 1 <? total_epochs (self s))
             (_save_adapter_weights_only (self s))]),
       Ok tt) /\
    Forall2 (entry_holds (heap s ++ e1)
               (fun kv => t_data (heap_get (heap s) (snd kv)))
               (fun kv => (snd kv < List.length (heap s))%nat))
            (_model c) sd1 /\
    Forall2 (entry_holds (heap s ++ e1 ++ e2)
               (merged_data (heap s ++ e1) sd1 (_lora_rank c) (_lora_alpha c))
               (fun kv => (snd kv < List.length (heap s ++ e1))%nat))
            sd1 merged.
Proof.
  intros Hc Hk.
  destruct (save_checkpoint_steps epoch s Hc)
    as (e1 & e2 & sd1 & merged & Hrun & Hall1 & Hall2).
  exists e1, e2, sd1, merged. split; [|split; assumption].
  rewrite Hrun.
  erewrite bind_run by (apply getattr_run; exact Hk).
  reflexivity.
Qed.

(** *** Matrices, entry by entry *)

Lemma nth_nil {A : Type} (n : nat) (d : A) : nth n [] d = d.
Proof. destruct n; reflexivity. Qed.

Lemma has_shape_row (X : matrix) (rows cols i : nat) :
  has_shape X rows cols -> (i < rows)%nat ->
  List.length (nth i X []) = cols.
Proof.
  intros [Hl Hr] Hi. rewrite Forall_forall in Hr. apply Hr.
  apply nth_In. lia.
Qed.

Lemma nth_map_in {A B : Type} (f : A -> B) (l : list A) (i : nat) (d : A)
    (d' : B) :
  (i < List.length l)%nat -> nth i (map f l) d' = f (nth i l d).
Proof.
  intro H. rewrite (nth_indep _ d' (f d)) by (rewrite length_map; exact H).
  apply map_nth.
Qed.

Lemma mget_mscale (c : Q) (X : matrix) (rows cols i j : nat) :
  has_shape X rows cols -> (i < rows)%nat -> (j < cols)%nat ->
  mget (mscale c X) i j = (c * mget X i j)%Q.
Proof.
  intros HX Hi Hj. unfold mget, mscale.
  rewrite (nth_map_in _ X []) by (destruct HX; lia).
  rewrite (nth_map_in _ _ 0%Q)
    by (rewrite (has_shape_row HX Hi); exact Hj).
  reflexivity.
Qed.

Lemma mget_madd (X Y : matrix) (rows cols i j : nat) :
  has_shape X rows cols -> has_shape Y rows cols ->
  (i < rows)%nat -> (j < cols)%nat ->
  mget (madd X Y) i j = (mget X i j + mget Y i j)%Q.
Proof.
  intros HX HY Hi Hj. unfold mget, madd.
  assert (HlX : List.length X = rows) by (destruct HX; assumption).
  assert (HlY : List.length Y = rows) by (destruct HY; assumption).
  rewrite (nth_map_in _ (combine X Y) ([], []))
    by (rewrite length_combine; lia).
  rewrite combine_nth by lia. simpl.
  pose proof (has_shape_row HX Hi) as HrX.
  pose proof (has_shape_row HY Hi) as HrY.
  rewrite (nth_map_in _ _ (0%Q, 0%Q))
    by (rewrite length_combine; lia).
  rewrite combine_nth by lia. reflexivity.
Qed.

Lemma has_shape_mscale (c : Q) (X : matrix) (rows cols : nat) :
  has_shape X rows cols -> has_shape (mscale c X) rows cols.
Proof.
  intros [Hl Hr]. split.
  - unfold mscale. rewrite length_map. exact Hl.
  - unfold mscale. rewrite Forall_map. eapply Forall_impl; [|exact Hr].
    intros row H. simpl. rewrite length_map. exact H.
Qed.

Lemma ncols_shape (X : matrix) (rows cols : nat) :
  has_shape X rows cols -> (0 < rows)%nat -> ncols X = cols.
Proof.
  intros [Hl Hr] Hpos. destruct X as [|row X]; [simpl in Hl; lia|].
  simpl. inversion Hr. assumption.
Qed.

Lemma has_shape_matmul (X Y : matrix) (rows inner cols : nat) :
  has_shape X rows inner -> has_shape Y inner cols -> (0 < inner)%nat ->
  has_shape (matmul X Y) rows cols.
Proof.
  intros [Hl Hr] HY Hpos. split.
  - unfold matmul. rewrite length_map. exact Hl.
  - unfold matmul. rewrite Forall_map. apply Forall_forall. intros row _.
    rewrite length_map, length_seq. apply (ncols_shape HY Hpos).
Qed.

Lemma mget_matmul (X Y : matrix) (rows inner cols i j : nat) :
  has_shape X rows inner -> has_shape Y inner cols -> (0 < inner)%nat ->
  (i < rows)%nat -> (j < cols)%nat ->
  mget (matmul X Y) i j = dot (nth i X []) (column j Y).
Proof.
  intros HX HY Hpos Hi Hj. unfold mget, matmul.
  rewrite (nth_map_in _ X []) by (destruct HX; lia).
  rewrite (ncols_shape HY Hpos).
  rewrite (nth_map_in _ _ O) by (rewrite length_seq; exact Hj).
  rewrite seq_nth by exact Hj. reflexivity.
Qed.

Lemma nth_column (Y : matrix) (j k : nat) :
  nth k (column j Y) 0%Q = mget Y k j.
Proof.
  unfold column, mget.
  pose proof (map_nth (fun row : list Q => nth j row 0%Q) Y [] k) as H.
  cbv beta in H. rewrite nth_nil in H. exact H.
Qed.

Lemma sum_upto_shift (n : nat) (f : nat -> Q) :
  (sum_upto (S n) f == f O + sum_upto n (fun k => f (S k)))%Q.
Proof.
  induction n as [|n IH].
  - simpl. ring.
  - change (sum_upto (S (S n)) f) with (sum_upto (S n) f + f (S n))%Q.
    rewrite IH. simpl. ring.
Qed.

Lemma sum_upto_ext (n : nat) (f g : nat -> Q) :
  (forall k, (k < n)%nat -> (f k == g k)%Q) ->
  (sum_upto n f == sum_upto n g)%Q.
Proof.
  induction n as [|n IH]; intro H; simpl; [reflexivity|].
  rewrite IH by (intros; apply H; lia). rewrite (H n) by lia. reflexivity.
Qed.

Lemma dot_sum (u : list Q) : forall (v : list Q) (n : nat),
  List.length u = n -> List.length v = n ->
  (dot u v == sum_upto n (fun k => nth k u 0 * nth k v 0))%Q.
Proof.
  induction u as [|x u IH]; intros v n Hu Hv.
  - simpl in Hu. subst n. reflexivity.
  - destruct v as [|y v]; [simpl in *; lia|].
    destruct n as [|n]; [simpl in *; lia|].
    rewrite sum_upto_shift. simpl nth.
    unfold dot in *. simpl. rewrite (IH v n) by (simpl in *; lia).
    reflexivity.
Qed.

(** The low-rank product, scaled: entry [(i,j)] is
    [(alpha / rank) * sum_k B[i][k] * A[k][j]]. *)
Lemma lora_delta_entry (rank : Z) (alpha : Q) (A B : matrix)
    (out inner inp i j : nat) :
  has_shape B out inner -> has_shape A inner inp -> (0 < inner)%nat ->
  (i < out)%nat -> (j < inp)%nat ->
  (mget (lora_delta rank alpha A B) i j ==
   (alpha / inject_Z rank) *
   sum_upto inner (fun k => mget B i k * mget A k j))%Q.
Proof.
  intros HB HA Hpos Hi Hj. unfold lora_delta.
  rewrite (mget_mscale _ (has_shape_matmul HB HA Hpos) Hi Hj).
  rewrite (mget_matmul HB HA Hpos Hi Hj).
  rewrite (@dot_sum _ _ inner).
  - apply Qmult_comp; [reflexivity|]. apply sum_upto_ext. intros k _.
    rewrite nth_column. reflexivity.
  - apply (has_shape_row HB Hi).
  - unfold column. rewrite length_map. destruct HA. assumption.
Qed.

(** The merged weight of a LoRA layer, entry by entry:
    [W[i][j] + (alpha / rank) * (B @ A)[i][j]]. *)
Lemma merged_weight_entry (rank : Z) (alpha : Q) (W A B : matrix)
    (out inner inp i j : nat) :
  has_shape W out inp -> has_shape B out inner -> has_shape A inner inp ->
  (0 < inner)%nat -> (i < out)%nat -> (j < inp)%nat ->
  (mget (merged_weight rank alpha W A B) i j ==
   mget W i j +
   (alpha / inject_Z rank) *
   sum_upto inner (fun k => mget B i k * mget A k j))%Q.
Proof.
  intros HW HB HA Hpos Hi Hj. unfold merged_weight.
  rewrite (@mget_madd W _ out inp); try assumption.
  - rewrite (lora_delta_entry rank alpha HB HA Hpos Hi Hj). reflexivity.
  - unfold lora_delta. apply has_shape_mscale.
    apply (has_shape_matmul HB HA Hpos).
Qed.


(** *** What save_checkpoint puts in the bundle *)

Lemma sd_get_related (h' : Heap) (data : pname * loc -> matrix)
    (valid : pname * loc -> Prop) (sd sd' : state_dict_t) :
  Forall2 (entry_holds h' data valid) sd sd' ->
  forall k,
    (sd_get sd k = None -> sd_get sd' k = None) /\
    (forall v, sd_get sd k = Some v ->
       exists v', sd_get sd' k = Some v' /\
                  entry_holds h' data valid (k, v) (k, v')).
Proof.
  induction 1 as [|[k0 v0] [k0' v0'] sd sd' Hhd Htl IH]; intro k.
  - split; [reflexivity | discriminate].
  - assert (Hk : k0' = k0) by (destruct Hhd as [Hk _]; exact Hk).
    subst k0'. simpl. destruct (pname_eqb k0 k) eqn:E.
    + apply pname_eqb_eq in E. subst k0. split; [discriminate|].
      intros v Hv. inversion Hv. subst v0. exists v0'. split;
        [reflexivity | exact Hhd].
    + apply IH.
Qed.

Lemma last_saved_bundle_snoc (tr : list event) (d : ckpt_dict_t) (epoch : Z)
    (i a : bool) :
  last_saved_bundle (tr ++ [EvSaveCheckpoint d epoch i a]) = Some d.
Proof. unfold last_saved_bundle. rewrite fold_left_app. reflexivity. Qed.

Lemma checkpoint_bundle_model (r : Recipe) (opt : optimizer_state)
    (c : Components) (merged : state_dict_t) (epoch : Z) :
  bundle_state_dict (checkpoint_bundle r opt c merged epoch) MODEL_KEY
  = Some merged.
Proof.
  unfold checkpoint_bundle, bundle_state_dict.
  destruct (epoch + 1 <? total_epochs r); reflexivity.
Qed.

Lemma checkpoint_bundle_adapter (r : Recipe) (opt : optimizer_state)
    (c : Components) (merged : state_dict_t) (epoch : Z) :
  bundle_state_dict (checkpoint_bundle r opt c merged epoch) ADAPTER_KEY
  = Some (filter (fun kv => existsb (pname_eqb (fst kv)) (adapter_params c))
                 (_model c)).
Proof.
  unfold checkpoint_bundle, bundle_state_dict.
  destruct (epoch + 1 <? total_epochs r); reflexivity.
Qed.

(** C2, as the code has it.  A save is intermediate exactly when
    [epoch + 1 < total_epochs].  The bundle of an intermediate save holds
    the optimizer state and the four recipe scalars seed, epochs_run,
    total_epochs and max_steps_per_epoch next to the model, adapter and
    adapter-config entries, and nothing else; the bundle of a final save
    holds only the model, adapter and adapter-config entries. *)
Theorem save_checkpoint_bundle_contents (epoch : Z) (s : State)
    (c : Components) (ck : Checkpointer) :
  components (self s) = Some c ->
  _checkpointer (self s) = Some ck ->
  exists s' d intermediate,
    save_checkpoint epoch s = (s', Ok tt) /\
    trace s' = trace s ++
               [EvSaveCheckpoint d epoch intermediate
                                 (_save_adapter_weights_only (self s))] /\
    (intermediate = true <-> epoch + 1 < total_epochs (self s)) /\
    (intermediate = true ->
       dict_keys d = [OPT_KEY; SEED_KEY; EPOCHS_KEY; TOTAL_EPOCHS_KEY;
                      MAX_STEPS_KEY; MODEL_KEY; ADAPTER_KEY; ADAPTER_CONFIG] /\
       dict_get d OPT_KEY = Some (VOptimizer (optimizer s)) /\
       dict_get d SEED_KEY = Some (VInt (seed (self s))) /\
       dict_get d EPOCHS_KEY = Some (VInt (epochs_run (self s))) /\
       dict_get d TOTAL_EPOCHS_KEY = Some (VInt (total_epochs (self s))) /\
       dict_get d MAX_STEPS_KEY
         = Some (VOptInt (max_steps_per_epoch (self s)))) /\
    (intermediate = false ->
       dict_keys d = [MODEL_KEY; ADAPTER_KEY; ADAPTER_CONFIG] /\
       dict_get d OPT_KEY = None /\
       dict_get d SEED_KEY = None /\
       dict_get d EPOCHS_KEY = None /\
       dict_get d TOTAL_EPOCHS_KEY = None /\
       dict_get d MAX_STEPS_KEY = None).
Proof.
  intros Hc Hk.
  destruct (save_checkpoint_run epoch s Hc Hk)
    as (e1 & e2 & sd1 & merged & Hrun & _ & _).
  eexists _, _, _. split; [exact Hrun|]. split; [reflexivity|].
  split; [apply Z.ltb_lt|].
  unfold checkpoint_bundle.
  destruct (epoch + 1 <? total_epochs (self s)); split; intro H;
    try discriminate; repeat split; reflexivity.
Qed.

(** C4.  Modelled get_merged_lora_ckpt.  For a LoRA-adapted layer of the
    live model with base weight [W] (out x inp) and factors [B]
    (out x inner) and [A] (inner x inp), and a nonzero configured rank,
    save_checkpoint hands the checkpointer a bundle whose MODEL_KEY state
    dict holds, under the layer's weight name, a tensor whose entry
    [(i,j)] is [W[i][j] + (alpha / rank) * sum_k B[i][k] * A[k][j]].  For a
    layer that stores a magnitude vector the tensor is [dora_rescale] of
    the magnitude, [W] and the same scaled product. *)
Theorem save_checkpoint_merged_weights (epoch : Z) (s : State)
    (c : Components) (ck : Checkpointer) (layer : string) (w a b : loc)
    (out inner inp : nat) :
  components (self s) = Some c ->
  _checkpointer (self s) = Some ck ->
  sd_valid (heap s) (_model c) ->
  _lora_rank c <> 0 ->
  sd_get (_model c) (BaseWeight layer) = Some w ->
  sd_get (_model c) (LoraA layer) = Some a ->
  sd_get (_model c) (LoraB layer) = Some b ->
  let W := t_data (heap_get (heap s) w) in
  let A := t_data (heap_get (heap s) a) in
  let B := t_data (heap_get (heap s) b) in
  has_shape W out inp -> has_shape B out inner -> has_shape A inner inp ->
  (0 < inner)%nat ->
  exists s' d merged v,
    save_checkpoint epoch s = (s', Ok tt) /\
    last_saved_bundle (trace s') = Some d /\
    bundle_state_dict d MODEL_KEY = Some merged /\
    sd_get merged (BaseWeight layer) = Some v /\
    (sd_get (_model c) (Magnitude layer) = None ->
     forall i j, (i < out)%nat -> (j < inp)%nat ->
       (mget (t_data (heap_get (heap s') v)) i j ==
        mget W i j +
        (_lora_alpha c / inject_Z (_lora_rank c)) *
        sum_upto inner (fun k => mget B i k * mget A k j))%Q) /\
    (forall m, sd_get (_model c) (Magnitude layer) = Some m ->
       t_data (heap_get (heap s') v) =
         dora_rescale (t_data (heap_get (heap s) m)) W
           (lora_delta (_lora_rank c) (_lora_alpha c) A B) /\
       forall i j, (i < out)%nat -> (j < inp)%nat ->
         (mget (lora_delta (_lora_rank c) (_lora_alpha c) A B) i j ==
          (_lora_alpha c / inject_Z (_lora_rank c)) *
          sum_upto inner (fun k => mget B i k * mget A k j))%Q).
Proof.
  intros Hc Hk Hvalid _ Hw Ha Hb W A B HW HB HA Hpos.
  destruct (save_checkpoint_run epoch s Hc Hk)
    as (e1 & e2 & sd1 & merged & Hrun & Hall1 & Hall2).
  pose proof (sd_get_related Hall1) as R1.
  pose proof (sd_get_related Hall2) as R2.
  destruct (proj2 (R1 _) _ Hw) as (w1 & Hw1 & _ & Dw).
  destruct (proj2 (R1 _) _ Ha) as (a1 & Ha1 & _ & Da).
  destruct (proj2 (R1 _) _ Hb) as (b1 & Hb1 & _ & Db).
  simpl in Dw, Da, Db.
  destruct (Dw (Hvalid _ _ Hw)) as [Vw Ew].
  destruct (Da (Hvalid _ _ Ha)) as [_ Ea].
  destruct (Db (Hvalid _ _ Hb)) as [_ Eb].
  destruct (proj2 (R2 _) _ Hw1) as (v & Hv & _ & Dv).
  simpl in Dv. destruct (Dv Vw) as [_ Ev].
  unfold merged_data in Ev. simpl in Ev. rewrite Ha1, Hb1, Ew, Ea, Eb in Ev.
  eexists _, _, merged, v. split; [exact Hrun|].
  split; [apply last_saved_bundle_snoc|].
  split; [apply checkpoint_bundle_model|].
  split; [exact Hv|]. simpl heap. split.
  - intros Hm i j Hi Hj.
    rewrite (proj1 (R1 _) Hm) in Ev. rewrite Ev.
    apply (merged_weight_entry _ _ HW HB HA Hpos Hi Hj).
  - intros m Hm. destruct (proj2 (R1 _) _ Hm) as (m1 & Hm1 & _ & Dm).
    simpl in Dm. destruct (Dm (Hvalid _ _ Hm)) as [_ Em].
    rewrite Hm1, Em in Ev. split; [exact Ev|].
    intros i j Hi Hj. apply (lora_delta_entry _ _ HB HA Hpos Hi Hj).
Qed.


(** *** save_checkpoint and the live model *)


(** On a model that lives in host memory, the dict that save_checkpoint
    passes to the merge refers to the live tensors themselves: [v.cpu()]
    does not copy there. *)
Lemma tensor_cpu_aliases_host_tensor (v : loc) (s : State) :
  is_cpu (t_device (heap_get (heap s) v)) = true ->
  tensor_cpu v s = (s, Ok v).
Proof.
  intro H. unfold tensor_cpu, bind, get_heap, ret. rewrite H. reflexivity.
Qed.


(** *** Running the training loop *)

Lemma count_events_app (p : event -> bool) (a b : list event) :
  count_events p (a ++ b) = (count_events p a + count_events p b)%nat.
Proof. unfold count_events. rewrite filter_app, length_app. reflexivity. Qed.

Lemma quiet_app (a b : list event) : quiet a -> quiet b -> quiet (a ++ b).
Proof.
  unfold quiet. intros Ha Hb. rewrite forallb_app, Ha, Hb. reflexivity.
Qed.

Lemma quiet_counts (evs : list event) :
  quiet evs ->
  count_events is_optimizer_step evs = O /\
  count_events is_zero_grad evs = O /\
  count_events is_scheduler_step evs = O /\
  count_events is_backward evs = O /\
  count_events is_log_dict evs = O.
Proof.
  unfold quiet, count_events. induction evs as [|ev evs IH]; intro H.
  - repeat split.
  - simpl in H. apply andb_true_iff in H. destruct H as [Hev Hrest].
    specialize (IH Hrest). destruct IH as (I1 & I2 & I3 & I4 & I5).
    destruct ev; simpl in *; try discriminate; repeat split; assumption.
Qed.

Lemma ret_inv {A : Type} (a : A) s s' o :
  ret a s = (s', o) -> s' = s /\ o = Ok a.
Proof. unfold ret. intro H. inversion H. split; reflexivity. Qed.

Lemma emit_inv (ev : event) s s' o :
  emit ev s = (s', o) ->
  s' = mkState (self s) (heap s) (optimizer s) (trace s ++ [ev]) /\
  o = Ok tt.
Proof. unfold emit. intro H. inversion H. split; reflexivity. Qed.

Lemma call_inv (ev : event) s s' o :
  call ev s = (s', o) ->
  s' = mkState (self s) (heap s) (optimizer s) (trace s ++ [ev]) /\
  o = Ok (response (List.length (trace s))).
Proof. unfold call. intro H. inversion H. split; reflexivity. Qed.

Lemma pymod_inv (a b : Z) s s' o :
  pymod a b s = (s', o) ->
  s' = s /\
  ((b = 0 /\ o = Raise ZeroDivisionError) \/ (b <> 0 /\ o = Ok (a mod b))).
Proof.
  unfold pymod, raise, ret. destruct (Z.eqb_spec b 0); intro H;
    inversion H; split; auto.
Qed.

Lemma floordiv_inv (a b : Z) s s' o :
  floordiv a b s = (s', o) ->
  s' = s /\
  ((b = 0 /\ o = Raise ZeroDivisionError) \/ (b <> 0 /\ o = Ok (a / b))).
Proof.
  unfold floordiv, raise, ret. destruct (Z.eqb_spec b 0); intro H;
    inversion H; split; auto.
Qed.

Lemma truediv_inv (a b : Q) s s' o :
  truediv a b s = (s', o) ->
  s' = s /\
  ((Qeq_bool b 0 = true /\ o = Raise ZeroDivisionError) \/
   (Qeq_bool b 0 = false /\ o = Ok (a / b)%Q)).
Proof.
  unfold truediv, raise, ret. destruct (Qeq_bool b 0); intro H;
    inversion H; split; auto.
Qed.

(** The tests on the memory-recording window read attributes only. *)
Lemma memory_window_test_inv (curr_epoch idx : Z) (closing : bool) s s' o :
  memory_window_test curr_epoch idx closing s = (s', o) -> s' = s.
Proof.
  unfold memory_window_test, bind, getattr, ret.
  destruct (curr_epoch =? 0); [|intro H; inversion H; reflexivity].
  destruct (profiler_profile_memory (self s)) as [[|]|];
    try (intro H; inversion H; reflexivity).
  destruct (profiler_wait_steps (self s));
    [|intro H; inversion H; reflexivity].
  destruct (profiler_warmup_steps (self s));
    [|intro H; inversion H; reflexivity].
  destruct closing; [|intro H; inversion H; reflexivity].
  destruct (profiler_active_steps (self s));
    intro H; inversion H; reflexivity.
Qed.

(** The loss step calls the model and the loss function and nothing else. *)
Lemma loss_step_inv (batch : Batch) s s' o :
  _loss_step batch s = (s', o) ->
  exists evs,
    s' = mkState (self s) (heap s) (optimizer s) (trace s ++ evs) /\
    quiet evs /\
    (forall loss, o = Ok loss ->
       exists c shifted,
         components (self s) = Some c /\
         shift_labels (ignore_labels_cache c) (labels batch) = Ok shifted /\
         evs = [EvModelForward (tokens batch);
                EvLossFn (if _chunked_logits c then PerRow shifted
                          else Flat (List.concat shifted))] /\
         loss = response (S (List.length (trace s)))).
Proof.
  unfold _loss_step, bind, getattr, emit, lift, call, ret.
  destruct (components (self s)) as [c|] eqn:Hc.
  - destruct (shift_labels (ignore_labels_cache c) (labels batch))
      as [shifted|e] eqn:Hshift; simpl; intro H; inversion H; subst.
    + eexists. split; [rewrite <- app_assoc; reflexivity|].
      split; [reflexivity|]. intros loss Hl. inversion Hl.
      exists c, shifted. repeat split; try assumption.
      rewrite length_app. simpl. f_equal. lia.
    + eexists. split; [reflexivity|]. split; [reflexivity|]. discriminate.
  - intro H. inversion H; subst. exists []. rewrite app_nil_r.
    split; [symmetry; apply state_eta|]. split; [reflexivity|]. discriminate.
Qed.


Lemma bind_assoc {A B C : Type} (m : M A) (f : A -> M B) (g : B -> M C) s :
  bind (bind m f) g s = bind m (fun x => bind (f x) g) s.
Proof. unfold bind. destruct (m s) as [s1 [a|e]]; reflexivity. Qed.

Lemma set_global_step_same (r : Recipe) :
  set_global_step r (global_step r) = r.
Proof. destruct r. reflexivity. Qed.

(** The last micro-batch of a window, when it completes: one optimizer
    step, one gradient zeroing, one scheduler step, global_step plus one,
    a log record when the new global_step is a multiple of
    log_every_n_steps, and the running statistics reset. *)
Lemma quiet_clip_events (r : Recipe) : quiet (clip_events r).
Proof. unfold clip_events. destruct (_clip_grad_norm r); reflexivity. Qed.

Lemma quiet_memory_events (r : Recipe) : quiet (memory_events r).
Proof.
  unfold memory_events.
  destruct (String.eqb (device_type (_device r)) "cuda"
            && _log_peak_memory_stats r); reflexivity.
Qed.

Lemma optimizer_boundary_ok (rl : Q) (nt : Z) (l l' : Locals) (s s' : State) :
  optimizer_boundary rl nt l s = (s', Ok l') ->
  let r := self s in
  let gs' := global_step r + 1 in
  let stepped :=
    trace s ++ clip_events r
    ++ [EvOptimizerStep; EvZeroGrad; EvSchedulerStep] in
  _log_every_n_steps r <> 0 /\
  self s' = set_global_step r gs' /\
  running_loss l' = 0%Q /\
  num_tokens l' = 0 /\
  exists levs,
    trace s' = stepped ++ levs ++ [EvPerfCounter] /\
    t0 l' = response (List.length (stepped ++ levs)) /\
    (if gs' mod _log_every_n_steps r =? 0 then
       exists rec,
         levs = [EvPerfCounter; EvGetLr] ++ memory_events r
                ++ [EvLogDict rec gs'] /\
         log_loss rec = rl /\
         let elapsed := (response (List.length stepped) - t0 l)%Q in
         Qeq_bool elapsed 0 = false /\
         log_tokens_per_second_per_gpu rec = (inject_Z nt / elapsed)%Q
     else levs = []).
Proof.
  intros H r gs' stepped.
  unfold optimizer_boundary, optimizer_step in H.
  assert (Hclip : exists g,
    (match _clip_grad_norm (self s) with
     | Some max_norm => g <- call (EvClipGradNorm max_norm) ;; ret (Some g)
     | None => ret (grad_norm l)
     end) s
    = (mkState (self s) (heap s) (optimizer s)
               (trace s ++ clip_events (self s)), Ok g)).
  { unfold clip_events. destruct (_clip_grad_norm (self s)).
    - eexists. reflexivity.
    - exists (grad_norm l). rewrite app_nil_r, state_eta. reflexivity. }
  destruct Hclip as (g & Hclip).
  erewrite bind_run in H by reflexivity. cbv beta in H.
  erewrite bind_run in H by exact Hclip. cbv beta in H.
  do 6 (erewrite bind_run in H by reflexivity; cbv beta in H).
  simpl in H. fold r in H. fold gs' in H.
  unfold pymod in H.
  destruct (Z.eqb_spec (_log_every_n_steps r) 0) as [HN|HN].
  { erewrite bind_raise in H by reflexivity. discriminate. }
  split; [exact HN|].
  erewrite bind_run in H by reflexivity. cbv beta in H.
  assert (Hst : (((trace s ++ clip_events r) ++ [EvOptimizerStep])
                 ++ [EvZeroGrad]) ++ [EvSchedulerStep] = stepped).
  { unfold stepped. rewrite <- !app_assoc. reflexivity. }
  rewrite Hst in H.
  destruct (gs' mod _log_every_n_steps r =? 0).
  - do 2 (rewrite ?bind_assoc in H;
          erewrite bind_run in H by reflexivity; cbv beta in H).
    simpl in H. rewrite ?bind_assoc in H. unfold truediv in H.
    match type of H with
    | context [Qeq_bool ?e 0] => destruct (Qeq_bool e 0) eqn:Hz
    end.
    { erewrite bind_raise in H by reflexivity. discriminate. }
    erewrite bind_run in H by reflexivity. cbv beta in H.
    rewrite ?bind_assoc in H.
    unfold memory_events.
    destruct (String.eqb (device_type (_device r)) "cuda"
              && _log_peak_memory_stats r).
    + do 4 (rewrite ?bind_assoc in H;
            erewrite bind_run in H by reflexivity; cbv beta in H).
      unfold ret in H. inversion H; subst s' l'; clear H. simpl.
      split; [reflexivity|]. split; [reflexivity|]. split; [reflexivity|].
      eexists ([EvPerfCounter; EvGetLr] ++ [EvGetMemoryStats]
               ++ [EvLogDict _ _]).
      split; [rewrite <- !app_assoc; simpl; reflexivity|].
      split; [f_equal; f_equal; rewrite <- !app_assoc; simpl; reflexivity|].
      eexists. split; [reflexivity|]. split; [reflexivity|].
      split; [exact Hz | reflexivity].
    + do 3 (rewrite ?bind_assoc in H;
            erewrite bind_run in H by reflexivity; cbv beta in H).
      unfold ret in H. inversion H; subst s' l'; clear H. simpl.
      split; [reflexivity|]. split; [reflexivity|]. split; [reflexivity|].
      eexists ([EvPerfCounter; EvGetLr] ++ [] ++ [EvLogDict _ _]).
      split; [rewrite <- !app_assoc; simpl; reflexivity|].
      split; [f_equal; f_equal; rewrite <- !app_assoc; simpl; reflexivity|].
      eexists. split; [reflexivity|]. split; [reflexivity|].
      split; [exact Hz | reflexivity].
  - do 2 (erewrite bind_run in H by reflexivity; cbv beta in H).
    unfold ret in H. inversion H; subst s' l'; clear H.
    simpl. split; [reflexivity|]. split; [reflexivity|].
    split; [reflexivity|]. exists [].
    split; [reflexivity|]. split; [rewrite app_nil_r; reflexivity|].
    reflexivity.
Qed.

(** *** Counting back-propagations, whatever the outcome *)

Lemma adds_weaken {A : Type} (p : event -> bool) (m : M A) (n n' : nat) :
  adds p m n -> (n <= n')%nat -> adds p m n'.
Proof. intros H Hle s s' o Hrun. specialize (H s s' o Hrun). lia. Qed.

Lemma adds_bind {A B : Type} (p : event -> bool) (m : M A) (f : A -> M B)
    (n n' : nat) :
  adds p m n -> (forall a, adds p (f a) n') -> adds p (bind m f) (n + n').
Proof.
  intros Hm Hf s s' o Hrun.
  apply bind_inv in Hrun.
  destruct Hrun as [(s1 & a & H1 & H2) | (e & H1 & _)].
  - specialize (Hm _ _ _ H1). specialize (Hf a _ _ _ H2). lia.
  - specialize (Hm _ _ _ H1). lia.
Qed.

Lemma adds_bind_none {A B : Type} (p : event -> bool) (m : M A)
    (f : A -> M B) :
  adds p m 0 -> (forall a, adds p (f a) 0) -> adds p (bind m f) 0.
Proof. intros Hm Hf. change O with (0 + 0)%nat. apply adds_bind; assumption. Qed.

Lemma adds_same {A : Type} (p : event -> bool) (m : M A) :
  (forall s s' o, m s = (s', o) -> trace s' = trace s) -> adds p m 0.
Proof. intros H s s' o Hrun. rewrite (H _ _ _ Hrun). lia. Qed.

Lemma adds_ret {A : Type} p (a : A) : adds p (ret a) 0.
Proof. apply adds_same. intros s s' o H. inversion H. reflexivity. Qed.

Lemma adds_raise {A : Type} p e : adds p (@raise A e) 0.
Proof. apply adds_same. intros s s' o H. inversion H. reflexivity. Qed.

Lemma adds_lift {A : Type} p (x : outcome A) : adds p (lift x) 0.
Proof. apply adds_same. intros s s' o H. inversion H. reflexivity. Qed.

Lemma adds_getattr {A : Type} p name (field : Recipe -> option A) :
  adds p (getattr name field) 0.
Proof.
  apply adds_same. intros s s' o H. apply getattr_inv in H.
  destruct H as [-> _]. reflexivity.
Qed.

Lemma adds_get_self p : adds p get_self 0.
Proof. apply adds_same. intros s s' o H. inversion H. reflexivity. Qed.

Lemma adds_put_self p r : adds p (put_self r) 0.
Proof. apply adds_same. intros s s' o H. inversion H. reflexivity. Qed.

Lemma adds_get_heap p : adds p get_heap 0.
Proof. apply adds_same. intros s s' o H. inversion H. reflexivity. Qed.

Lemma adds_put_heap p h : adds p (put_heap h) 0.
Proof. apply adds_same. intros s s' o H. inversion H. reflexivity. Qed.

Lemma adds_get_optimizer p : adds p get_optimizer 0.
Proof. apply adds_same. intros s s' o H. inversion H. reflexivity. Qed.

Lemma adds_put_optimizer p x : adds p (put_optimizer x) 0.
Proof. apply adds_same. intros s s' o H. inversion H. reflexivity. Qed.

Lemma adds_alloc p t : adds p (alloc t) 0.
Proof. apply adds_same. intros s s' o H. inversion H. reflexivity. Qed.

Lemma adds_pymod p a b : adds p (pymod a b) 0.
Proof.
  apply adds_same. intros s s' o H. apply pymod_inv in H.
  destruct H as [-> _]. reflexivity.
Qed.

Lemma adds_floordiv p a b : adds p (floordiv a b) 0.
Proof.
  apply adds_same. intros s s' o H. apply floordiv_inv in H.
  destruct H as [-> _]. reflexivity.
Qed.

Lemma adds_truediv p a b : adds p (truediv a b) 0.
Proof.
  apply adds_same. intros s s' o H. apply truediv_inv in H.
  destruct H as [-> _]. reflexivity.
Qed.

Lemma adds_emit p ev : adds p (emit ev) (if p ev then 1 else 0).
Proof.
  intros s s' o H. apply emit_inv in H. destruct H as [-> _]. simpl.
  rewrite count_events_app. unfold count_events at 2. simpl.
  destruct (p ev); simpl; lia.
Qed.

Lemma adds_call p ev : adds p (call ev) (if p ev then 1 else 0).
Proof.
  intros s s' o H. apply call_inv in H. destruct H as [-> _]. simpl.
  rewrite count_events_app. unfold count_events at 2. simpl.
  destruct (p ev); simpl; lia.
Qed.

Lemma adds_emit_other p ev : p ev = false -> adds p (emit ev) 0.
Proof. intro H. pose proof (@adds_emit p ev) as A. rewrite H in A. exact A. Qed.

Lemma adds_emit_one p ev : adds p (emit ev) 1.
Proof.
  eapply adds_weaken; [apply adds_emit|]. destruct (p ev); lia.
Qed.

Lemma adds_call_other p ev : p ev = false -> adds p (call ev) 0.
Proof. intro H. pose proof (@adds_call p ev) as A. rewrite H in A. exact A. Qed.

Lemma adds_call_one p ev : adds p (call ev) 1.
Proof.
  eapply adds_weaken; [apply adds_call|]. destruct (p ev); lia.
Qed.

Lemma adds_memory_window_test p e i c :
  adds p (memory_window_test e i c) 0.
Proof.
  apply adds_same. intros s s' o H. apply memory_window_test_inv in H.
  now subst.
Qed.

Lemma adds_mapM {A B : Type} p (f : A -> M B) (l : list A) :
  (forall a, adds p (f a) 0) -> adds p (mapM f l) 0.
Proof.
  intro Hf. induction l as [|a l IH]; simpl.
  - apply adds_ret.
  - change O with (0 + (0 + 0))%nat. apply adds_bind; [apply Hf|].
    intro b. apply adds_bind; [exact IH|]. intro bs. apply adds_ret.
Qed.

Ltac adds_step :=
  first
    [ apply adds_ret | apply adds_raise | apply adds_lift
    | apply adds_getattr | apply adds_get_self | apply adds_put_self
    | apply adds_get_heap | apply adds_put_heap | apply adds_get_optimizer
    | apply adds_put_optimizer | apply adds_alloc | apply adds_pymod
    | apply adds_floordiv | apply adds_truediv
    | (apply adds_emit_other; reflexivity) | apply adds_emit_one
    | (apply adds_call_other; reflexivity) | apply adds_call_one
    | apply adds_memory_window_test
    | match goal with
      | |- adds _ (bind _ _) O => apply adds_bind_none; [|intro]
      end
    | (eapply adds_bind; [|intro])
    | match goal with
      | |- adds _ (if ?b then _ else _) _ => destruct b
      | |- adds _ (match ?o with _ => _ end) _ => destruct o
      end ].

Ltac adds_auto := eapply adds_weaken; [repeat adds_step | simpl; lia].

Lemma adds_loss_step (batch : Batch) :
  adds is_backward (_loss_step batch) 0.
Proof. unfold _loss_step. adds_auto. Qed.

Lemma adds_optimizer_boundary rl nt l :
  adds is_backward (optimizer_boundary rl nt l) 0.
Proof. unfold optimizer_boundary, optimizer_step. adds_auto. Qed.

Lemma adds_train_batch curr_epoch idx batch l :
  adds is_backward (train_batch curr_epoch idx batch l) 1.
Proof.
  unfold train_batch. eapply adds_weaken.
  - repeat first [ apply adds_loss_step | apply adds_optimizer_boundary
                 | adds_step ].
  - simpl. lia.
Qed.

Lemma adds_save_checkpoint epoch :
  adds is_backward (save_checkpoint epoch) 0.
Proof.
  unfold save_checkpoint, get_merged_lora_ckpt. eapply adds_weaken.
  - repeat first
      [ match goal with
        | |- adds _ (mapM _ _) _ =>
            apply adds_mapM; intro; unfold tensor_cpu, merge_entry
        end
      | adds_step ].
  - simpl. lia.
Qed.

(** *** One micro-batch *)

Lemma maybe_emit_inv (b : bool) (ev : event) s s' o :
  (if b then emit ev else ret tt) s = (s', o) ->
  s' = mkState (self s) (heap s) (optimizer s)
               (trace s ++ (if b then [ev] else [])) /\
  o = Ok tt.
Proof.
  destruct b; intro H.
  - apply emit_inv in H. exact H.
  - apply ret_inv in H. destruct H as [-> ->].
    rewrite app_nil_r, state_eta. split; reflexivity.
Qed.

Ltac ok_step H s1 a H1 :=
  apply bind_ok in H; destruct H as (s1 & a & H1 & H); cbv beta in H.

Lemma quiet_batch_prefix opening toks lbls :
  quiet (batch_prefix opening toks lbls).
Proof. destruct opening; reflexivity. Qed.

Lemma quiet_batch_suffix closing : quiet (batch_suffix closing).
Proof. destruct closing; reflexivity. Qed.

(** A micro-batch that completes: off a window boundary it makes the
    calls [batch_prefix], the back-propagation and [batch_suffix], and the
    running statistics accumulate; on a boundary [optimizer_boundary] runs
    between the back-propagation and the suffix. *)
Lemma train_batch_ok (curr_epoch idx : Z) (batch : Batch) (l l' : Locals)
    (s s' : State) :
  train_batch curr_epoch idx batch l s = (s', Ok l') ->
  let r := self s in
  let k := _gradient_accumulation_steps r in
  k <> 0 /\
  exists opening closing lbls loss,
    let pre := batch_prefix opening (tokens batch) lbls in
    let post := batch_suffix closing in
    if (idx + 1) mod k =? 0 then
      exists s1 s2,
        self s1 = r /\
        trace s1 = trace s ++ pre ++ [EvBackward] /\
        optimizer_boundary (running_loss l + loss / inject_Z k)%Q
          (num_tokens l + numel (tokens batch)) l s1 = (s2, Ok l') /\
        self s' = self s2 /\
        trace s' = trace s2 ++ post
    else
      self s' = r /\
      trace s' = trace s ++ pre ++ [EvBackward] ++ post /\
      l' = {| t0 := t0 l;
              running_loss := (running_loss l + loss / inject_Z k)%Q;
              num_tokens := num_tokens l + numel (tokens batch);
              grad_norm := grad_norm l |}.
Proof.
  intros H r k. unfold train_batch in H.
  ok_step H s1 opening H1. apply memory_window_test_inv in H1. subst s1.
  ok_step H s2 u2 H2. apply maybe_emit_inv in H2. destruct H2 as [-> _].
  ok_step H s3 loss H3. apply loss_step_inv in H3.
  destruct H3 as (evs & -> & _ & Hdet).
  destruct (Hdet loss eq_refl) as (c & shifted & _ & _ & -> & _).
  simpl in H.
  ok_step H s4 r4 H4. inversion H4; subst s4 r4; clear H4. simpl in H.
  fold r in H. fold k in H.
  ok_step H s5 u5 H5. apply emit_inv in H5. destruct H5 as [-> _].
  simpl in H.
  ok_step H s6 boundary H6. apply pymod_inv in H6.
  destruct H6 as [-> [[_ Hb]|[Hk Hb]]]; [discriminate|].
  inversion Hb; subst boundary; clear Hb.
  split; [exact Hk|].
  ok_step H s7 l7 H7.
  ok_step H s8 closing H8. apply memory_window_test_inv in H8. subst s8.
  ok_step H s9 u9 H9. apply maybe_emit_inv in H9. destruct H9 as [-> _].
  ok_step H s10 u10 H10. apply emit_inv in H10. destruct H10 as [-> _].
  apply ret_inv in H. destruct H as [-> Hl]. inversion Hl; subst l7; clear Hl.
  exists opening, closing,
    (if _chunked_logits c then PerRow shifted
     else Flat (List.concat shifted)), loss.
  unfold batch_prefix, batch_suffix.
  destruct ((idx + 1) mod k =? 0).
  - eexists _, s7. split; [|split; [|split; [exact H7|]]].
    + reflexivity.
    + simpl. rewrite <- !app_assoc. reflexivity.
    + simpl. split; [reflexivity|]. rewrite <- !app_assoc. reflexivity.
  - apply ret_inv in H7. destruct H7 as [-> Hl]. inversion Hl. simpl.
    split; [reflexivity|]. split; [|reflexivity].
    rewrite <- !app_assoc. reflexivity.
Qed.

Lemma count_events_cons (p : event -> bool) (ev : event) (evs : list event) :
  count_events p (ev :: evs)
  = ((if p ev then 1 else 0) + count_events p evs)%nat.
Proof. unfold count_events. simpl. destruct (p ev); reflexivity. Qed.

Lemma count_events_nil (p : event -> bool) : count_events p [] = O.
Proof. reflexivity. Qed.

(** What a completed micro-batch adds to the counted calls and to
    global_step. *)
Lemma train_batch_summary (curr_epoch idx : Z) (batch : Batch)
    (l l' : Locals) (s s' : State) :
  train_batch curr_epoch idx batch l s = (s', Ok l') ->
  let r := self s in
  let k := _gradient_accumulation_steps r in
  let d := on_boundary idx k in
  k <> 0 /\
  self s' = set_global_step r (global_step r + Z.of_nat d) /\
  count_events is_optimizer_step (trace s')
    = (count_events is_optimizer_step (trace s) + d)%nat /\
  count_events is_zero_grad (trace s')
    = (count_events is_zero_grad (trace s) + d)%nat /\
  count_events is_scheduler_step (trace s')
    = (count_events is_scheduler_step (trace s) + d)%nat /\
  count_events is_backward (trace s')
    = (count_events is_backward (trace s) + 1)%nat /\
  count_events is_log_dict (trace s')
    = (count_events is_log_dict (trace s) +
       (if ((idx + 1) mod k =? 0)%Z then
          if ((global_step r + 1) mod _log_every_n_steps r =? 0)%Z
          then 1 else 0
        else 0))%nat.
Proof.
  intros H r k d. apply train_batch_ok in H. fold r in H. fold k in H.
  destruct H as (Hk & opening & closing & lbls & loss & H). cbv zeta in H.
  split; [exact Hk|].
  destruct (quiet_counts (quiet_batch_prefix opening (tokens batch) lbls))
    as (P1 & P2 & P3 & P4 & P5).
  destruct (quiet_counts (quiet_batch_suffix closing))
    as (Q1 & Q2 & Q3 & Q4 & Q5).
  unfold d, on_boundary. destruct ((idx + 1) mod k =? 0).
  - destruct H as (s1 & s2 & Hs1 & Ht1 & Hb & Hs' & Ht').
    apply optimizer_boundary_ok in Hb. rewrite Hs1 in Hb. fold r in Hb.
    cbv zeta in Hb.
    destruct Hb as (HN & Hself & _ & _ & levs & Htr & _ & Hlog).
    destruct (quiet_counts (quiet_clip_events r)) as (C1 & C2 & C3 & C4 & C5).
    destruct (quiet_counts (quiet_memory_events r))
      as (M1 & M2 & M3 & M4 & M5).
    rewrite Hs', Hself, Ht', Htr, Ht1.
    split; [reflexivity|].
    destruct ((global_step r + 1) mod _log_every_n_steps r =? 0).
    + destruct Hlog as (rec & -> & _).
      repeat split;
        repeat (rewrite ?count_events_app, ?count_events_cons,
                  ?count_events_nil);
        simpl; lia.
    + subst levs.
      repeat split;
        repeat (rewrite ?count_events_app, ?count_events_cons,
                  ?count_events_nil);
        simpl; lia.
  - destruct H as (Hs' & Ht' & _). rewrite Hs', Ht'.
    split; [simpl; rewrite Z.add_0_r; symmetry; apply set_global_step_same|].
    repeat split;
      repeat (rewrite ?count_events_app, ?count_events_cons,
                ?count_events_nil);
      simpl; lia.
Qed.

Lemma boundary_div (idx k : Z) :
  0 < k ->
  (idx + 1) / k - idx / k = Z.of_nat (on_boundary idx k).
Proof.
  intro Hk. unfold on_boundary.
  pose proof (Z.div_mod (idx + 1) k ltac:(lia)) as E.
  pose proof (Z.mod_pos_bound (idx + 1) k Hk) as B.
  destruct (Z.eqb_spec ((idx + 1) mod k) 0) as [H0|H0].
  - assert (idx / k = (idx + 1) / k - 1).
    { symmetry. apply (Z.div_unique idx k _ (k - 1)); nia. }
    simpl. lia.
  - assert (idx / k = (idx + 1) / k).
    { symmetry. apply (Z.div_unique idx k _ ((idx + 1) mod k - 1)); nia. }
    simpl. lia.
Qed.

(** *** The micro-batch loop *)

Lemma set_global_step_twice (r : Recipe) (a b : Z) :
  set_global_step (set_global_step r a) b = set_global_step r b.
Proof. reflexivity. Qed.

Lemma truncation_test_inv (r : Recipe) (idx : Z) s s' o :
  truncation_test r idx s = (s', o) ->
  s' = s /\
  (_gradient_accumulation_steps r <> 0 ->
   o = Ok (match max_steps_per_epoch r with
           | None => false
           | Some m => idx / _gradient_accumulation_steps r =? m
           end)).
Proof.
  unfold truncation_test, floordiv, bind, ret, raise.
  destruct (max_steps_per_epoch r) as [m|].
  - destruct (Z.eqb_spec (_gradient_accumulation_steps r) 0);
      intro H; inversion H; split; try reflexivity; intro; congruence.
  - intro H. inversion H. split; reflexivity.
Qed.

Lemma train_batches_cons (curr_epoch idx : Z) (batch : Batch)
    (rest : list Batch) (l : Locals) (s : State) :
  train_batches curr_epoch idx (batch :: rest) l s =
  (stop <- truncation_test (self s) idx ;;
   if (stop : bool) then ret l
   else l' <- train_batch curr_epoch idx batch l ;;
        train_batches curr_epoch (idx + 1) rest l') s.
Proof. reflexivity. Qed.

(** A run of the loop that completes: with [p] micro-batches processed
    from index [idx] on, the optimizer, the gradient zeroing and the
    scheduler have each been called once per window boundary crossed, and
    global_step has grown by as much. *)
Lemma train_batches_steps (curr_epoch : Z) (batches : list Batch) :
  forall (idx : Z) (l l' : Locals) (s s' : State),
  train_batches curr_epoch idx batches l s = (s', Ok l') ->
  let r := self s in
  let k := _gradient_accumulation_steps r in
  0 < k ->
  exists p : nat,
    (p <= List.length batches)%nat /\
    count_events is_backward (trace s')
      = (count_events is_backward (trace s) + p)%nat /\
    let w := (idx + Z.of_nat p) / k - idx / k in
    0 <= w /\
    self s' = set_global_step r (global_step r + w) /\
    Z.of_nat (count_events is_optimizer_step (trace s'))
      = Z.of_nat (count_events is_optimizer_step (trace s)) + w /\
    Z.of_nat (count_events is_zero_grad (trace s'))
      = Z.of_nat (count_events is_zero_grad (trace s)) + w /\
    Z.of_nat (count_events is_scheduler_step (trace s'))
      = Z.of_nat (count_events is_scheduler_step (trace s)) + w.
Proof.
  induction batches as [|batch rest IH]; intros idx l l' s s' H r k Hk.
  - apply ret_inv in H. destruct H as [-> _]. exists O.
    cbv zeta. simpl Z.of_nat. rewrite Z.add_0_r, Z.sub_diag.
    split; [simpl; lia|]. split; [lia|]. split; [lia|].
    split; [rewrite Z.add_0_r; symmetry; apply set_global_step_same|]. lia.
  - rewrite train_batches_cons in H.
    apply bind_ok in H. destruct H as (s1 & stop & H1 & H).
    apply truncation_test_inv in H1. destruct H1 as [-> _].
    destruct stop.
    + apply ret_inv in H. destruct H as [-> _]. exists O.
      cbv zeta. simpl Z.of_nat. rewrite Z.add_0_r, Z.sub_diag.
      split; [simpl; lia|]. split; [lia|]. split; [lia|].
      split; [rewrite Z.add_0_r; symmetry; apply set_global_step_same|]. lia.
    + apply bind_ok in H. destruct H as (s2 & l2 & H2 & H).
      apply train_batch_summary in H2. fold r in H2. fold k in H2.
      destruct H2 as (_ & Hself & Ho & Hz & Hs & Hb & _).
      specialize (IH _ _ _ _ _ H). rewrite Hself in IH. simpl in IH.
      fold k in IH. specialize (IH Hk).
      destruct IH as (p & Hp & Ib & Hw & Iself & Io & Iz & Is).
      exists (S p). cbv zeta.
      pose proof (boundary_div idx Hk) as Hbd.
      replace (idx + Z.of_nat (S p)) with (idx + 1 + Z.of_nat p) by lia.
      remember ((idx + 1 + Z.of_nat p) / k) as q1.
      remember ((idx + 1) / k) as q2.
      remember (idx / k) as q3.
      remember (on_boundary idx k) as d.
      split; [simpl; lia|]. split; [lia|]. split; [lia|].
      split; [rewrite Iself, set_global_step_twice; f_equal; lia|].
      repeat split; lia.
Qed.

(** C1.  In a micro-batch loop with accumulation window [k > 0]:
    a micro-batch that completes calls the optimizer step, the gradient
    zeroing and the scheduler step once each and increments global_step
    by one when [(idx+1) mod k = 0], and does none of the four otherwise;
    a run of the loop from index [idx] that processes [p] micro-batches
    makes [(idx+p)/k - idx/k] calls of each kind and adds as much to
    global_step, which is exactly one per window of [k] micro-batches. *)
Theorem train_steps_on_window_boundaries (curr_epoch : Z) :
  (forall idx batch l l' s s',
     train_batch curr_epoch idx batch l s = (s', Ok l') ->
     let k := _gradient_accumulation_steps (self s) in
     let steps (t : State) :=
       (count_events is_optimizer_step (trace t),
        count_events is_zero_grad (trace t),
        count_events is_scheduler_step (trace t)) in
     ((idx + 1) mod k = 0 ->
        steps s' =
          (S (count_events is_optimizer_step (trace s)),
           S (count_events is_zero_grad (trace s)),
           S (count_events is_scheduler_step (trace s))) /\
        global_step (self s') = global_step (self s) + 1) /\
     ((idx + 1) mod k <> 0 ->
        steps s' = steps s /\
        global_step (self s') = global_step (self s))) /\
  (forall idx batches l l' s s',
     0 < _gradient_accumulation_steps (self s) ->
     train_batches curr_epoch idx batches l s = (s', Ok l') ->
     let k := _gradient_accumulation_steps (self s) in
     exists p : nat,
       count_events is_backward (trace s')
         = (count_events is_backward (trace s) + p)%nat /\
       let w := (idx + Z.of_nat p) / k - idx / k in
       global_step (self s') = global_step (self s) + w /\
       Z.of_nat (count_events is_optimizer_step (trace s'))
         = Z.of_nat (count_events is_optimizer_step (trace s)) + w /\
       Z.of_nat (count_events is_zero_grad (trace s'))
         = Z.of_nat (count_events is_zero_grad (trace s)) + w /\
       Z.of_nat (count_events is_scheduler_step (trace s'))
         = Z.of_nat (count_events is_scheduler_step (trace s)) + w /\
       (idx mod k = 0 -> Z.of_nat p = k -> w = 1)).
Proof.
  split.
  - intros idx batch l l' s s' H k steps.
    apply train_batch_summary in H. fold k in H.
    destruct H as (_ & Hself & Ho & Hz & Hs & _).
    unfold on_boundary in *. unfold steps. rewrite Hself, Ho, Hz, Hs.
    split; intro Hm.
    + apply Z.eqb_eq in Hm. rewrite Hm. simpl.
      rewrite !Nat.add_1_r. split; reflexivity.
    + apply Z.eqb_neq in Hm. rewrite Hm. simpl.
      rewrite !Nat.add_0_r, Z.add_0_r. split; reflexivity.
  - intros idx batches l l' s s' Hk H k.
    destruct (@train_batches_steps curr_epoch batches idx l l' s s' H Hk)
      as (p & _ & Hb & _ & Hself & Ho & Hz & Hs).
    exists p. split; [exact Hb|]. fold k in Hself, Ho, Hz, Hs.
    split; [rewrite Hself; reflexivity|].
    split; [exact Ho|]. split; [exact Hz|]. split; [exact Hs|].
    intros Hidx Hp. rewrite Hp.
    fold k in Hk.
    assert (E : idx = k * (idx / k)).
    { pose proof (Z.div_mod idx k ltac:(lia)). lia. }
    rewrite E at 1.
    replace (k * (idx / k) + k) with ((idx / k + 1) * k) by lia.
    rewrite Z.div_mul by lia. lia.
Qed.

(** *** Early truncation of an epoch *)

(** From index [idx] on, the loop back-propagates at most [m*k - idx]
    micro-batches, whatever its outcome. *)
Lemma train_batches_bound (curr_epoch m : Z) (batches : list Batch) :
  forall (idx : Z) (l : Locals) (s s' : State) (o : outcome Locals),
  max_steps_per_epoch (self s) = Some m ->
  0 < _gradient_accumulation_steps (self s) ->
  0 <= idx <= m * _gradient_accumulation_steps (self s) ->
  train_batches curr_epoch idx batches l s = (s', o) ->
  Z.of_nat (count_events is_backward (trace s'))
  <= Z.of_nat (count_events is_backward (trace s))
     + (m * _gradient_accumulation_steps (self s) - idx).
Proof.
  induction batches as [|batch rest IH]; intros idx l s s' o Hm Hk Hidx H.
  - apply ret_inv in H. destruct H as [-> _]. lia.
  - rewrite train_batches_cons in H. apply bind_inv in H.
    destruct H as [(s1 & stop & H1 & H) | (e & H1 & _)];
      apply truncation_test_inv in H1; destruct H1 as [-> Hstop];
      [|lia].
    specialize (Hstop ltac:(lia)). rewrite Hm in Hstop.
    inversion Hstop; subst stop; clear Hstop.
    destruct (Z.eqb_spec (idx / _gradient_accumulation_steps (self s)) m)
      as [E|E].
    + apply ret_inv in H. destruct H as [-> _]. lia.
    + assert (Hlt : idx < m * _gradient_accumulation_steps (self s)).
      { destruct (Z.eq_dec idx (m * _gradient_accumulation_steps (self s)))
          as [Eq|]; [|lia].
        exfalso. apply E. rewrite Eq. apply Z.div_mul. lia. }
      apply bind_inv in H.
      destruct H as [(s2 & l2 & H2 & H) | (e & H2 & _)].
      * apply train_batch_summary in H2.
        destruct H2 as (_ & Hself & _ & _ & _ & Hb & _).
        specialize (IH (idx + 1) l2 s2 s' o).
        rewrite Hself in IH. simpl in IH.
        specialize (IH Hm Hk ltac:(lia) H). lia.
      * apply adds_train_batch in H2. lia.
Qed.

(** A run that completes has processed every batch up to the limit. *)
Lemma train_batches_processed (curr_epoch m : Z) (batches : list Batch) :
  forall (idx : Z) (l l' : Locals) (s s' : State),
  max_steps_per_epoch (self s) = Some m ->
  0 < _gradient_accumulation_steps (self s) ->
  0 <= idx <= m * _gradient_accumulation_steps (self s) ->
  train_batches curr_epoch idx batches l s = (s', Ok l') ->
  Z.of_nat (count_events is_backward (trace s'))
  = Z.of_nat (count_events is_backward (trace s))
    + Z.min (Z.of_nat (List.length batches))
            (m * _gradient_accumulation_steps (self s) - idx).
Proof.
  induction batches as [|batch rest IH]; intros idx l l' s s' Hm Hk Hidx H.
  - apply ret_inv in H. destruct H as [-> _]. simpl. lia.
  - rewrite train_batches_cons in H. apply bind_ok in H.
    destruct H as (s1 & stop & H1 & H).
    apply truncation_test_inv in H1. destruct H1 as [-> Hstop].
    specialize (Hstop ltac:(lia)). rewrite Hm in Hstop.
    inversion Hstop; subst stop; clear Hstop.
    destruct (Z.eqb_spec (idx / _gradient_accumulation_steps (self s)) m)
      as [E|E].
    + apply ret_inv in H. destruct H as [-> _].
      assert (idx = m * _gradient_accumulation_steps (self s)).
      { pose proof (Z.div_mod idx (_gradient_accumulation_steps (self s))
                      ltac:(lia)).
        pose proof (Z.mod_pos_bound idx
                      (_gradient_accumulation_steps (self s)) Hk).
        rewrite E in *. nia. }
      simpl List.length. lia.
    + assert (Hlt : idx < m * _gradient_accumulation_steps (self s)).
      { destruct (Z.eq_dec idx (m * _gradient_accumulation_steps (self s)))
          as [Eq|]; [|lia].
        exfalso. apply E. rewrite Eq. apply Z.div_mul. lia. }
      apply bind_ok in H. destruct H as (s2 & l2 & H2 & H).
      apply train_batch_summary in H2.
      destruct H2 as (_ & Hself & _ & _ & _ & Hb & _).
      specialize (IH (idx + 1) l2 l' s2 s').
      rewrite Hself in IH. simpl in IH.
      specialize (IH Hm Hk ltac:(lia) H).
      simpl List.length. lia.
Qed.

(** C6.  With max_steps_per_epoch = [m >= 0] and an accumulation window
    [k > 0]: the loop over the batches of an epoch back-propagates at most
    [m*k] micro-batches whatever its outcome, and exactly
    [min (number of batches) (m*k)] when it completes; at an index with
    [idx // k = m] it breaks without touching the batch, however many
    batches remain; and a whole epoch of train, checkpoint included, stays
    within the same bound. *)
Theorem train_epoch_truncated (curr_epoch m : Z) (s : State) :
  max_steps_per_epoch (self s) = Some m ->
  0 < _gradient_accumulation_steps (self s) ->
  0 <= m ->
  let k := _gradient_accumulation_steps (self s) in
  let processed (s' : State) :=
    Z.of_nat (count_events is_backward (trace s'))
    - Z.of_nat (count_events is_backward (trace s)) in
  (forall batches l s' o,
     train_batches curr_epoch 0 batches l s = (s', o) ->
     processed s' <= m * k) /\
  (forall batches l s' l',
     train_batches curr_epoch 0 batches l s = (s', Ok l') ->
     processed s' = Z.min (Z.of_nat (List.length batches)) (m * k)) /\
  (forall idx batch rest l,
     idx / k = m ->
     train_batches curr_epoch idx (batch :: rest) l s = (s, Ok l)) /\
  (forall l s' o,
     train_epoch curr_epoch l s = (s', o) -> processed s' <= m * k).
Proof.
  intros Hm Hk Hm0 k processed. unfold processed. fold k in Hk.
  assert (Hrange : 0 <= 0 <= m * k) by nia.
  split; [|split; [|split]].
  - intros batches l s' o H.
    pose proof (train_batches_bound _ _ _ _ Hm Hk Hrange H). fold k in H0.
    lia.
  - intros batches l s' l' H.
    pose proof (train_batches_processed _ _ _ _ Hm Hk Hrange H).
    fold k in H0. rewrite Z.sub_0_r in H0. lia.
  - intros idx batch rest l E. rewrite train_batches_cons.
    unfold truncation_test, floordiv, bind, ret. rewrite Hm. fold k.
    destruct (Z.eqb_spec k 0); [lia|]. rewrite E, Z.eqb_refl. reflexivity.
  - intros l s' o H. unfold train_epoch in H.
    apply bind_inv in H.
    destruct H as [(s1 & c & H1 & H) | (e & H1 & _)];
      apply getattr_inv in H1; destruct H1 as [-> _]; [|nia].
    apply bind_inv in H.
    destruct H as [(s2 & u & H2 & H) | (e & H2 & _)];
      apply emit_inv in H2; destruct H2 as [-> Ho]; [|discriminate].
    assert (Hstart :
      count_events is_backward (trace s ++ [EvSetEpoch curr_epoch])
      = count_events is_backward (trace s)).
    { rewrite count_events_app. unfold count_events at 2. simpl. lia. }
    apply bind_inv in H.
    destruct H as [(s3 & l3 & H3 & H) | (e & H3 & _)].
    + assert (B := H3).
      apply (@train_batches_bound curr_epoch m) in B;
        [|exact Hm|exact Hk|exact Hrange].
      simpl in B. fold k in B. rewrite Hstart in B.
      apply bind_inv in H.
      destruct H as [(s4 & r4 & H4 & H) | (e & H4 & _)];
        [|inversion H4].
      inversion H4; subst s4 r4; clear H4.
      apply bind_inv in H.
      destruct H as [(s5 & u5 & H5 & H) | (e & H5 & _)];
        [|inversion H5].
      inversion H5; subst s5 u5; clear H5.
      apply bind_inv in H.
      destruct H as [(s6 & u6 & H6 & H) | (e & H6 & _)].
      * apply adds_save_checkpoint in H6. simpl in H6.
        apply ret_inv in H. destruct H as [-> _]. lia.
      * apply adds_save_checkpoint in H6. simpl in H6. lia.
    + assert (B := H3).
      apply (@train_batches_bound curr_epoch m) in B;
        [|exact Hm|exact Hk|exact Hrange].
      simpl in B. fold k in B. rewrite Hstart in B. lia.
Qed.

(** *** Logging *)



Lemma nth_error_middle {A : Type} (a b : list A) (x : A) :
  nth_error (a ++ x :: b) (List.length a) = Some x.
Proof.
  rewrite nth_error_app2 by lia. rewrite Nat.sub_diag. reflexivity.
Qed.



(** *** setup, and train after setup *)

Lemma load_checkpoint_ok (on_disk : outcome ckpt_dict_t) (s s' : State)
    (b : ckpt_dict_t) :
  load_checkpoint on_disk s = (s', Ok b) ->
  on_disk = Ok b /\
  _resume_from_checkpoint (self s) = false /\
  s' = mkState
         (set_checkpointer (self s) (mkCheckpointer false on_disk))
         (heap s) (optimizer s) (trace s ++ [EvLoadCheckpoint]).
Proof.
  unfold load_checkpoint, bind, get_self, put_self, emit, lift, raise, ret.
  simpl. destruct on_disk as [d|e]; [|discriminate].
  destruct (_resume_from_checkpoint (self s)) eqn:Hr; [discriminate|].
  intro H. inversion H. repeat split.
Qed.

Lemma dict_item_inv (d : ckpt_dict_t) (key : ckpt_key) s s' o :
  dict_item d key s = (s', o) ->
  s' = s /\
  (forall v, o = Ok v -> dict_get d key = Some v) /\
  (forall e, o = Raise e ->
     dict_get d key = None /\ e = KeyError (ckpt_key_name key)).
Proof.
  unfold dict_item, ret, raise. destruct (dict_get d key); intro H;
    inversion H; subst; repeat split; try discriminate; intros; congruence.
Qed.

(** A setup that completes: the recipe was not resuming, the accumulation
    window is not zero, the checkpoint has model weights, the attributes of
    setup are assigned, and no other attribute changes but global_step,
    which is recomputed when the step limit truncates the epoch. *)
Lemma setup_ok (cfg : Config) (inst : Instantiated) (s s' : State) :
  setup cfg inst s = (s', Ok tt) ->
  let r := self s in
  let batches := dataloader_len (inst_batches inst) in
  let steps := planned_steps r batches in
  _resume_from_checkpoint r = false /\
  _gradient_accumulation_steps r <> 0 /\
  (exists bundle v,
     inst_checkpoint inst = Ok bundle /\ dict_get bundle MODEL_KEY = Some v) /\
  inst_validation inst = Ok tt /\
  heap s' = inst_tensors inst /\
  optimizer s' = mkOptState 0 /\
  trace s' = trace s ++ [EvLogConfig; EvLoadCheckpoint] /\
  self s' =
    set_components
      (set_global_step
         (set_checkpointer r (mkCheckpointer false (inst_checkpoint inst)))
         (match max_steps_per_epoch r with
          | Some m =>
              if m <? batches / _gradient_accumulation_steps r
              then epochs_run r * m else global_step r
          | None => global_step r
          end))
      {| _model_compile := cfg_compile cfg;
         _model := inst_model inst;
         _lora_rank := cfg_lora_rank (cfg_model cfg);
         _lora_alpha := cfg_lora_alpha (cfg_model cfg);
         _lora_attn_modules := cfg_lora_attn_modules (cfg_model cfg);
         _apply_lora_to_mlp := cfg_apply_lora_to_mlp (cfg_model cfg);
         _apply_lora_to_output :=
           cfg_get (cfg_apply_lora_to_output (cfg_model cfg)) false;
         adapter_params := inst_adapter_params inst;
         _is_dora := existsb is_magnitude (inst_adapter_params inst);
         _loss_ignore_index := inst_ignore_index inst;
         _chunked_logits := inst_chunked_loss inst;
         _dataloader := inst_batches inst;
         _steps_per_epoch := steps;
         ignore_labels_cache :=
           torch_full_column (cfg_batch_size cfg) (inst_ignore_index inst)
      |}.
Proof.
  intros H r batches steps. unfold setup in H.
  ok_step H s1 u1 H1. apply emit_inv in H1. destruct H1 as [-> _].
  ok_step H s2 bundle H2. apply load_checkpoint_ok in H2.
  destruct H2 as (Hdisk & Hres & ->). simpl in Hres. fold r in Hres.
  ok_step H s3 v H3. apply dict_item_inv in H3.
  destruct H3 as (-> & Hv & _). specialize (Hv v eq_refl).
  ok_step H s4 r4 H4. inversion H4; subst s4 r4; clear H4.
  simpl in H. fold r in H. rewrite Hres in H.
  ok_step H s5 u5 H5. apply ret_inv in H5. destruct H5 as [-> _].
  ok_step H s6 u6 H6. inversion H6; subst s6 u6; clear H6.
  ok_step H s7 u7 H7. unfold lift in H7. inversion H7; subst s7; clear H7.
  ok_step H s8 u8 H8. apply ret_inv in H8. destruct H8 as [-> _].
  ok_step H s9 u9 H9. inversion H9; subst s9 u9; clear H9.
  ok_step H s10 q H10. apply floordiv_inv in H10.
  destruct H10 as [-> [[_ Hq]|[Hk Hq]]]; [discriminate|].
  inversion Hq; subst q; clear Hq.
  fold batches in H.
  split; [exact Hres|]. split; [exact Hk|].
  split; [exists bundle, v; split; assumption|].
  split; [destruct u7; assumption|].
  unfold steps, planned_steps. fold r.
  destruct (max_steps_per_epoch r) as [m|] eqn:Hm.
  - destruct (m <? batches / _gradient_accumulation_steps r) eqn:Hlt.
    + ok_step H s11 u11 H11. inversion H11; subst s11 u11; clear H11.
      ok_step H s12 r12 H12. inversion H12; subst s12 r12; clear H12.
      inversion H; subst s'; clear H. simpl.
      rewrite <- app_assoc. repeat split.
    + ok_step H s11 u11 H11. apply ret_inv in H11. destruct H11 as [-> _].
      ok_step H s12 r12 H12. inversion H12; subst s12 r12; clear H12.
      inversion H; subst s'; clear H. simpl.
      rewrite <- app_assoc. repeat split.
  - ok_step H s11 u11 H11. apply ret_inv in H11. destruct H11 as [-> _].
    ok_step H s12 r12 H12. inversion H12; subst s12 r12; clear H12.
    inversion H; subst s'; clear H. simpl.
    rewrite <- app_assoc. repeat split.
Qed.

Lemma init_ok_fields (cfg : Config) (r : Recipe) :
  __init__ cfg = Ok r ->
  _profiler r = None /\
  profiler_profile_memory r = None /\
  profiler_wait_steps r = None /\
  profiler_warmup_steps r = None /\
  profiler_active_steps r = None /\
  components r = None /\
  _checkpointer r = None /\
  epochs_run r = 0 /\
  global_step r = 0 /\
  total_epochs r = cfg_epochs cfg /\
  max_steps_per_epoch r = cfg_max_steps_per_epoch cfg /\
  _gradient_accumulation_steps r = cfg_gradient_accumulation_steps cfg /\
  _log_every_n_steps r = cfg_get (cfg_log_every_n_steps cfg) 1 /\
  _resume_from_checkpoint r = cfg_resume_from_checkpoint cfg /\
  _dtype r <> float16.
Proof.
  unfold __init__.
  destruct (get_device (cfg_device cfg)) as [dev|]; [|discriminate].
  destruct (get_dtype (cfg_dtype cfg) dev) as [dt|]; [|discriminate].
  destruct (dtype_eqb dt float16) eqn:E16; [discriminate|].
  destruct (dtype_eqb dt bfloat16 && negb (device_eqb dev (torch_device "cpu"))
            && negb is_bf16_supported); [discriminate|].
  destruct (set_seed (cfg_seed cfg)) as [sd|]; [|discriminate].
  intro H. inversion H; subst r; clear H. simpl.
  repeat split. intro Hd. subst dt. discriminate.
Qed.


(** A state dict whose references all point into the store is valid. *)
Lemma sd_valid_of_forall (h : Heap) (sd : state_dict_t) :
  Forall (fun kv => (snd kv < List.length h)%nat) sd -> sd_valid h sd.
Proof.
  intros H k v. induction H as [|[k' v'] rest Hkv _ IH]; simpl.
  - discriminate.
  - destruct (pname_eqb k' k); [|exact IH].
    intro E. inversion E; subst v. exact Hkv.
Qed.


(** *** _loss_step, run forward *)

Lemma length_concat_rows {A : Type} (rows : list (list A)) (n : nat) :
  Forall (fun row => List.length row = n) rows ->
  List.length (List.concat rows) = (List.length rows * n)%nat.
Proof.
  induction 1 as [|row rows Hrow _ IH]; simpl.
  - reflexivity.
  - rewrite length_app, Hrow, IH. reflexivity.
Qed.

(** _loss_step on a batch that fits the label cache. *)
Lemma loss_step_run (batch : Batch) (s : State) (c : Components)
    (batch_size : nat) (ignore_index : Z) :
  components (self s) = Some c ->
  ignore_labels_cache c = torch_full_column batch_size ignore_index ->
  (List.length (labels batch) <= batch_size)%nat ->
  let shifted := map (fun row => tl row ++ [ignore_index]) (labels batch) in
  _loss_step batch s =
    (mkState (self s) (heap s) (optimizer s)
       (trace s ++
        [EvModelForward (tokens batch);
         EvLossFn (if _chunked_logits c then PerRow shifted
                   else Flat (List.concat shifted))]),
     Ok (response (S (List.length (trace s))))).
Proof.
  intros Hc Hcache Hlen shifted.
  unfold _loss_step.
  erewrite bind_run by (apply getattr_run; exact Hc).
  erewrite bind_run by reflexivity.
  rewrite Hcache, (shift_labels_closed_form _ _ Hlen).
  erewrite bind_run by reflexivity.
  erewrite bind_run by reflexivity.
  unfold ret. simpl. rewrite <- app_assoc, length_app. simpl.
  rewrite Nat.add_1_r. reflexivity.
Qed.

(** X1.  _loss_step on a batch that fits the label cache: the model is
    called on the tokens, then the loss function on the shifted labels
    (every row without its first label and with the ignore index appended),
    flattened row by row unless the model returns a list of chunks; the
    result is what the loss function returns, and nothing else changes.
    The flattened labels of [b] rows of [len >= 1] labels are [b * len]
    labels. *)
Theorem loss_step_shifted_labels (batch : Batch) (s : State)
    (c : Components) (batch_size : nat) (ignore_index : Z) :
  components (self s) = Some c ->
  ignore_labels_cache c = torch_full_column batch_size ignore_index ->
  (List.length (labels batch) <= batch_size)%nat ->
  let shifted := map (fun row => tl row ++ [ignore_index]) (labels batch) in
  _loss_step batch s =
    (mkState (self s) (heap s) (optimizer s)
       (trace s ++
        [EvModelForward (tokens batch);
         EvLossFn (if _chunked_logits c then PerRow shifted
                   else Flat (List.concat shifted))]),
     Ok (response (S (List.length (trace s))))) /\
  (forall len,
     Forall (fun row => List.length row = S len) (labels batch) ->
     List.length (List.concat shifted)
     = (List.length (labels batch) * S len)%nat).
Proof.
  intros Hc Hcache Hlen shifted. split.
  - exact (@loss_step_run batch s c batch_size ignore_index Hc Hcache Hlen).
  - intros len Hrows. unfold shifted.
    rewrite (@length_concat_rows _ _ (S len)).
    + rewrite length_map. reflexivity.
    + apply Forall_map. eapply Forall_impl; [|exact Hrows].
      intros row Hrow. simpl. rewrite length_app. simpl.
      destruct row; simpl in *; lia.
Qed.

(** X2.  _loss_step on a batch with more rows than the label cache has:
    the model has been called, torch.hstack raises, and the loss function is
    never called. *)
Theorem loss_step_oversized_batch (batch : Batch) (s : State)
    (c : Components) (batch_size : nat) (ignore_index : Z) :
  components (self s) = Some c ->
  ignore_labels_cache c = torch_full_column batch_size ignore_index ->
  (batch_size < List.length (labels batch))%nat ->
  exists msg,
    _loss_step batch s =
      (mkState (self s) (heap s) (optimizer s)
         (trace s ++ [EvModelForward (tokens batch)]),
       Raise (RuntimeError msg)).
Proof.
  intros Hc Hcache Hlen.
  unfold _loss_step.
  erewrite bind_run by (apply getattr_run; exact Hc).
  erewrite bind_run by reflexivity.
  rewrite Hcache.
  unfold shift_labels, hstack, torch_full_column.
  rewrite length_map, length_firstn, repeat_length.
  destruct (Nat.eqb_spec (List.length (labels batch))
              (Nat.min (List.length (labels batch)) batch_size)) as [E|E].
  - lia.
  - eexists. reflexivity.
Qed.

(** *** setup *)

Lemma setup_prefix (cfg : Config) (inst : Instantiated) (s : State)
    (bundle : ckpt_dict_t) :
  _resume_from_checkpoint (self s) = false ->
  inst_checkpoint inst = Ok bundle ->
  (emit EvLogConfig ;; load_checkpoint (inst_checkpoint inst)) s =
    (mkState (set_checkpointer (self s) (mkCheckpointer false (Ok bundle)))
       (heap s) (optimizer s) (trace s ++ [EvLogConfig; EvLoadCheckpoint]),
     Ok bundle).
Proof.
  intros Hres Hck. rewrite Hck.
  unfold load_checkpoint, bind, emit, get_self, put_self, lift, ret, raise.
  simpl. rewrite Hres. rewrite <- app_assoc. reflexivity.
Qed.


(** X4.  setup on a checkpoint without model weights: the metric logger has
    logged the configuration and the checkpointer has been built and has
    loaded, then the lookup of MODEL_KEY raises KeyError; no model has been
    built. *)
Theorem setup_missing_model_weights (cfg : Config) (inst : Instantiated)
    (s : State) (bundle : ckpt_dict_t) :
  _resume_from_checkpoint (self s) = false ->
  inst_checkpoint inst = Ok bundle ->
  dict_get bundle MODEL_KEY = None ->
  exists s',
    setup cfg inst s = (s', Raise (KeyError (ckpt_key_name MODEL_KEY))) /\
    _checkpointer (self s') = Some (mkCheckpointer false (Ok bundle)) /\
    heap s' = heap s /\
    trace s' = trace s ++ [EvLogConfig; EvLoadCheckpoint].
Proof.
  intros Hres Hck Hkey. eexists. split.
  - unfold setup.
    rewrite <- bind_assoc.
    erewrite bind_run by (apply setup_prefix; eassumption).
    erewrite bind_raise; [reflexivity|].
    unfold dict_item. rewrite Hkey. reflexivity.
  - simpl. repeat split.
Qed.


(** *** train and save_checkpoint on a recipe that is not set up *)

(** X6.  train on a recipe that has only been constructed: the first
    statement reads _model_compile, which __init__ does not assign, so train
    raises AttributeError without calling any collaborator, not even the
    clock. *)
Theorem train_before_setup (cfg : Config) (r : Recipe) :
  __init__ cfg = Ok r ->
  train (initial_state r)
  = (initial_state r, Raise (AttributeError "_model_compile")).
Proof.
  intro Hinit. apply init_ok_fields in Hinit.
  destruct Hinit as (_ & _ & _ & _ & _ & Hc & _).
  unfold train. erewrite bind_raise; [reflexivity|].
  unfold getattr. simpl. rewrite Hc. reflexivity.
Qed.




(** *** The adapter entries of a bundle *)

Lemma sd_get_filter (p : pname -> bool) (sd : state_dict_t) (k : pname) :
  sd_get (filter (fun kv => p (fst kv)) sd) k
  = if p k then sd_get sd k else None.
Proof.
  induction sd as [|[k' v] rest IH]; simpl.
  - destruct (p k); reflexivity.
  - destruct (pname_eqb k' k) eqn:E.
    + apply pname_eqb_eq in E. subst k'.
      destruct (p k) eqn:Hp; simpl.
      * rewrite pname_eqb_refl. reflexivity.
      * rewrite IH. rewrite ?Hp. reflexivity.
    + destruct (p k'); simpl; [rewrite E|]; exact IH.
Qed.

(** X9.  The adapter entries of the bundle that save_checkpoint hands to
    the checkpointer.  Under ADAPTER_KEY there is a state dict that holds,
    for every parameter name of adapter_params, the very tensor that the
    live model holds under that name (a reference to it, not a host copy),
    and nothing under any other name; under ADAPTER_CONFIG there are the
    configured rank and alpha, the module names that get_lora_module_names
    returns for the configured modules, and the peft type LORA. *)
Theorem save_checkpoint_adapter_entries (epoch : Z) (s : State)
    (c : Components) (ck : Checkpointer) :
  components (self s) = Some c ->
  _checkpointer (self s) = Some ck ->
  exists s' d adapter,
    save_checkpoint epoch s = (s', Ok tt) /\
    last_saved_bundle (trace s') = Some d /\
    bundle_state_dict d ADAPTER_KEY = Some adapter /\
    (forall k,
       sd_get adapter k
       = if existsb (pname_eqb k) (adapter_params c)
         then sd_get (_model c) k else None) /\
    dict_get d ADAPTER_CONFIG
    = Some (VAdapterConfig
              {| ac_r := _lora_rank c;
                 ac_lora_alpha := _lora_alpha c;
                 ac_target_modules :=
                   get_lora_module_names (_lora_attn_modules c)
                     (_apply_lora_to_mlp c) (_apply_lora_to_output c);
                 ac_peft_type := "LORA" |}).
Proof.
  intros Hc Hck.
  destruct (save_checkpoint_run epoch s Hc Hck)
    as (e1 & e2 & sd1 & merged & Hrun & _).
  eexists _, _, _. split; [exact Hrun|].
  split; [apply last_saved_bundle_snoc|].
  split; [apply checkpoint_bundle_adapter|].
  split.
  - intro k.
    rewrite (sd_get_filter (fun k => existsb (pname_eqb k) (adapter_params c))).
    reflexivity.
  - unfold checkpoint_bundle.
    destruct (epoch + 1 <? total_epochs (self s)); reflexivity.
Qed.

(** *** Epochs *)



(** Without a step limit the loop never breaks: a loop that completes has
    back-propagated every batch. *)
Lemma train_batches_unlimited (curr_epoch : Z) (batches : list Batch) :
  forall (idx : Z) (l l' : Locals) (s s' : State),
  max_steps_per_epoch (self s) = None ->
  train_batches curr_epoch idx batches l s = (s', Ok l') ->
  count_events is_backward (trace s')
  = (count_events is_backward (trace s) + List.length batches)%nat.
Proof.
  induction batches as [|batch rest IH]; intros idx l l' s s' Hm H.
  - apply ret_inv in H. destruct H as [-> _]. simpl. lia.
  - rewrite train_batches_cons in H. apply bind_ok in H.
    destruct H as (s1 & stop & H1 & H).
    unfold truncation_test in H1. rewrite Hm in H1.
    apply ret_inv in H1. destruct H1 as [-> Hstop].
    inversion Hstop; subst stop; clear Hstop.
    apply bind_ok in H. destruct H as (s2 & l2 & H2 & H).
    apply train_batch_summary in H2.
    destruct H2 as (_ & Hself & _ & _ & _ & Hb & _).
    specialize (IH (idx + 1) l2 l' s2 s').
    rewrite Hself in IH. simpl in IH.
    specialize (IH Hm H). simpl List.length. lia.
Qed.

(** X10.  The loop over the batches of an epoch when no step limit is
    configured, with an accumulation window [k > 0]: a loop that completes
    has back-propagated every one of the [n] batches, and has taken
    [n // k] optimizer and scheduler steps, global_step growing by as much.
    The [n % k] micro-batches after the last full window are
    back-propagated without an optimizer step. *)
Theorem train_batches_without_limit (curr_epoch : Z) (batches : list Batch)
    (l l' : Locals) (s s' : State) :
  max_steps_per_epoch (self s) = None ->
  0 < _gradient_accumulation_steps (self s) ->
  train_batches curr_epoch 0 batches l s = (s', Ok l') ->
  let k := _gradient_accumulation_steps (self s) in
  let n := Z.of_nat (List.length batches) in
  let grown (p : event -> bool) :=
    Z.of_nat (count_events p (trace s'))
    - Z.of_nat (count_events p (trace s)) in
  grown is_backward = n /\
  grown is_optimizer_step = n / k /\
  grown is_scheduler_step = n / k /\
  global_step (self s') = global_step (self s) + n / k /\
  grown is_backward - k * grown is_optimizer_step = n mod k.
Proof.
  intros Hm Hk H k n grown.
  pose proof (@train_batches_unlimited _ _ _ _ _ _ _ Hm H) as Hall.
  apply train_batches_steps in H; [|exact Hk]. cbv zeta in H.
  destruct H as (p & _ & Hp & _ & Hself & Hopt & _ & Hsched).
  assert (p = List.length batches) by lia. subst p.
  fold k n in Hself, Hopt, Hsched.
  rewrite Z.add_0_l, Zdiv_0_l, Z.sub_0_r in Hself, Hopt, Hsched.
  assert (G1 : grown is_backward = n) by (unfold grown, n; lia).
  assert (G2 : grown is_optimizer_step = n / k) by (unfold grown; lia).
  split; [exact G1|]. split; [exact G2|].
  split; [unfold grown; lia|].
  split; [rewrite Hself; reflexivity|].
  rewrite G1, G2. rewrite Z.mod_eq by (unfold k; lia). reflexivity.
Qed.






(** *** The loop over the epochs *)







(** *** recipe_main *)

(** train on a recipe that is set up but has no profiler. *)
Lemma train_without_profiler (s : State) (c : Components) :
  components (self s) = Some c ->
  _profiler (self s) = None ->
  train s
  = (mkState (self s) (heap s) (optimizer s) (trace s ++ [EvPerfCounter]),
     Raise (AttributeError "_profiler")).
Proof.
  intros Hc Hp. unfold train.
  erewrite bind_run by (apply getattr_run; exact Hc).
  erewrite bind_run by reflexivity. cbv beta.
  unfold with_profiler.
  erewrite bind_raise; [reflexivity|].
  unfold getattr. simpl. rewrite Hp. reflexivity.
Qed.

Ltac setup_adds :=
  unfold setup, load_checkpoint, dict_item; adds_auto.

Lemma setup_closes_nothing (cfg : Config) (inst : Instantiated) :
  adds is_metric_logger_close (setup cfg inst) 0.
Proof. setup_adds. Qed.

Lemma setup_trains_nothing (cfg : Config) (inst : Instantiated) :
  adds is_backward (setup cfg inst) 0.
Proof. setup_adds. Qed.

Lemma setup_saves_nothing (cfg : Config) (inst : Instantiated) :
  adds is_save_checkpoint (setup cfg inst) 0.
Proof. setup_adds. Qed.

(** X13.  recipe_main never completes, whatever the configuration and
    whatever the collaborators do: construction raises, or setup raises, or
    setup completes and train raises AttributeError for the profiler that
    setup does not assign.  In every case no micro-batch has been
    back-propagated, no checkpoint has been saved, and cleanup has not run:
    the metric logger is never closed. *)
Theorem recipe_main_never_completes (cfg : Config) (inst : Instantiated) :
  (exists e, snd (recipe_main cfg inst) = Raise e) /\
  (forall r s,
     __init__ cfg = Ok r ->
     setup cfg inst (initial_state r) = (s, Ok tt) ->
     snd (recipe_main cfg inst) = Raise (AttributeError "_profiler")) /\
  (forall s,
     fst (recipe_main cfg inst) = Some s ->
     count_events is_backward (trace s) = O /\
     count_events is_save_checkpoint (trace s) = O /\
     count_events is_metric_logger_close (trace s) = O).
Proof.
  unfold recipe_main.
  destruct (__init__ cfg) as [r|e] eqn:Hinit.
  - pose proof (init_ok_fields _ Hinit) as Hf.
    destruct Hf as (Hprof & _).
    destruct (setup cfg inst (initial_state r)) as [s1 [[]|e]] eqn:Hsetup.
    + pose proof (setup_ok _ _ _ Hsetup) as Hok. cbv zeta in Hok.
      destruct Hok as (_ & _ & _ & _ & _ & _ & Htr & Hself).
      simpl in Htr, Hself.
      assert (Hrun :
        (setup cfg inst ;; train ;; cleanup) (initial_state r)
        = (mkState (self s1) (heap s1) (optimizer s1)
             (trace s1 ++ [EvPerfCounter]),
           Raise (AttributeError "_profiler"))).
      { erewrite bind_run by exact Hsetup.
        erewrite bind_raise; [reflexivity|].
        eapply train_without_profiler.
        - rewrite Hself. reflexivity.
        - rewrite Hself. exact Hprof. }
      rewrite Hrun. simpl.
      split; [eexists; reflexivity|].
      split.
      * intros r0 s0 E1 E2. reflexivity.
      * intros s E. inversion E; subst s; clear E. simpl.
        rewrite Htr. repeat split.
    + assert (Hrun :
        (setup cfg inst ;; train ;; cleanup) (initial_state r)
        = (s1, Raise e)).
      { erewrite bind_raise; [reflexivity|exact Hsetup]. }
      rewrite Hrun. simpl.
      split; [eexists; reflexivity|].
      split.
      * intros r0 s0 E1 E2. inversion E1; subst.
        rewrite Hsetup in E2. discriminate.
      * intros s E. inversion E; subst s; clear E.
        pose proof (@setup_trains_nothing _ _ _ _ _ Hsetup) as A.
        pose proof (@setup_saves_nothing _ _ _ _ _ Hsetup) as B.
        pose proof (@setup_closes_nothing _ _ _ _ _ Hsetup) as C.
        simpl in A, B, C. repeat split; lia.
  - simpl. split; [eexists; reflexivity|].
    split.
    + intros r s E. discriminate.
    + intros s E. discriminate.
Qed.

(** *** One micro-batch, in detail *)

Lemma memory_window_test_ok (curr_epoch idx : Z) (closing : bool)
    (s s' : State) (b : bool) :
  memory_window_test curr_epoch idx closing s = (s', Ok b) ->
  b = memory_window_edge (self s) curr_epoch idx closing.
Proof.
  unfold memory_window_test, memory_window_edge, bind, getattr, ret.
  destruct (curr_epoch =? 0); simpl; [|intro H; inversion H; reflexivity].
  destruct (profiler_profile_memory (self s)) as [[]|];
    simpl; try (intro H; inversion H; reflexivity);
    destruct (profiler_wait_steps (self s)) as [w|];
    simpl; try (intro H; inversion H; reflexivity);
    destruct (profiler_warmup_steps (self s)) as [u|];
    simpl; try (intro H; inversion H; reflexivity);
    destruct closing; simpl; try (intro H; inversion H; reflexivity);
    destruct (profiler_active_steps (self s)) as [a|];
    simpl; intro H; inversion H; reflexivity.
Qed.

Lemma memory_window_edge_global_step (r : Recipe) (g curr_epoch idx : Z)
    (closing : bool) :
  memory_window_edge (set_global_step r g) curr_epoch idx closing
  = memory_window_edge r curr_epoch idx closing.
Proof. reflexivity. Qed.

(** The grad_norm local after a window boundary, and the record that is
    logged there when one is due. *)
Lemma optimizer_boundary_record (rl : Q) (nt : Z) (l l' : Locals)
    (s s' : State) :
  optimizer_boundary rl nt l s = (s', Ok l') ->
  let r := self s in
  let gs' := global_step r + 1 in
  let clipped :=
    match _clip_grad_norm r with
    | Some _ => Some (response (List.length (trace s)))
    | None => grad_norm l
    end in
  let stepped :=
    trace s ++ clip_events r
    ++ [EvOptimizerStep; EvZeroGrad; EvSchedulerStep] in
  exists g, self s' = set_global_step r g /\
  grad_norm l' = clipped /\
  (gs' mod _log_every_n_steps r = 0 ->
   trace s' =
     stepped ++ [EvPerfCounter; EvGetLr] ++ memory_events r
     ++ [EvLogDict
           {| log_loss := rl;
              log_lr := response (S (List.length stepped));
              log_tokens_per_second_per_gpu :=
                (inject_Z nt / (response (List.length stepped) - t0 l))%Q;
              log_memory_stats :=
                String.eqb (device_type (_device r)) "cuda"
                && _log_peak_memory_stats r;
              log_grad_norm :=
                match _clip_grad_norm r with
                | Some _ => clipped
                | None => None
                end |} gs';
         EvPerfCounter]) /\
  (gs' mod _log_every_n_steps r <> 0 ->
   trace s' = stepped ++ [EvPerfCounter]).
Proof.
  intros H r gs' clipped stepped.
  unfold optimizer_boundary, optimizer_step in H.
  assert (Hclip :
    (match _clip_grad_norm (self s) with
     | Some max_norm => g <- call (EvClipGradNorm max_norm) ;; ret (Some g)
     | None => ret (grad_norm l)
     end) s
    = (mkState (self s) (heap s) (optimizer s)
               (trace s ++ clip_events (self s)), Ok clipped)).
  { unfold clip_events, clipped, r. destruct (_clip_grad_norm (self s)).
    - reflexivity.
    - rewrite app_nil_r, state_eta. reflexivity. }
  erewrite bind_run in H by reflexivity. cbv beta in H.
  erewrite bind_run in H by exact Hclip. cbv beta in H.
  do 6 (erewrite bind_run in H by reflexivity; cbv beta in H).
  simpl in H. fold r in H. fold gs' in H.
  unfold pymod in H.
  destruct (Z.eqb_spec (_log_every_n_steps r) 0) as [HN|HN].
  { erewrite bind_raise in H by reflexivity. discriminate. }
  erewrite bind_run in H by reflexivity. cbv beta in H.
  assert (Hst : (((trace s ++ clip_events r) ++ [EvOptimizerStep])
                 ++ [EvZeroGrad]) ++ [EvSchedulerStep] = stepped).
  { unfold stepped. rewrite <- !app_assoc. reflexivity. }
  rewrite Hst in H.
  destruct (Z.eqb_spec (gs' mod _log_every_n_steps r) 0) as [Hdue|Hdue].
  - do 2 (rewrite ?bind_assoc in H;
          erewrite bind_run in H by reflexivity; cbv beta in H).
    simpl in H. rewrite ?bind_assoc in H. unfold truediv in H.
    match type of H with
    | context [Qeq_bool ?e 0] => destruct (Qeq_bool e 0) eqn:Hz
    end.
    { erewrite bind_raise in H by reflexivity. discriminate. }
    erewrite bind_run in H by reflexivity. cbv beta in H.
    rewrite ?bind_assoc in H.
    unfold memory_events.
    destruct (String.eqb (device_type (_device r)) "cuda"
              && _log_peak_memory_stats r).
    + do 4 (rewrite ?bind_assoc in H;
            erewrite bind_run in H by reflexivity; cbv beta in H).
      unfold ret in H. inversion H; subst s' l'; clear H. simpl.
      eexists. split; [reflexivity|]. split; [reflexivity|].
      split; [|intro; contradiction]. intros _.
      rewrite <- !app_assoc. simpl.
      rewrite !length_app. simpl. rewrite Nat.add_1_r. reflexivity.
    + do 3 (rewrite ?bind_assoc in H;
            erewrite bind_run in H by reflexivity; cbv beta in H).
      unfold ret in H. inversion H; subst s' l'; clear H. simpl.
      eexists. split; [reflexivity|]. split; [reflexivity|].
      split; [|intro; contradiction]. intros _.
      rewrite <- !app_assoc. simpl.
      rewrite !length_app. simpl. rewrite Nat.add_1_r. reflexivity.
  - do 2 (erewrite bind_run in H by reflexivity; cbv beta in H).
    unfold ret in H. inversion H; subst s' l'; clear H. simpl.
    eexists. split; [reflexivity|]. split; [reflexivity|].
    split; [intro; contradiction|]. intros _. reflexivity.
Qed.

(** A micro-batch that completes, with the memory window and the loss
    spelled out. *)
Lemma train_batch_detail (curr_epoch idx : Z) (batch : Batch)
    (l l' : Locals) (s s' : State) :
  train_batch curr_epoch idx batch l s = (s', Ok l') ->
  let r := self s in
  let k := _gradient_accumulation_steps r in
  let opening := memory_window_edge r curr_epoch idx false in
  let closing := memory_window_edge r curr_epoch idx true in
  let loss_at := (List.length (trace s) + (if opening then 2 else 1))%nat in
  exists lbls,
    let entered :=
      mkState r (heap s) (optimizer s)
        (trace s ++ batch_prefix opening (tokens batch) lbls
         ++ [EvBackward]) in
    nth_error (trace entered) loss_at = Some (EvLossFn lbls) /\
    if (idx + 1) mod k =? 0 then
      exists s2,
        optimizer_boundary
          (running_loss l + response loss_at / inject_Z k)%Q
          (num_tokens l + numel (tokens batch)) l entered = (s2, Ok l') /\
        trace s' = trace s2 ++ batch_suffix closing
    else
      trace s' = trace entered ++ batch_suffix closing.
Proof.
  intros H r k opening closing loss_at. unfold train_batch in H.
  ok_step H s1 o1 H1.
  pose proof (memory_window_test_ok _ _ _ _ H1) as Ho1. fold r opening in Ho1.
  apply memory_window_test_inv in H1. subst s1 o1.
  ok_step H s2 u2 H2. apply maybe_emit_inv in H2. destruct H2 as [-> _].
  ok_step H s3 loss H3. apply loss_step_inv in H3.
  destruct H3 as (evs & -> & _ & Hdet).
  destruct (Hdet loss eq_refl) as (c & shifted & _ & _ & -> & Hloss).
  simpl in H, Hloss.
  ok_step H s4 r4 H4. inversion H4; subst s4 r4; clear H4. simpl in H.
  fold r in H. fold k in H.
  ok_step H s5 u5 H5. apply emit_inv in H5. destruct H5 as [-> _].
  simpl in H.
  ok_step H s6 boundary H6. apply pymod_inv in H6.
  destruct H6 as [-> [[_ Hb]|[Hk Hb]]]; [discriminate|].
  inversion Hb; subst boundary; clear Hb.
  ok_step H s7 l7 H7.
  ok_step H s8 c8 H8.
  pose proof (memory_window_test_ok _ _ _ _ H8) as Hc8.
  apply memory_window_test_inv in H8. subst s8.
  ok_step H s9 u9 H9. apply maybe_emit_inv in H9. destruct H9 as [-> _].
  ok_step H s10 u10 H10. apply emit_inv in H10. destruct H10 as [-> _].
  apply ret_inv in H. destruct H as [-> Hl]. inversion Hl; subst l7; clear Hl.
  assert (Hpos : loss = response loss_at).
  { rewrite Hloss. unfold loss_at. rewrite length_app.
    destruct opening; simpl; f_equal; lia. }
  assert (Htrace :
    ((trace s ++ (if opening then [EvRecordMemoryHistory true] else []))
     ++ [EvModelForward (tokens batch);
         EvLossFn (if _chunked_logits c then PerRow shifted
                   else Flat (List.concat shifted))]) ++ [EvBackward]
    = trace s ++ batch_prefix opening (tokens batch)
                   (if _chunked_logits c then PerRow shifted
                    else Flat (List.concat shifted)) ++ [EvBackward]).
  { unfold batch_prefix. rewrite <- !app_assoc. reflexivity. }
  rewrite Htrace in H7. rewrite Hpos in H7.
  exists (if _chunked_logits c then PerRow shifted
          else Flat (List.concat shifted)).
  cbv zeta. split.
  - simpl. unfold loss_at, batch_prefix.
    rewrite nth_error_app2 by lia.
    replace (List.length (trace s) + (if opening then 2 else 1)
             - List.length (trace s))%nat
      with (if opening then 2%nat else 1%nat) by lia.
    destruct opening; reflexivity.
  - destruct ((idx + 1) mod k =? 0).
    + exists s7. split; [exact H7|]. simpl.
      assert (Hself7 : exists g, self s7 = set_global_step r g).
      { apply optimizer_boundary_record in H7. cbv zeta in H7.
        destruct H7 as (g & Hg & _). exists g. exact Hg. }
      destruct Hself7 as (g & Hg). rewrite Hg in Hc8.
      rewrite memory_window_edge_global_step in Hc8. fold closing in Hc8.
      subst c8. unfold batch_suffix. rewrite <- app_assoc. reflexivity.
    + apply ret_inv in H7. destruct H7 as [-> _]. simpl.
      simpl in Hc8. fold r closing in Hc8. subst c8.
      unfold batch_suffix. rewrite <- !app_assoc. reflexivity.
Qed.

Lemma count_memory_history_boundary (enabled : bool) (r : Recipe)
    (rec : log_record) (step : Z) :
  count_events (is_memory_history enabled)
    (clip_events r ++ [EvOptimizerStep; EvZeroGrad; EvSchedulerStep]) = O /\
  count_events (is_memory_history enabled)
    ([EvPerfCounter; EvGetLr] ++ memory_events r
     ++ [EvLogDict rec step; EvPerfCounter]) = O.
Proof.
  unfold clip_events, memory_events.
  destruct (_clip_grad_norm r),
    (String.eqb (device_type (_device r)) "cuda" && _log_peak_memory_stats r);
    split; reflexivity.
Qed.

(** X14.  The window in which CUDA memory history is recorded, for a
    micro-batch that completes.  Recording is switched on once, before the
    model is called, exactly when the epoch is 0, profiler_profile_memory
    is true and idx = wait_steps + warmup_steps; it is switched off once,
    after the optimizer step and just before the profiler is stepped,
    exactly when the epoch is 0, profiler_profile_memory is true and
    idx = wait_steps + warmup_steps + active_steps.  In any other epoch
    neither happens. *)
Theorem train_batch_memory_window (curr_epoch idx : Z) (batch : Batch)
    (l l' : Locals) (s s' : State) :
  train_batch curr_epoch idx batch l s = (s', Ok l') ->
  let r := self s in
  let on := memory_window_edge r curr_epoch idx false in
  let off := memory_window_edge r curr_epoch idx true in
  count_events (is_memory_history true) (trace s')
    = (count_events (is_memory_history true) (trace s)
       + (if on then 1 else 0))%nat /\
  count_events (is_memory_history false) (trace s')
    = (count_events (is_memory_history false) (trace s)
       + (if off then 1 else 0))%nat /\
  (on = true ->
   nth_error (trace s') (List.length (trace s))
   = Some (EvRecordMemoryHistory true)) /\
  (off = true ->
   exists before,
     trace s' = before ++ [EvRecordMemoryHistory false; EvProfilerStep]) /\
  (curr_epoch <> 0 -> on = false /\ off = false) /\
  (forall wait_steps warmup_steps active_steps,
     curr_epoch = 0 ->
     profiler_profile_memory r = Some true ->
     profiler_wait_steps r = Some wait_steps ->
     profiler_warmup_steps r = Some warmup_steps ->
     profiler_active_steps r = Some active_steps ->
     on = (idx =? wait_steps + warmup_steps) /\
     off = (idx =? wait_steps + warmup_steps + active_steps)).
Proof.
  intros H r on off.
  apply train_batch_detail in H. cbv zeta in H. fold r on off in H.
  destruct H as (lbls & _ & H).
  assert (Htrace : exists middle,
            trace s' = trace s ++ batch_prefix on (tokens batch) lbls
                       ++ [EvBackward] ++ middle ++ batch_suffix off /\
            forall b, count_events (is_memory_history b) middle = O).
  { destruct ((idx + 1) mod _gradient_accumulation_steps r =? 0).
    - destruct H as (s2 & Hob & Htr).
      apply optimizer_boundary_record in Hob. cbv zeta in Hob.
      simpl in Hob. destruct Hob as (g & _ & _ & Hdue & Hnot).
      destruct (Z.eq_dec
                  ((global_step r + 1) mod _log_every_n_steps r) 0) as [E|E].
      + pose proof (Hdue E) as Hd.
        match type of Hd with
        | _ = (_ ++ ?c ++ ?st) ++ ?m => exists (c ++ st ++ m)
        end.
        split.
        * rewrite Htr, Hd. rewrite <- !app_assoc. reflexivity.
        * intro b. rewrite app_assoc, count_events_app.
          match type of Hd with
          | context [EvLogDict ?rec ?step] =>
              destruct (count_memory_history_boundary b r rec step) as [A B]
          end.
          rewrite A. exact B.
      + exists (clip_events r
                ++ [EvOptimizerStep; EvZeroGrad; EvSchedulerStep]
                ++ [EvPerfCounter]).
        split.
        * rewrite Htr, (Hnot E). rewrite <- !app_assoc. reflexivity.
        * intro b. unfold clip_events.
          destruct (_clip_grad_norm r); reflexivity.
    - exists []. split; [|reflexivity].
      rewrite H. simpl. rewrite <- !app_assoc. reflexivity. }
  destruct Htrace as (middle & Htr & Hmid).
  split; [|split; [|split; [|split; [|split]]]].
  - rewrite Htr, !count_events_app, Hmid.
    unfold batch_prefix, batch_suffix, count_events.
    destruct on, off; simpl; lia.
  - rewrite Htr, !count_events_app, Hmid.
    unfold batch_prefix, batch_suffix, count_events.
    destruct on, off; simpl; lia.
  - intro Hon. rewrite Htr, Hon. unfold batch_prefix. simpl.
    apply nth_error_middle.
  - intro Hoff. rewrite Htr, Hoff. unfold batch_suffix.
    exists (trace s ++ batch_prefix on (tokens batch) lbls
            ++ [EvBackward] ++ middle).
    rewrite <- !app_assoc. reflexivity.
  - intro Hne. unfold on, off, memory_window_edge.
    destruct (Z.eqb_spec curr_epoch 0); [contradiction|].
    split; reflexivity.
  - intros w u a -> Hpm Hw Hu Ha. unfold on, off, memory_window_edge.
    rewrite Hpm, Hw, Hu, Ha. split; reflexivity.
Qed.



(** *** The steps of an epoch *)

(** X16.  The loop over the batches of an epoch takes the number of
    optimizer steps that setup computes for _steps_per_epoch: with an
    accumulation window [k > 0] and a step limit that is absent or not
    negative, a loop over [n] batches that completes has taken
    [n // k] steps, capped by the limit, and global_step has grown by as
    much. *)
Theorem train_batches_takes_planned_steps (curr_epoch : Z)
    (batches : list Batch) (l l' : Locals) (s s' : State) :
  0 < _gradient_accumulation_steps (self s) ->
  (forall m, max_steps_per_epoch (self s) = Some m -> 0 <= m) ->
  train_batches curr_epoch 0 batches l s = (s', Ok l') ->
  let steps := planned_steps (self s) (Z.of_nat (List.length batches)) in
  Z.of_nat (count_events is_optimizer_step (trace s'))
    = Z.of_nat (count_events is_optimizer_step (trace s)) + steps /\
  Z.of_nat (count_events is_scheduler_step (trace s'))
    = Z.of_nat (count_events is_scheduler_step (trace s)) + steps /\
  global_step (self s') = global_step (self s) + steps.
Proof.
  intros Hk Hm H steps.
  set (k := _gradient_accumulation_steps (self s)) in *.
  set (n := Z.of_nat (List.length batches)) in *.
  pose proof (@train_batches_steps _ _ _ _ _ _ _ H) as Hsteps.
  cbv zeta in Hsteps. specialize (Hsteps Hk). fold k in Hsteps.
  destruct Hsteps as (p & _ & Hp & _ & Hself & Hopt & _ & Hsched).
  rewrite Z.add_0_l, Zdiv_0_l, Z.sub_0_r in Hself, Hopt, Hsched.
  assert (Hw : Z.of_nat p / k = steps).
  { unfold steps, planned_steps. fold k n.
    destruct (max_steps_per_epoch (self s)) as [m|] eqn:E.
    - pose proof (Hm m eq_refl) as Hm0.
      assert (Hrange : 0 <= 0 <= m * k) by nia.
      pose proof (@train_batches_processed curr_epoch m batches 0 l l' s s'
                    E Hk Hrange H) as Hproc.
      fold k n in Hproc. rewrite Z.sub_0_r in Hproc.
      assert (Hpz : Z.of_nat p = Z.min n (m * k)) by lia.
      rewrite Hpz.
      destruct (Z.ltb_spec m (n / k)) as [Hlt|Hge].
      + assert (m * k < n).
        { destruct (Z.lt_ge_cases (m * k) n) as [|Hc]; [assumption|].
          exfalso. assert (n / k <= m * k / k)
            by (apply Z.div_le_mono; lia).
          rewrite Z.div_mul in H0 by lia. lia. }
        rewrite Z.min_r by lia. apply Z.div_mul. lia.
      + destruct (Z.le_gt_cases n (m * k)) as [Hle|Hgt].
        * rewrite Z.min_l by lia. reflexivity.
        * rewrite Z.min_r by lia. rewrite Z.div_mul by lia.
          assert (m * k / k <= n / k) by (apply Z.div_le_mono; lia).
          rewrite Z.div_mul in H0 by lia. lia.
    - pose proof (@train_batches_unlimited _ _ _ _ _ _ _ E H) as Hall.
      assert (p = List.length batches) by lia. subst p. reflexivity. }
  rewrite Hw in Hself, Hopt, Hsched.
  split; [exact Hopt|]. split; [exact Hsched|].
  rewrite Hself. reflexivity.
Qed.

(** *** A logging interval of zero *)



(** *** The host copy of the state dict *)

Lemma tensor_cpu_host (v : loc) (s : State) :
  exists ext v',
    tensor_cpu v s = (extend s ext, Ok v') /\
    ((v < List.length (heap s))%nat ->
     (v' < List.length (heap s ++ ext))%nat /\
     t_data (heap_get (heap s ++ ext) v') = t_data (heap_get (heap s) v) /\
     is_cpu (t_device (heap_get (heap s ++ ext) v')) = true /\
     (is_cpu (t_device (heap_get (heap s) v)) = true -> v' = v) /\
     (is_cpu (t_device (heap_get (heap s) v)) = false ->
      v' = List.length (heap s))).
Proof.
  unfold tensor_cpu, bind, get_heap, ret, alloc.
  destruct (is_cpu (t_device (heap_get (heap s) v))) eqn:E.
  - exists [], v. rewrite extend_nil. split; [reflexivity|].
    intro H. rewrite app_nil_r.
    repeat split; try assumption; try reflexivity; try discriminate.
  - eexists [_], (List.length (heap s)). split; [reflexivity|].
    intros _. rewrite heap_get_new, length_app. simpl.
    repeat split; try lia; try reflexivity; try discriminate.
Qed.

Lemma host_entry_extend (h h' ext : Heap) (kv kv' : pname * loc) :
  host_entry h h' kv kv' -> host_entry h (h' ++ ext) kv kv'.
Proof.
  intros [Hk Hv]. split; [assumption|]. intro Hval.
  destruct (Hv Hval) as (Hlt & Hd & Hc & Ha & Hn).
  rewrite length_app, heap_get_app by assumption.
  repeat split; try assumption. lia.
Qed.

Lemma host_copy_run (sd : state_dict_t) : forall (h : Heap) (s : State)
    (pre : Heap),
  heap s = h ++ pre ->
  exists ext sd',
    mapM (fun kv => v <- tensor_cpu (snd kv) ;; ret (fst kv, v)) sd s
      = (extend s ext, Ok sd') /\
    Forall2 (host_entry h (heap s ++ ext)) sd sd'.
Proof.
  induction sd as [|kv sd IH]; intros h s pre Hs.
  - exists [], []. simpl. unfold ret. rewrite extend_nil.
    split; [reflexivity | constructor].
  - destruct (tensor_cpu_host (snd kv) s) as (e1 & v' & Hrun & Hv).
    destruct (IH h (extend s e1) (pre ++ e1)) as (e2 & sd' & Hrest & Hall).
    { unfold extend. simpl. rewrite Hs, app_assoc. reflexivity. }
    exists (e1 ++ e2), ((fst kv, v') :: sd'). split.
    + assert (Hhead : (v <- tensor_cpu (snd kv) ;; ret (fst kv, v)) s
                      = (extend s e1, Ok (fst kv, v'))).
      { unfold bind. rewrite Hrun. reflexivity. }
      simpl. erewrite bind_run by exact Hhead. erewrite bind_run by exact Hrest.
      unfold ret. rewrite extend_extend. reflexivity.
    + rewrite app_assoc. constructor.
      * apply host_entry_extend. split; [reflexivity|].
        intro Hval. simpl.
        assert (Hlt : (snd kv < List.length (heap s))%nat).
        { rewrite Hs, length_app. lia. }
        destruct (Hv Hlt) as (H1 & H2 & H3 & H4 & H5).
        assert (Hsame : heap_get (heap s) (snd kv) = heap_get h (snd kv)).
        { rewrite Hs. apply heap_get_app. assumption. }
        rewrite Hsame in H2, H4, H5.
        repeat split; try assumption.
        intro Hdev. rewrite (H5 Hdev), Hs, length_app. lia.
      * exact Hall.
Qed.

Lemma host_copy_of_host_model (sd : state_dict_t) (s : State) :
  Forall (fun kv => is_cpu (t_device (heap_get (heap s) (snd kv))) = true)
         sd ->
  mapM (fun kv => v <- tensor_cpu (snd kv) ;; ret (fst kv, v)) sd s
  = (s, Ok sd).
Proof.
  induction 1 as [|[k v] sd Hkv _ IH]; [reflexivity|].
  simpl. simpl in Hkv.
  assert (Hhead : (v0 <- tensor_cpu v ;; ret (k, v0)) s = (s, Ok (k, v))).
  { unfold bind. rewrite (tensor_cpu_aliases_host_tensor _ _ Hkv).
    reflexivity. }
  erewrite bind_run by exact Hhead. erewrite bind_run by exact IH.
  reflexivity.
Qed.

(** X18.  The host copy that save_checkpoint makes of the state dict of the
    model, [{k: v.cpu() for k, v in self._model.state_dict().items()}]:
    it always succeeds, changes no existing tensor and only creates new
    ones, and yields the same names in the same order; every valid entry
    is a tensor in host memory with the entries of the live one, a new
    tensor when the live one is on a device, and the live tensor itself
    when that is already in host memory.  So for a model that lives in host
    memory nothing is copied: the dict that is handed to the merge holds
    the live tensors. *)
Theorem state_dict_host_copy (sd : state_dict_t) (s : State) :
  let to_host :=
    mapM (fun kv => v <- tensor_cpu (snd kv) ;; ret (fst kv, v)) sd in
  (exists ext sd',
     to_host s = (mkState (self s) (heap s ++ ext) (optimizer s) (trace s),
                  Ok sd') /\
     map fst sd' = map fst sd /\
     Forall2 (host_entry (heap s) (heap s ++ ext)) sd sd') /\
  (Forall (fun kv => is_cpu (t_device (heap_get (heap s) (snd kv))) = true)
          sd ->
   to_host s = (s, Ok sd)).
Proof.
  intro to_host. split.
  - destruct (@host_copy_run sd (heap s) s [] ltac:(symmetry; apply app_nil_r))
      as (ext & sd' & Hrun & Hall).
    exists ext, sd'. split; [exact Hrun|]. split; [|exact Hall].
    clear Hrun. induction Hall as [|kv kv' sd0 sd0' [Hk _] _ IH];
      [reflexivity|]. simpl. rewrite Hk, IH. reflexivity.
  - apply host_copy_of_host_model.
Qed.

End KDRecipe.

(** ** The properties on example data *)


(** C8 on an example: a recipe that is resuming raises at load_checkpoint
    although the checkpointer has read a bundle. *)
Lemma load_checkpoint_resume_unsupported_witness :
  snd (load_checkpoint (Ok [(MODEL_KEY, VStateDict example_model)])
         (initial_state (example_constructed true)))
  = Raise (RuntimeError "Resume from checkpoint is not supported yet.").
Proof.
  destruct (load_checkpoint_resume_unsupported
              (initial_state (example_constructed true))
              (Ok [(MODEL_KEY, VStateDict example_model)])) as [H _].
  destruct (H eq_refl) as [_ H'].
  exact (H' _ eq_refl).
Defined.

(** C3 on an example: two rows of three labels. *)
Lemma shift_labels_positions_witness :
  exists shifted,
    shift_labels (torch_full_column 2 (-100)) [[1; 2; 3]; [4; 5; 6]]
      = Ok shifted /\
    List.length shifted = 2%nat /\
    forall r row, nth_error [[1; 2; 3]; [4; 5; 6]] r = Some row ->
      exists row', nth_error shifted r = Some row' /\
        (forall i, (i + 1 < 3)%nat ->
           nth_error row' i = nth_error row (i + 1)) /\
        ((0 < 3)%nat ->
           List.length row' = 3%nat /\
           nth_error row' (3 - 1) = Some (-100)).
Proof.
  apply (@shift_labels_positions 2 (-100) [[1; 2; 3]; [4; 5; 6]] 3).
  - simpl. lia.
  - repeat constructor.
Defined.

(** C2 on an example: the save of epoch 0 of 3 is intermediate, and its
    bundle has the five resume keys before the three model keys. *)
Lemma save_checkpoint_bundle_contents_witness :
  exists s' d,
    save_checkpoint example_lora_module_names example_dora_rescale 0
                    (example_state 2 1 None) = (s', Ok tt) /\
    trace s' = [EvPerfCounter; EvSaveCheckpoint d 0 true false] /\
    dict_keys d = [OPT_KEY; SEED_KEY; EPOCHS_KEY; TOTAL_EPOCHS_KEY;
                   MAX_STEPS_KEY; MODEL_KEY; ADAPTER_KEY; ADAPTER_CONFIG].
Proof.
  destruct (@save_checkpoint_bundle_contents example_lora_module_names
              example_dora_rescale 0 (example_state 2 1 None)
              example_components (mkCheckpointer false (Ok []))
              eq_refl eq_refl)
    as (s' & d & i & Hrun & Htr & Hiff & Hint & _).
  assert (Hi : i = true) by (apply Hiff; reflexivity).
  exists s', d. split; [exact Hrun|]. split.
  - rewrite Htr, Hi. reflexivity.
  - exact (proj1 (Hint Hi)).
Defined.

(** C2, as the specification words it, fails: the bundle of an intermediate
    save holds neither global_step, nor the accumulation window, nor the
    resume flag, nor the clipping norm, nor the adapter-only flag. *)
Lemma save_checkpoint_bundle_omits_recipe_fields :
  let s := example_state 2 1 None in
  exists s' d,
    save_checkpoint example_lora_module_names example_dora_rescale 0 s
      = (s', Ok tt) /\
    trace s' = trace s ++ [EvSaveCheckpoint d 0 true false] /\
    0 + 1 < total_epochs (self s) /\
    ~ spec_bundle_contains d (VInt (global_step (self s))) /\
    ~ spec_bundle_contains d (VInt (_gradient_accumulation_steps (self s))) /\
    ~ spec_bundle_contains d (VBool (_resume_from_checkpoint (self s))) /\
    ~ spec_bundle_contains d (VFloat (_clip_grad_norm (self s))) /\
    ~ spec_bundle_contains d (VBool (_save_adapter_weights_only (self s))) /\
    ~ spec_intermediate_bundle (self s) (optimizer s) d.
Proof.
  cbv zeta.
  eexists. eexists. split; [vm_compute; reflexivity|].
  split; [reflexivity|]. split; [reflexivity|].
  assert (H1 : forall v, (forall n, v <> VOptInt n) ->
            (forall o, v <> VOptimizer o) ->
            (forall sd, v <> VStateDict sd) ->
            (forall c, v <> VAdapterConfig c) ->
            v <> VInt 42 -> v <> VInt 1 -> v <> VInt 3 ->
            ~ spec_bundle_contains
                [(OPT_KEY, VOptimizer {| opt_steps_taken := 5 |});
                 (SEED_KEY, VInt 42); (EPOCHS_KEY, VInt 1);
                 (TOTAL_EPOCHS_KEY, VInt 3); (MAX_STEPS_KEY, VOptInt None);
                 (MODEL_KEY,
                  VStateDict
                    [(BaseWeight "q_proj", 7%nat); (LoraA "q_proj", 5%nat);
                     (LoraB "q_proj", 6%nat);
                     (OtherParam "norm.scale", 3%nat)]);
                 (ADAPTER_KEY,
                  VStateDict
                    [(LoraA "q_proj", 1%nat); (LoraB "q_proj", 2%nat)]);
                 (ADAPTER_CONFIG,
                  VAdapterConfig
                    {| ac_r := 2; ac_lora_alpha := 4;
                       ac_target_modules := ["q_proj"];
                       ac_peft_type := "LORA" |})] v).
  { intros v Hn Ho Hsd Hc H42 H1 H3 [k Hk].
    destruct k; simpl in Hk; inversion Hk; subst v;
      solve [ eapply Hn; reflexivity | eapply Ho; reflexivity
            | eapply Hsd; reflexivity | eapply Hc; reflexivity
            | apply H42; reflexivity | apply H1; reflexivity
            | apply H3; reflexivity ]. }
  assert (G : ~ spec_bundle_contains _ (VInt 7))
    by (apply H1; intros; discriminate).
  repeat split; try (apply H1; intros; discriminate).
  intros (_ & _ & _ & _ & _ & Hgs & _). exact (G Hgs).
Qed.

(** C4 on an example: a 2x2 base weight with rank-2 factors and alpha 4. *)
Lemma save_checkpoint_merged_weights_witness :
  exists s' d merged v,
    save_checkpoint example_lora_module_names example_dora_rescale 2
                    (example_state 1 1 None) = (s', Ok tt) /\
    last_saved_bundle (trace s') = Some d /\
    bundle_state_dict d MODEL_KEY = Some merged /\
    sd_get merged (BaseWeight "q_proj") = Some v /\
    (mget (t_data (heap_get (heap s') v)) 1 0 == 15)%Q.
Proof.
  destruct (@save_checkpoint_merged_weights example_lora_module_names
              example_dora_rescale 2 (example_state 1 1 None)
              example_components (mkCheckpointer false (Ok []))
              "q_proj" 0%nat 1%nat 2%nat 2%nat 2%nat 2%nat
              eq_refl eq_refl
              ltac:(apply sd_valid_of_forall; repeat constructor)
              ltac:(discriminate)
              eq_refl eq_refl eq_refl
              ltac:(split; [reflexivity|repeat constructor])
              ltac:(split; [reflexivity|repeat constructor])
              ltac:(split; [reflexivity|repeat constructor])
              ltac:(lia))
    as (s' & d & merged & v & Hrun & Hd & Hm & Hv & Hplain & _).
  exists s', d, merged, v.
  repeat (split; [assumption|]).
  eapply Qeq_trans.
  - apply (Hplain eq_refl 1%nat 0%nat); lia.
  - vm_compute. reflexivity.
Defined.


(** C1 on an example: four micro-batches with a window of two take two
    optimizer steps. *)
Lemma train_steps_on_window_boundaries_witness :
  let s := example_state 2 1 None in
  let s' := fst (train_batches example_response example_optimizer_update 0 0
                   (example_batches 0) example_locals s) in
  exists p : nat,
    p = 4%nat /\
    global_step (self s') = 7 + Z.of_nat p / 2 /\
    Z.of_nat (count_events is_optimizer_step (trace s')) = Z.of_nat p / 2 /\
    Z.of_nat (count_events is_scheduler_step (trace s')) = Z.of_nat p / 2.
Proof.
  cbv zeta.
  destruct (proj2 (@train_steps_on_window_boundaries example_response
                     example_optimizer_update 0)
              0 (example_batches 0) example_locals
              (result_or
                 (snd (train_batches example_response example_optimizer_update
                         0 0 (example_batches 0) example_locals
                         (example_state 2 1 None))) example_locals)
              (example_state 2 1 None)
              (fst (train_batches example_response example_optimizer_update
                      0 0 (example_batches 0) example_locals
                      (example_state 2 1 None)))
              ltac:(reflexivity)
              ltac:(vm_compute; reflexivity))
    as (p & Hp & Hgs & Hopt & _ & Hsched & _).
  vm_compute in Hp. subst p. exists 4%nat.
  split; [reflexivity|]. split; [exact Hgs|]. split; [exact Hopt|].
  exact Hsched.
Defined.

(** C6 on an example: with a limit of one step and a window of two, two of
    the four micro-batches of the epoch are processed. *)
Lemma train_epoch_truncated_witness :
  let s := example_state 2 1 (Some 1) in
  let s' := fst (train_batches example_response example_optimizer_update 0 0
                   (example_batches 0) example_locals s) in
  Z.of_nat (count_events is_backward (trace s'))
  - Z.of_nat (count_events is_backward (trace s)) = 2.
Proof.
  cbv zeta.
  destruct (@train_epoch_truncated example_response example_optimizer_update
              example_lora_module_names example_dora_rescale 0 1
              (example_state 2 1 (Some 1))
              eq_refl ltac:(reflexivity) ltac:(discriminate))
    as (_ & H & _).
  apply (H (example_batches 0) example_locals _
           (result_or
              (snd (train_batches example_response example_optimizer_update
                      0 0 (example_batches 0) example_locals
                      (example_state 2 1 (Some 1)))) example_locals)).
  vm_compute. reflexivity.
Defined.




(** X1 on an example: two rows of three labels, flattened. *)
Lemma loss_step_shifted_labels_witness :
  _loss_step example_response example_batch_a (example_state 1 1 None)
  = (mkState (example_recipe 1 1 None) example_heap (mkOptState 5)
       [EvPerfCounter; EvModelForward (tokens example_batch_a);
        EvLossFn (Flat [12; 13; -100; 15; 16; -100])],
     Ok (example_response 2)).
Proof.
  exact (proj1 (@loss_step_shifted_labels example_response example_batch_a
                  (example_state 1 1 None) example_components 2 (-100)
                  eq_refl eq_refl ltac:(simpl; lia))).
Defined.

(** X2 on an example: three rows against a label cache of two. *)
Lemma loss_step_oversized_batch_witness :
  exists msg,
    _loss_step example_response example_batch_wide (example_state 1 1 None)
    = (mkState (example_recipe 1 1 None) example_heap (mkOptState 5)
         [EvPerfCounter; EvModelForward (tokens example_batch_wide)],
       Raise (RuntimeError msg)).
Proof.
  exact (@loss_step_oversized_batch example_response example_batch_wide
           (example_state 1 1 None) example_components 2 (-100)
           eq_refl eq_refl ltac:(simpl; lia)).
Defined.


(** X4 on an example: a checkpoint that holds nothing. *)
Lemma setup_missing_model_weights_witness :
  exists s',
    setup example_config
      (mkInstantiated (Ok []) example_model example_heap
         [LoraA "q_proj"; LoraB "q_proj"] (Ok tt) (-100) false
         example_batches)
      (initial_state (example_constructed false))
    = (s', Raise (KeyError "MODEL_KEY")) /\
    trace s' = [EvLogConfig; EvLoadCheckpoint].
Proof.
  destruct (@setup_missing_model_weights example_config
              (mkInstantiated (Ok []) example_model example_heap
                 [LoraA "q_proj"; LoraB "q_proj"] (Ok tt) (-100) false
                 example_batches)
              (initial_state (example_constructed false)) []
              eq_refl eq_refl eq_refl)
    as (s' & Hrun & _ & _ & Htr).
  exists s'. split; [exact Hrun|exact Htr].
Defined.


(** X6 on an example: train right after construction. *)
Lemma train_before_setup_witness :
  train example_response example_optimizer_update example_lora_module_names
        example_dora_rescale (initial_state (example_constructed false))
  = (initial_state (example_constructed false),
     Raise (AttributeError "_model_compile")).
Proof.
  exact (@train_before_setup example_get_device example_get_dtype false
           example_set_seed example_response example_optimizer_update
           example_lora_module_names example_dora_rescale example_config
           (example_constructed false) ltac:(reflexivity)).
Defined.



(** X9 on an example: the adapter dict holds lora_a of q_proj as the live
    model does, and not the base weight. *)
Lemma save_checkpoint_adapter_entries_witness :
  exists s' d adapter,
    save_checkpoint example_lora_module_names example_dora_rescale 0
                    (example_state 1 1 None) = (s', Ok tt) /\
    last_saved_bundle (trace s') = Some d /\
    bundle_state_dict d ADAPTER_KEY = Some adapter /\
    sd_get adapter (LoraA "q_proj") = Some 1%nat /\
    sd_get adapter (BaseWeight "q_proj") = None.
Proof.
  destruct (@save_checkpoint_adapter_entries example_lora_module_names
              example_dora_rescale 0 (example_state 1 1 None)
              example_components (mkCheckpointer false (Ok []))
              eq_refl eq_refl)
    as (s' & d & adapter & Hrun & Hd & Ha & Hk & _).
  exists s', d, adapter.
  split; [exact Hrun|]. split; [exact Hd|]. split; [exact Ha|].
  split; [exact (Hk (LoraA "q_proj"))|exact (Hk (BaseWeight "q_proj"))].
Defined.

(** X10 on an example: three batches with a window of two are all
    back-propagated, with one optimizer step. *)
Lemma train_batches_without_limit_witness :
  let s := example_state 2 1 None in
  let s' := fst (train_batches example_response example_optimizer_update 0 0
                   [example_batch_a; example_batch_b; example_batch_a]
                   example_locals s) in
  Z.of_nat (count_events is_backward (trace s'))
  - Z.of_nat (count_events is_backward (trace s)) = 3 /\
  Z.of_nat (count_events is_optimizer_step (trace s'))
  - Z.of_nat (count_events is_optimizer_step (trace s)) = 1.
Proof.
  cbv zeta.
  destruct (@train_batches_without_limit example_response
              example_optimizer_update 0
              [example_batch_a; example_batch_b; example_batch_a]
              example_locals
              (result_or
                 (snd (train_batches example_response
                         example_optimizer_update 0 0
                         [example_batch_a; example_batch_b; example_batch_a]
                         example_locals (example_state 2 1 None)))
                 example_locals)
              (example_state 2 1 None)
              (fst (train_batches example_response example_optimizer_update
                      0 0 [example_batch_a; example_batch_b; example_batch_a]
                      example_locals (example_state 2 1 None)))
              eq_refl ltac:(reflexivity) ltac:(vm_compute; reflexivity))
    as (H1 & H2 & _).
  split; [exact H1|exact H2].
Defined.



(** X14 on an example: with wait_steps = warmup_steps = 0 and
    active_steps = 1, micro-batch 0 of epoch 0 switches the recording on
    and not off. *)
Lemma train_batch_memory_window_witness :
  let s := example_state 1 1 None in
  let s' := fst (train_batch example_response example_optimizer_update 0 0
                   example_batch_a example_locals s) in
  count_events (is_memory_history true) (trace s') = 1%nat /\
  count_events (is_memory_history false) (trace s') = 0%nat /\
  nth_error (trace s') 1 = Some (EvRecordMemoryHistory true).
Proof.
  cbv zeta.
  destruct (@train_batch_memory_window example_response
              example_optimizer_update 0 0 example_batch_a example_locals
              (result_or
                 (snd (train_batch example_response example_optimizer_update
                         0 0 example_batch_a example_locals
                         (example_state 1 1 None))) example_locals)
              (example_state 1 1 None)
              (fst (train_batch example_response example_optimizer_update
                      0 0 example_batch_a example_locals
                      (example_state 1 1 None)))
              ltac:(vm_compute; reflexivity))
    as (Hon & Hoff & Hfirst & _).
  split; [exact Hon|]. split; [exact Hoff|]. exact (Hfirst eq_refl).
Defined.


(** X16 on an example: four batches, a window of two and a limit of one
    step: one optimizer step. *)
Lemma train_batches_takes_planned_steps_witness :
  let s := example_state 2 1 (Some 1) in
  let s' := fst (train_batches example_response example_optimizer_update 0 0
                   (example_batches 0) example_locals s) in
  Z.of_nat (count_events is_optimizer_step (trace s'))
  = Z.of_nat (count_events is_optimizer_step (trace s)) + 1 /\
  global_step (self s') = 7 + 1.
Proof.
  cbv zeta.
  destruct (@train_batches_takes_planned_steps example_response
              example_optimizer_update 0 (example_batches 0) example_locals
              (result_or
                 (snd (train_batches example_response
                         example_optimizer_update 0 0 (example_batches 0)
                         example_locals (example_state 2 1 (Some 1))))
                 example_locals)
              (example_state 2 1 (Some 1))
              (fst (train_batches example_response example_optimizer_update
                      0 0 (example_batches 0) example_locals
                      (example_state 2 1 (Some 1))))
              ltac:(reflexivity)
              ltac:(intros m E; vm_compute in E; inversion E; lia)
              ltac:(vm_compute; reflexivity))
    as (Hopt & _ & Hgs).
  split; [exact Hopt|exact Hgs].
Defined.

